(** * Decision Game: screen / loading / conversation / quiz engine

    A shallow embedding of the state-driven core of the Decision Game
    (frontend/main_game.py, frontend/game_logic.py,
    frontend/event_handlers.py, frontend/ui.py, frontend/ai_service.py)
    and the properties its specification states about it, followed by
    further properties of the same code: text boxes and keyboard input,
    text layout, the login, quiz and conversation flows, the thread
    bodies, and the other calls of the AI wrapper.

    Conventions of the embedding:
    - the single mutable [DecisionGame] object is a record that every
      method takes and returns (explicit state passing);
    - every read of [pygame.time.get_ticks()] is an argument [now];
    - Python [int] is [Z]; Python [float] is the kernel's binary64
      [float], so that [int(elapsed / 2000 * 100)] rounds as it does in
      CPython;
    - Python [str] is [string], one character per code point, for the
      code points up to 255; the en dashes of three profile
      descriptions lie outside and stand as their UTF-8 bytes, in texts
      that are only displayed;
    - a raised exception that the modelled code does not catch is [None]. *)

From Stdlib Require Import ZArith List String Ascii Bool Lia Permutation.
From Stdlib Require Import Floats DecimalString.
Import ListNotations.
Open Scope string_scope.
Open Scope Z_scope.

(* ===================================================================== *)
(** ** Python strings *)
(* ===================================================================== *)

Module PyStr.

(** [str.isspace] on one character, which is the white space
    [str.strip] removes: among the code points up to 255 these are TAB,
    LF, VT, FF, CR, the separators FS GS RS US, the space, NEL (U+0085)
    and the no-break space (U+00A0). *)
Definition isspace (c : ascii) : bool :=
  let n := nat_of_ascii c in
  (Nat.eqb n 32 || (Nat.leb 9 n && Nat.leb n 13)
                || (Nat.leb 28 n && Nat.leb n 31)
                || Nat.eqb n 133 || Nat.eqb n 160)%bool.

Fixpoint lstrip (s : string) : string :=
  match s with
  | EmptyString => EmptyString
  | String c r => if isspace c then lstrip r else s
  end.

Fixpoint rev_onto (s acc : string) : string :=
  match s with
  | EmptyString => acc
  | String c r => rev_onto r (String c acc)
  end.

Definition reverse (s : string) : string := rev_onto s EmptyString.

Definition rstrip (s : string) : string := reverse (lstrip (reverse s)).

(** [s.strip()] *)
Definition strip (s : string) : string := rstrip (lstrip s).

(** Truth value of a string: [bool(s)]. *)
Definition truthy (s : string) : bool :=
  match s with EmptyString => false | String _ _ => true end.

(** [s.startswith(p)] *)
Definition startswith (p s : string) : bool := String.prefix p s.

(** The newline character. *)
Definition nl : string := String (ascii_of_nat 10) EmptyString.

Definition can_split (budget : option nat) : bool :=
  match budget with Some O => false | _ => true end.

Definition spend (budget : option nat) : option nat :=
  match budget with Some (S k) => Some k | other => other end.

(** [s.split(sep, maxsplit)] for a non-empty [sep], scanning left to
    right: [skip] counts the characters of a separator still to be
    passed over, [cur] is the piece being collected. *)
Fixpoint split_from (sep : string) (budget : option nat) (skip : nat)
         (cur : string) (s : string) {struct s} : list string :=
  match s with
  | EmptyString => [cur]
  | String c r =>
      match skip with
      | S k => split_from sep budget k cur r
      | O =>
          if (can_split budget && String.prefix sep s)%bool
          then cur :: split_from sep (spend budget) (String.length sep - 1) "" r
          else split_from sep budget O (cur ++ String c "") r
      end
  end.

(** [s.split(sep)] *)
Definition split (sep s : string) : list string :=
  split_from sep None O "" s.

(** [s.split(sep, n)] *)
Definition split_max (sep : string) (n : nat) (s : string) : list string :=
  split_from sep (Some n) O "" s.

(** [sep.join(parts)] *)
Fixpoint join (sep : string) (parts : list string) : string :=
  match parts with
  | [] => ""
  | [p] => p
  | p :: rest => p ++ sep ++ join sep rest
  end.

(** [sub in s] *)
Fixpoint contains (sub s : string) : bool :=
  (String.prefix sub s ||
   match s with
   | EmptyString => false
   | String _ r => contains sub r
   end)%bool.

(** Position of the first / last occurrence of a character. *)
Fixpoint find_char (c : ascii) (s : string) : option nat :=
  match s with
  | EmptyString => None
  | String d r =>
      if Ascii.eqb c d then Some O
      else option_map S (find_char c r)
  end.

Fixpoint rfind_char (c : ascii) (s : string) : option nat :=
  match s with
  | EmptyString => None
  | String d r =>
      match rfind_char c r with
      | Some i => Some (S i)
      | None => if Ascii.eqb c d then Some O else None
      end
  end.

(** [re.search(r'\{.*\}', s, re.DOTALL)]: the greedy match runs from the
    first opening brace to the last closing brace after it. *)
Definition search_braces (s : string) : option string :=
  match find_char "{"%char s with
  | None => None
  | Some i =>
      let tail := String.substring i (String.length s - i) s in
      match rfind_char "}"%char tail with
      | None => None
      | Some j => Some (String.substring O (S j) tail)
      end
  end.

End PyStr.

(* ===================================================================== *)
(** ** Python floats *)
(* ===================================================================== *)

Module PyFloat.

(** [float(z)] for a tick count (SDL ticks are 32-bit milliseconds). *)
Definition of_int (z : Z) : float :=
  if z <? 0
  then PrimFloat.opp (PrimFloat.of_uint63 (Uint63.of_Z (- z)))
  else PrimFloat.of_uint63 (Uint63.of_Z z).

(** [int(f)]: truncation toward zero of a finite float (CPython raises
    on an infinity or a NaN, which no finite tick count produces). *)
Definition to_int (f : float) : Z :=
  match Prim2SF f with
  | S754_finite s m e =>
      let mag :=
        match e with
        | Z0 => Zpos m
        | Zpos p => Zpos m * 2 ^ Zpos p
        | Zneg p => Zpos m / 2 ^ Zpos p
        end in
      if s then - mag else mag
  | _ => 0
  end.

End PyFloat.

(* ===================================================================== *)
(** ** Widgets (frontend/ui.py) *)
(* ===================================================================== *)

Definition Color : Type := (Z * Z * Z)%type.
Definition Pos : Type := (Z * Z)%type.

(** [pygame.Rect] and its [collidepoint]: the left and top edges belong
    to the rectangle, the right and bottom edges do not. *)
Record Rect := { rx : Z; ry : Z; rw : Z; rh : Z }.

Definition collidepoint (r : Rect) (p : Pos) : bool :=
  ((rx r <=? fst p) && (fst p <? rx r + rw r) &&
   (ry r <=? snd p) && (snd p <? ry r + rh r))%bool.

Module Button.

Record t := {
  rect : Rect;
  visible : bool;
  disabled : bool;
  last_click_time : Z
}.

(** [Button(x, y, width, height, text, visible=...)] with the default
    centre alignment. *)
Definition init (x y width height : Z) (vis : bool) : t :=
  {| rect := {| rx := x - width / 2; ry := y; rw := width; rh := height |};
     visible := vis; disabled := false; last_click_time := 0 |}.

Definition set_visible (v : bool) (b : t) : t :=
  {| rect := rect b; visible := v; disabled := disabled b;
     last_click_time := last_click_time b |}.

(** [Button.is_clicked]: the hit test, and the click time it records. *)
Definition is_clicked (now : Z) (mouse_pos : Pos) (b : t) : bool * t :=
  let result := (visible b && negb (disabled b)
                 && collidepoint (rect b) mouse_pos)%bool in
  if result
  then (true, {| rect := rect b; visible := visible b;
                 disabled := disabled b; last_click_time := now |})
  else (false, b).

End Button.

Module TextBox.

Record t := {
  rect : Rect;
  text : string;
  active : bool;
  multiline : bool;
  visible : bool;
  lines : list string;
  current_line : Z;
  cursor_pos : Z;
  cursor_pos_single : Z;
  scroll_y : Z;
  cursor_visible : bool;
  last_cursor_toggle : Z
}.

Definition line_height : Z := 30.

(** [TextBox(x, y, width, height, multiline=...)] with the default
    centre alignment, built at tick [now]. *)
Definition init (x y width height : Z) (multi : bool) (now : Z) : t :=
  {| rect := {| rx := x - width / 2; ry := y; rw := width; rh := height |};
     text := ""; active := false; multiline := multi; visible := true;
     lines := [""]; current_line := 0; cursor_pos := 0;
     cursor_pos_single := 0; scroll_y := 0; cursor_visible := true;
     last_cursor_toggle := now |}.

(** [TextBox.get_text] *)
Definition get_text (tb : t) : string :=
  if multiline tb then PyStr.join PyStr.nl (lines tb) else text tb.

(** [TextBox.set_text] *)
Definition set_text (s : string) (tb : t) : t :=
  if multiline tb then
    let ls := PyStr.split PyStr.nl s in
    let ls := match ls with [] => [""] | _ => ls end in
    {| rect := rect tb; text := text tb; active := active tb;
       multiline := multiline tb; visible := visible tb;
       lines := ls; current_line := 0; cursor_pos := 0;
       cursor_pos_single := cursor_pos_single tb;
       scroll_y := scroll_y tb; cursor_visible := cursor_visible tb;
       last_cursor_toggle := last_cursor_toggle tb |}
  else
    {| rect := rect tb; text := s; active := active tb;
       multiline := multiline tb; visible := visible tb;
       lines := lines tb; current_line := current_line tb;
       cursor_pos := cursor_pos tb;
       cursor_pos_single := Z.of_nat (String.length s);
       scroll_y := scroll_y tb; cursor_visible := cursor_visible tb;
       last_cursor_toggle := last_cursor_toggle tb |}.

Section Font.

(** [self.font.render(s, True, BLACK).get_width()], pygame's font
    metric. *)
Variable text_width : string -> Z.

(** The loop that places the cursor under the pointer: the first
    index whose prefix is at least [rel_x] wide, the length of the
    line when there is none. *)
Fixpoint cursor_scan (fuel i : nat) (line : string) (rel_x : Z) : Z :=
  match fuel with
  | O => Z.of_nat (String.length line)
  | S fuel' =>
      if rel_x <=? text_width (String.substring 0 (S i) line)
      then Z.of_nat i
      else cursor_scan fuel' (S i) line rel_x
  end.

Definition cursor_from_click (line : string) (rel_x : Z) : Z :=
  cursor_scan (String.length line) O line rel_x.

(** [TextBox.handle_event] on a [MOUSEBUTTONDOWN] event at [pos], the
    only event the command handlers below replay into a text box. *)
Definition handle_event (now : Z) (pos : Pos) (tb : t) : t :=
  if negb (visible tb) then tb
  else
    let was_active := active tb in
    let act := collidepoint (rect tb) pos in
    let cv := if act then true else cursor_visible tb in
    let lt := if act then now else last_cursor_toggle tb in
    if (act && multiline tb && was_active)%bool then
      let rel_y := snd pos - ry (rect tb) - 5 + scroll_y tb in
      let clicked_line :=
        Z.min (Z.max (rel_y / line_height) 0)
              (Z.of_nat (List.length (lines tb)) - 1) in
      let rel_x := fst pos - rx (rect tb) - 5 in
      let line := nth (Z.to_nat clicked_line) (lines tb) "" in
      {| rect := rect tb; text := text tb; active := act;
         multiline := multiline tb; visible := visible tb;
         lines := lines tb; current_line := clicked_line;
         cursor_pos := cursor_from_click line rel_x;
         cursor_pos_single := cursor_pos_single tb;
         scroll_y := scroll_y tb; cursor_visible := cv;
         last_cursor_toggle := lt |}
    else if (act && negb (multiline tb))%bool then
      let rel_x := fst pos - rx (rect tb) - 5 in
      {| rect := rect tb; text := text tb; active := act;
         multiline := multiline tb; visible := visible tb;
         lines := lines tb; current_line := current_line tb;
         cursor_pos := cursor_pos tb;
         cursor_pos_single :=
           if PyStr.truthy (text tb)
           then cursor_from_click (text tb) rel_x else 0;
         scroll_y := scroll_y tb; cursor_visible := cv;
         last_cursor_toggle := lt |}
    else
      {| rect := rect tb; text := text tb; active := act;
         multiline := multiline tb; visible := visible tb;
         lines := lines tb; current_line := current_line tb;
         cursor_pos := cursor_pos tb;
         cursor_pos_single := cursor_pos_single tb;
         scroll_y := scroll_y tb; cursor_visible := cv;
         last_cursor_toggle := lt |}.

End Font.

End TextBox.

(* ===================================================================== *)
(** ** Application state (frontend/main_game.py, [DecisionGame]) *)
(* ===================================================================== *)

(** The game states, the class constants of [DecisionGame]. *)
Inductive Screen :=
| MAIN_MENU | LOGIN | REGISTER | SCENARIO | LETS_TALK | HISTORY | SETTINGS
| PERSONALITY_TEST | PERSONALITY_RESULT | SIMULATION | SIMULATION_RESULT
| SIMULATION_REPORT | LOADING.

(** The string each constant is bound to. *)
Definition screen_name (s : Screen) : string :=
  match s with
  | MAIN_MENU => "main_menu"
  | LOGIN => "login"
  | REGISTER => "register"
  | SCENARIO => "scenario"
  | LETS_TALK => "lets_talk"
  | HISTORY => "history"
  | SETTINGS => "settings"
  | PERSONALITY_TEST => "personality_test"
  | PERSONALITY_RESULT => "personality_result"
  | SIMULATION => "simulation"
  | SIMULATION_RESULT => "simulation_result"
  | SIMULATION_REPORT => "simulation_report"
  | LOADING => "loading"
  end.

Definition screen_eqb (a b : Screen) : bool :=
  String.eqb (screen_name a) (screen_name b).

(** The closures the handlers pass to [start_loading] as [operation]. *)
Inductive Operation :=
| OpLogin (username password : string)
| OpRegistration (username email password fullname : string)
| OpScenarioAnalysis (scenario_text : string)
| OpLoadPersonalityTest
| OpSubmitMbtiToApi
| OpGenerateLocalMbti
| OpLoadHistory
| OpHistorySearch (search_text : string).

(** A started [threading.Thread]: what it runs and whether it still runs. *)
Record Thread := { target : Operation; is_alive : bool }.

(** [conversation_summary], as [generate_conversation_summary] builds it. *)
Record Summary := {
  clarity_level : string;
  key_insights : list string;
  suggested_next_steps : list string
}.

(** One MBTI question dictionary; an absent key is [None]. *)
Record Question := {
  q_id : option Z;
  q_question : string;
  q_options : list string;
  q_dimension : option string
}.

(** The dictionary [_get_mbti_type_description] returns. *)
Record MbtiResult := {
  mr_type : string;
  mr_description : string;
  mr_strengths : list string;
  mr_weaknesses : list string;
  mr_career_matches : list string
}.

(** "Loading screen state" *)
Record Loading := {
  is_loading : bool;
  loading_message : string;
  loading_target_state : option Screen;
  loading_progress : Z;
  loading_start_time : Z;
  loading_operation : option Thread;
  loading_completed : bool;
  loading_animation_frames : Z
}.

(** "User data": the conversation. [conversation_summary] is [None] while
    it is the empty dictionary. *)
Record Conversation := {
  conversation_questions : list string;
  current_question_index : Z;
  user_responses : list string;
  conversation_complete : bool;
  conversation_summary : option Summary
}.

(** "MBTI data". [mbti_answers] is the dictionary question id -> option
    index, in insertion order; [mbti_result] is [None] while it is empty. *)
Record Quiz := {
  mbti_questions : list Question;
  current_mbti_index : Z;
  mbti_answers : list (Z * Z);
  mbti_result : option MbtiResult
}.

(** The widgets the modelled handlers touch. [response_input] exists only
    once [setup_conversation_ui] has run ([hasattr]); the others are
    created by [UIComponents.initialize_all_components]. *)
Record Widgets := {
  username_box : TextBox.t;
  password_box : TextBox.t;
  scenario_input_box : TextBox.t;
  response_input : option TextBox.t;
  login_submit_button : Button.t;
  back_button : Button.t;
  next_question_button : Button.t;
  previous_question_button : Button.t;
  finish_conversation_button : Button.t;
  explore_more_button : Button.t;
  new_topic_button : Button.t
}.

(** The [DecisionGame] object. [threads] is the list of operations handed
    to [threading.Thread(...).start()], oldest first. *)
Record Game := {
  current_state : Screen;
  previous_state : option Screen;
  status_message : string;
  status_color : Color;
  user : option string;
  token : option string;
  scenario_text : string;
  loading : Loading;
  conversation : Conversation;
  quiz : Quiz;
  widgets : Widgets;
  threads : list Operation
}.

(** *** Field updates *)

Definition with_current_state (s : Screen) (g : Game) : Game :=
  {| current_state := s; previous_state := previous_state g;
     status_message := status_message g; status_color := status_color g;
     user := user g; token := token g; scenario_text := scenario_text g;
     loading := loading g; conversation := conversation g; quiz := quiz g;
     widgets := widgets g; threads := threads g |}.

Definition with_previous_state (p : option Screen) (g : Game) : Game :=
  {| current_state := current_state g; previous_state := p;
     status_message := status_message g; status_color := status_color g;
     user := user g; token := token g; scenario_text := scenario_text g;
     loading := loading g; conversation := conversation g; quiz := quiz g;
     widgets := widgets g; threads := threads g |}.

Definition with_user (u : option string) (g : Game) : Game :=
  {| current_state := current_state g; previous_state := previous_state g;
     status_message := status_message g; status_color := status_color g;
     user := u; token := token g; scenario_text := scenario_text g;
     loading := loading g; conversation := conversation g; quiz := quiz g;
     widgets := widgets g; threads := threads g |}.

Definition with_token (t : option string) (g : Game) : Game :=
  {| current_state := current_state g; previous_state := previous_state g;
     status_message := status_message g; status_color := status_color g;
     user := user g; token := t; scenario_text := scenario_text g;
     loading := loading g; conversation := conversation g; quiz := quiz g;
     widgets := widgets g; threads := threads g |}.

Definition with_scenario_text (s : string) (g : Game) : Game :=
  {| current_state := current_state g; previous_state := previous_state g;
     status_message := status_message g; status_color := status_color g;
     user := user g; token := token g; scenario_text := s;
     loading := loading g; conversation := conversation g; quiz := quiz g;
     widgets := widgets g; threads := threads g |}.

Definition with_loading (l : Loading) (g : Game) : Game :=
  {| current_state := current_state g; previous_state := previous_state g;
     status_message := status_message g; status_color := status_color g;
     user := user g; token := token g; scenario_text := scenario_text g;
     loading := l; conversation := conversation g; quiz := quiz g;
     widgets := widgets g; threads := threads g |}.

Definition with_conversation (c : Conversation) (g : Game) : Game :=
  {| current_state := current_state g; previous_state := previous_state g;
     status_message := status_message g; status_color := status_color g;
     user := user g; token := token g; scenario_text := scenario_text g;
     loading := loading g; conversation := c; quiz := quiz g;
     widgets := widgets g; threads := threads g |}.

Definition with_quiz (q : Quiz) (g : Game) : Game :=
  {| current_state := current_state g; previous_state := previous_state g;
     status_message := status_message g; status_color := status_color g;
     user := user g; token := token g; scenario_text := scenario_text g;
     loading := loading g; conversation := conversation g; quiz := q;
     widgets := widgets g; threads := threads g |}.

Definition with_widgets (w : Widgets) (g : Game) : Game :=
  {| current_state := current_state g; previous_state := previous_state g;
     status_message := status_message g; status_color := status_color g;
     user := user g; token := token g; scenario_text := scenario_text g;
     loading := loading g; conversation := conversation g; quiz := quiz g;
     widgets := w; threads := threads g |}.

Definition with_threads (ts : list Operation) (g : Game) : Game :=
  {| current_state := current_state g; previous_state := previous_state g;
     status_message := status_message g; status_color := status_color g;
     user := user g; token := token g; scenario_text := scenario_text g;
     loading := loading g; conversation := conversation g; quiz := quiz g;
     widgets := widgets g; threads := ts |}.

Definition with_is_loading (b : bool) (l : Loading) : Loading :=
  {| is_loading := b; loading_message := loading_message l;
     loading_target_state := loading_target_state l;
     loading_progress := loading_progress l;
     loading_start_time := loading_start_time l;
     loading_operation := loading_operation l;
     loading_completed := loading_completed l;
     loading_animation_frames := loading_animation_frames l |}.

Definition with_loading_target_state (t : option Screen) (l : Loading) : Loading :=
  {| is_loading := is_loading l; loading_message := loading_message l;
     loading_target_state := t;
     loading_progress := loading_progress l;
     loading_start_time := loading_start_time l;
     loading_operation := loading_operation l;
     loading_completed := loading_completed l;
     loading_animation_frames := loading_animation_frames l |}.

Definition with_loading_progress (p : Z) (l : Loading) : Loading :=
  {| is_loading := is_loading l; loading_message := loading_message l;
     loading_target_state := loading_target_state l;
     loading_progress := p;
     loading_start_time := loading_start_time l;
     loading_operation := loading_operation l;
     loading_completed := loading_completed l;
     loading_animation_frames := loading_animation_frames l |}.

Definition with_loading_operation (o : option Thread) (l : Loading) : Loading :=
  {| is_loading := is_loading l; loading_message := loading_message l;
     loading_target_state := loading_target_state l;
     loading_progress := loading_progress l;
     loading_start_time := loading_start_time l;
     loading_operation := o;
     loading_completed := loading_completed l;
     loading_animation_frames := loading_animation_frames l |}.

Definition with_loading_completed (b : bool) (l : Loading) : Loading :=
  {| is_loading := is_loading l; loading_message := loading_message l;
     loading_target_state := loading_target_state l;
     loading_progress := loading_progress l;
     loading_start_time := loading_start_time l;
     loading_operation := loading_operation l;
     loading_completed := b;
     loading_animation_frames := loading_animation_frames l |}.

Definition with_loading_animation_frames (n : Z) (l : Loading) : Loading :=
  {| is_loading := is_loading l; loading_message := loading_message l;
     loading_target_state := loading_target_state l;
     loading_progress := loading_progress l;
     loading_start_time := loading_start_time l;
     loading_operation := loading_operation l;
     loading_completed := loading_completed l;
     loading_animation_frames := n |}.

Module DecisionGame.

(** [DecisionGame.set_status] *)
Definition set_status (message : string) (color : Color) (g : Game) : Game :=
  {| current_state := current_state g; previous_state := previous_state g;
     status_message := message; status_color := color;
     user := user g; token := token g; scenario_text := scenario_text g;
     loading := loading g; conversation := conversation g; quiz := quiz g;
     widgets := widgets g; threads := threads g |}.

(** The default [color] argument of [set_status]. *)
Definition default_status_color : Color := (255, 255, 255).

(** [DecisionGame.change_state] *)
Definition change_state (new_state : Screen) (save_previous : bool)
           (g : Game) : Game :=
  let g := if save_previous
           then with_previous_state (Some (current_state g)) g
           else g in
  with_current_state new_state g.

(** [DecisionGame.back_to_previous_state]. [if self.previous_state:]
    tests the truth value of the slot: [None] is false, a state name is
    true when it is a non-empty string. *)
Definition back_to_previous_state (g : Game) : Game :=
  match previous_state g with
  | Some p =>
      if PyStr.truthy (screen_name p) then
        let temp := current_state g in
        let g := with_current_state p g in
        with_previous_state (Some temp) g
      else with_current_state SCENARIO g
  | None => with_current_state SCENARIO g
  end.

(** [DecisionGame.start_loading], called at tick [now]. A supplied
    operation is wrapped in a daemon thread and started. *)
Definition start_loading (message : string) (target_state : option Screen)
           (operation : option Operation) (now : Z) (g : Game) : Game :=
  let l := loading g in
  let l := {| is_loading := true;
              loading_message := message;
              loading_target_state := target_state;
              loading_progress := 0;
              loading_start_time := now;
              loading_operation := None;
              loading_completed := false;
              loading_animation_frames := loading_animation_frames l |} in
  match operation with
  | None => with_loading l g
  | Some op =>
      let th := {| target := op; is_alive := true |} in
      with_threads (threads g ++ [op])
        (with_loading (with_loading_operation (Some th) l) g)
  end.

(** The float literal [33.3], i.e. the binary64 number nearest to it. *)
Definition frame_period : float := 0x1.0a66666666666p+5%float.

(** [int(elapsed_time / 33.3) % 8] *)
Definition animation_frame (elapsed_time : Z) : Z :=
  PyFloat.to_int (PrimFloat.div (PyFloat.of_int elapsed_time) frame_period)
  mod 8.

(** [int(elapsed_time / 2000 * 100)] *)
Definition progress_ramp (elapsed_time : Z) : Z :=
  PyFloat.to_int
    (PrimFloat.mul
       (PrimFloat.div (PyFloat.of_int elapsed_time) (PyFloat.of_int 2000))
       (PyFloat.of_int 100)).

(** [DecisionGame._update_loading], run at tick [now]. *)
Definition _update_loading (now : Z) (g : Game) : Game :=
  let current_time := now in
  let elapsed_time := current_time - loading_start_time (loading g) in
  let g := with_loading
             (with_loading_animation_frames (animation_frame elapsed_time)
                (loading g)) g in
  let l := loading g in
  match loading_operation l, loading_completed l with
  | Some th, false =>
      (* the operation is active: has its thread finished? *)
      if negb (is_alive th)
      then with_loading
             (with_loading_progress 100 (with_loading_completed true l)) g
      else g
  | _, _ =>
      (* no operation running, or already completed *)
      if elapsed_time <? 2000 then
        with_loading (with_loading_progress (progress_ramp elapsed_time) l) g
      else
        let l := with_loading_progress 100 l in
        let g := with_loading l g in
        if ((elapsed_time >? 2500) && negb (loading_completed l))%bool then
          with_loading (with_loading_completed true l) g
        else if elapsed_time >? 3500 then
          (* emergency exit from the loading state *)
          let g := with_loading (with_is_loading false l) g in
          if negb (screen_eqb (current_state g) LOGIN)
          then with_current_state LOGIN g
          else g
        else g
  end.

(** [DecisionGame.update], run at tick [now]. The part of [update]
    that resizes the history scroll area touches no field of [Game] and
    is left out; [pygame.time.delay(300)] only waits. *)
Definition update (now : Z) (g : Game) : Game :=
  if is_loading (loading g) then
    let g := _update_loading now g in
    let l := loading g in
    match loading_completed l, loading_target_state l with
    | true, Some tgt =>
        let l := with_loading_operation None l in
        let l := with_is_loading false l in
        let g := with_loading l g in
        let g := with_current_state tgt g in
        with_loading (with_loading_target_state None (loading g)) g
    | _, _ => g
    end
  else g.

End DecisionGame.

(* ===================================================================== *)
(** ** Game logic (frontend/game_logic.py, [GameLogic]) *)
(* ===================================================================== *)

(** What [api_client.register] does: it raises, or it returns a
    dictionary of which [register] reads ["status_code"] and ["detail"]. *)
Inductive RegisterReply :=
| RegisterRaises (error_msg : string)
| RegisterReturns (status_code : option Z) (detail : option string).

Definition with_response_input (tb : option TextBox.t) (w : Widgets) : Widgets :=
  {| username_box := username_box w; password_box := password_box w;
     scenario_input_box := scenario_input_box w; response_input := tb;
     login_submit_button := login_submit_button w;
     back_button := back_button w;
     next_question_button := next_question_button w;
     previous_question_button := previous_question_button w;
     finish_conversation_button := finish_conversation_button w;
     explore_more_button := explore_more_button w;
     new_topic_button := new_topic_button w |}.

Definition with_previous_question_button (b : Button.t) (w : Widgets) : Widgets :=
  {| username_box := username_box w; password_box := password_box w;
     scenario_input_box := scenario_input_box w;
     response_input := response_input w;
     login_submit_button := login_submit_button w;
     back_button := back_button w;
     next_question_button := next_question_button w;
     previous_question_button := b;
     finish_conversation_button := finish_conversation_button w;
     explore_more_button := explore_more_button w;
     new_topic_button := new_topic_button w |}.

Module GameLogic.

Import DecisionGame.

(** The window width [DecisionGame.__init__] defaults to. *)
Definition width : Z := 1000.

(** [GameLogic.register], given what the API call does. *)
Definition register (username password email fullname : string)
           (reply : RegisterReply) (g : Game) : Game :=
  let redirect (g : Game) : Game :=
    if is_loading (loading g) then
      with_loading
        (with_loading_completed true
           (with_loading_target_state (Some REGISTER) (loading g))) g
    else g in
  match reply with
  | RegisterReturns (Some 200) _ =>
      set_status "Registration successful! Please login." (0, 255, 0) g
  | RegisterReturns _ detail =>
      let error_msg :=
        match detail with
        | Some d => d
        | None => "Registration failed. Try a different username or email."
        end in
      let g := set_status ("Registration failed: " ++ error_msg) (255, 0, 0) g in
      redirect g
  | RegisterRaises error_msg =>
      let g := set_status ("Registration error: " ++ error_msg) (255, 0, 0) g in
      redirect g
  end.

(** [GameLogic.analyze_scenario], called at tick [now]. *)
Definition analyze_scenario (now : Z) (g : Game) : Game :=
  let scenario_text := TextBox.get_text (scenario_input_box (widgets g)) in
  if (negb (PyStr.truthy scenario_text)
      || String.eqb (PyStr.strip scenario_text) "")%bool
  then set_status "Please enter a scenario first" (255, 150, 0) g
  else
    let g := with_scenario_text scenario_text g in
    start_loading "Analyzing your scenario..." (Some LETS_TALK)
                  (Some (OpScenarioAnalysis scenario_text)) now g.

(** [GameLogic.generate_conversation_questions] *)
Definition generate_conversation_questions (scenario_text : string)
  : list string :=
  [ "Can you tell me more about what's making this decision difficult for you?";
    "What are the main options you're considering?";
    "What would be the ideal outcome of this decision?";
    "Have you faced similar decisions before? How did those turn out?";
    "What values or principles are important to you in making this decision?" ].

(** [GameLogic.setup_conversation_ui], called at tick [now]. *)
Definition setup_conversation_ui (now : Z) (g : Game) : Game :=
  let center_x := width / 2 in
  let w := widgets g in
  let idx := current_question_index (conversation g) in
  with_widgets
    {| username_box := username_box w; password_box := password_box w;
       scenario_input_box := scenario_input_box w;
       response_input := Some (TextBox.init center_x 480 700 80 true now);
       login_submit_button := login_submit_button w;
       back_button := back_button w;
       next_question_button := Button.set_visible true (next_question_button w);
       previous_question_button :=
         Button.set_visible (idx >? 0) (previous_question_button w);
       finish_conversation_button := finish_conversation_button w;
       explore_more_button := Button.set_visible false (explore_more_button w);
       new_topic_button := Button.set_visible false (new_topic_button w) |} g.

(** [GameLogic.generate_conversation_summary]; [rnd] stands for the
    draw of [random.choice] among the five clarity levels. *)
Definition generate_conversation_summary (rnd : nat) : Summary :=
  let clarity_levels := ["Low"; "Moderate"; "Good"; "High"; "Excellent"] in
  {| clarity_level :=
       nth (Nat.modulo rnd (List.length clarity_levels)) clarity_levels "Low";
     key_insights :=
       [ "You seem to value long-term outcomes over short-term gains.";
         "Financial considerations appear to be a significant factor in your decision.";
         "Your responses indicate a preference for collaborative approaches." ];
     suggested_next_steps :=
       [ "Consider creating a pros and cons list for each option.";
         "Discuss your options with trusted advisors.";
         "Set a firm deadline for making your final decision." ] |}.

(** [GameLogic.complete_conversation] *)
Definition complete_conversation (rnd : nat) (g : Game) : Game :=
  let c := conversation g in
  let g := with_conversation
             {| conversation_questions := conversation_questions c;
                current_question_index := current_question_index c;
                user_responses := user_responses c;
                conversation_complete := true;
                conversation_summary := conversation_summary c |} g in
  let w := widgets g in
  let g := with_widgets
             {| username_box := username_box w; password_box := password_box w;
                scenario_input_box := scenario_input_box w;
                response_input := response_input w;
                login_submit_button := login_submit_button w;
                back_button := back_button w;
                next_question_button :=
                  Button.set_visible false (next_question_button w);
                previous_question_button :=
                  Button.set_visible false (previous_question_button w);
                finish_conversation_button :=
                  Button.set_visible false (finish_conversation_button w);
                explore_more_button :=
                  Button.set_visible true (explore_more_button w);
                new_topic_button :=
                  Button.set_visible true (new_topic_button w) |} g in
  let c := conversation g in
  let g := with_conversation
             {| conversation_questions := conversation_questions c;
                current_question_index := current_question_index c;
                user_responses := user_responses c;
                conversation_complete := conversation_complete c;
                conversation_summary :=
                  Some (generate_conversation_summary rnd) |} g in
  set_status "Conversation complete! Here's your decision clarity summary."
             (0, 200, 0) g.

(** [GameLogic.answer_current_question]. Without a [response_input]
    attribute the call raises [AttributeError]. *)
Definition answer_current_question (rnd : nat) (response : string)
           (g : Game) : option Game :=
  (* add the response to the list *)
  let c := conversation g in
  let g := with_conversation
             {| conversation_questions := conversation_questions c;
                current_question_index := current_question_index c;
                user_responses := user_responses c ++ [response];
                conversation_complete := conversation_complete c;
                conversation_summary := conversation_summary c |} g in
  (* clear the response input *)
  match response_input (widgets g) with
  | None => None
  | Some tb =>
      let g := with_widgets
                 (with_response_input (Some (TextBox.set_text "" tb))
                    (widgets g)) g in
      (* move to the next question *)
      let c := conversation g in
      let g := with_conversation
                 {| conversation_questions := conversation_questions c;
                    current_question_index := current_question_index c + 1;
                    user_responses := user_responses c;
                    conversation_complete := conversation_complete c;
                    conversation_summary := conversation_summary c |} g in
      (* have we reached the end of the questions? *)
      if current_question_index (conversation g)
         >=? Z.of_nat (List.length (conversation_questions (conversation g)))
      then Some (complete_conversation rnd g)
      else
        Some (with_widgets
                (with_previous_question_button
                   (Button.set_visible true
                      (previous_question_button (widgets g)))
                   (widgets g)) g)
  end.

(** *** The personality quiz *)

(** The eight running totals of [_generate_local_mbti_result]. *)
Record Scores := {
  e_score : Z; i_score : Z; s_score : Z; n_score : Z;
  t_score : Z; f_score : Z; j_score : Z; p_score : Z
}.

(** The table [descriptions] of [_get_mbti_type_description], in source
    order. *)
Definition descriptions : list (string * MbtiResult) :=
  [
    ("INTJ",
     {| mr_type := "INTJ";
        mr_description :=
          "The Architect. Strategic thinkers with a plan for everything. Independent, analytical and driven by ideas.";
        mr_strengths :=
          ["Strategic thinking"; "Independent"; "Analytical"; "Determined"; "Knowledgeable"];
        mr_weaknesses :=
          ["Overly critical"; "Dismissive of emotions"; "Sometimes judgmental"; "Perfectionistic"];
        mr_career_matches :=
          ["Scientific research"; "Engineering"; "Law"; "Architecture"; "Strategic planning"] |});
    ("INTP",
     {| mr_type := "INTP";
        mr_description :=
          "The Logician. Innovative inventors with an unquenchable thirst for knowledge. Values ideas, connections and complex problems.";
        mr_strengths :=
          ["Analytical"; "Original thinking"; "Open-minded"; "Objective"; "Honest"];
        mr_weaknesses :=
          ["Disconnected"; "Insensitive"; "Indecisive"; "Procrastination"];
        mr_career_matches :=
          ["Computer programming"; "Scientific research"; "Academia"; "Writing"; "Engineering"] |});
    ("ENTJ",
     {| mr_type := "ENTJ";
        mr_description :=
          "The Commander. Bold, imaginative and strong-willed leaders, always finding a way – or making one. Values efficiency, competence and results.";
        mr_strengths :=
          ["Confident leadership"; "Strategic thinking"; "Efficient"; "Charismatic"; "Strong-willed"];
        mr_weaknesses :=
          ["Impatient"; "Stubborn"; "Arrogant"; "Insensitive"];
        mr_career_matches :=
          ["Business leadership"; "Management"; "Law"; "Engineering"; "Strategic development"] |});
    ("ENTP",
     {| mr_type := "ENTP";
        mr_description :=
          "The Debater. Smart and curious thinkers who view life as an ongoing debate. Values ideas, innovation and challenging conventions.";
        mr_strengths :=
          ["Innovative"; "Quick thinking"; "Adaptable"; "Knowledgeable"; "Excellent brainstorming"];
        mr_weaknesses :=
          ["Argumentative"; "Insensitive"; "Easily bored"; "Procrastination"];
        mr_career_matches :=
          ["Entrepreneurship"; "Debate/politics"; "Advertising"; "Creative fields"; "Technology"] |});
    ("INFJ",
     {| mr_type := "INFJ";
        mr_description :=
          "The Advocate. Quiet and mystical, yet very inspiring and tireless idealists. Values harmony, growth and authenticity.";
        mr_strengths :=
          ["Creative"; "Insightful"; "Principled"; "Passionate"; "Altruistic"];
        mr_weaknesses :=
          ["Sensitive to criticism"; "Perfectionism"; "Burnout"; "Difficult to get to know"];
        mr_career_matches :=
          ["Counseling"; "Teaching"; "Healthcare"; "Non-profit work"; "Writing"] |});
    ("INFP",
     {| mr_type := "INFP";
        mr_description :=
          "The Mediator. Poetic, kind and altruistic people, always eager to help a good cause. Values authenticity, harmony and depth of feeling.";
        mr_strengths :=
          ["Empathetic"; "Gentle"; "Creative"; "Passionate"; "Idealistic"];
        mr_weaknesses :=
          ["Impractical"; "Self-isolating"; "Emotional"; "Difficult to get to know"];
        mr_career_matches :=
          ["Counseling"; "Social work"; "Writing"; "Teaching"; "Arts"] |});
    ("ENFJ",
     {| mr_type := "ENFJ";
        mr_description :=
          "The Protagonist. Charismatic and inspiring leaders, able to mesmerize their listeners. Values authentic connections and helping others develop.";
        mr_strengths :=
          ["Charismatic"; "Empathetic"; "Natural leader"; "Reliable"; "Passionate"];
        mr_weaknesses :=
          ["Overly idealistic"; "Too selfless"; "Approval-seeking"; "Inflexible"];
        mr_career_matches :=
          ["Teaching"; "Counseling"; "Human resources"; "Public relations"; "Sales"] |});
    ("ENFP",
     {| mr_type := "ENFP";
        mr_description :=
          "The Campaigner. Enthusiastic, creative and sociable free spirits, who can always find a reason to smile. Values innovation, possibilities and connections.";
        mr_strengths :=
          ["Enthusiastic"; "Creative"; "Sociable"; "Empathetic"; "Independent"];
        mr_weaknesses :=
          ["Unfocused"; "Disorganized"; "People-pleasing"; "Overthinking"];
        mr_career_matches :=
          ["Counseling"; "Teaching"; "Arts"; "Entertainment"; "Human resources"] |});
    ("ISTJ",
     {| mr_type := "ISTJ";
        mr_description :=
          "The Logistician. Practical and fact-minded individuals, whose reliability cannot be doubted. Values tradition, responsibility and a stable structure.";
        mr_strengths :=
          ["Honest"; "Direct"; "Responsible"; "Calm"; "Practical"];
        mr_weaknesses :=
          ["Stubborn"; "Insensitive"; "Judgment"; "Always by the book"];
        mr_career_matches :=
          ["Finance"; "Accounting"; "Engineering"; "Law enforcement"; "Administration"] |});
    ("ISFJ",
     {| mr_type := "ISFJ";
        mr_description :=
          "The Defender. Very dedicated and warm protectors, always ready to defend their loved ones. Values security, tradition and helping others.";
        mr_strengths :=
          ["Supportive"; "Reliable"; "Patient"; "Loyal"; "Observant"];
        mr_weaknesses :=
          ["Taking things personally"; "Overworking"; "Neglecting self"; "Reluctant to change"];
        mr_career_matches :=
          ["Healthcare"; "Education"; "Social work"; "Administration"; "Customer service"] |});
    ("ESTJ",
     {| mr_type := "ESTJ";
        mr_description :=
          "The Executive. Excellent administrators, unsurpassed at managing things – or people. Values structure, tradition and clear expectations.";
        mr_strengths :=
          ["Dedicated"; "Organized"; "Practical"; "Reliable"; "Honest"];
        mr_weaknesses :=
          ["Inflexible"; "Judgmental"; "Stubborn"; "Difficulty with emotions"];
        mr_career_matches :=
          ["Business management"; "Military"; "Law enforcement"; "Legal professions"; "Project management"] |});
    ("ESFJ",
     {| mr_type := "ESFJ";
        mr_description :=
          "The Consul. Extraordinarily caring, social and popular people, always eager to help. Values harmony, social connection and being of service.";
        mr_strengths :=
          ["Supportive"; "Reliable"; "Conscientious"; "Practical"; "Warm"];
        mr_weaknesses :=
          ["Needing approval"; "Too selfless"; "Inflexible"; "Sensitive to criticism"];
        mr_career_matches :=
          ["Teaching"; "Healthcare"; "Social work"; "Human resources"; "Administration"] |});
    ("ISTP",
     {| mr_type := "ISTP";
        mr_description :=
          "The Virtuoso. Bold and practical experimenters, masters of all kinds of tools. Values efficiency, logic and freedom to tackle problems in their own way.";
        mr_strengths :=
          ["Logical"; "Practical"; "Adaptable"; "Spontaneous"; "Technical skills"];
        mr_weaknesses :=
          ["Stubbornness"; "Insensitive"; "Risk-taking"; "Reserved"; "Easily bored"];
        mr_career_matches :=
          ["Engineering"; "Mechanics"; "Computer science"; "Law enforcement"; "Construction"] |});
    ("ISFP",
     {| mr_type := "ISFP";
        mr_description :=
          "The Adventurer. Flexible and charming artists, always ready to explore and experience something new. Values personal freedom, authentic expression and sensory experiences.";
        mr_strengths :=
          ["Sensitive"; "Creative"; "Open-minded"; "Passionate"; "Imaginative"];
        mr_weaknesses :=
          ["Unpredictable"; "Easily stressed"; "Fiercely independent"; "Conflict avoidant"];
        mr_career_matches :=
          ["Arts"; "Music"; "Design"; "Healthcare"; "Culinary arts"] |});
    ("ESTP",
     {| mr_type := "ESTP";
        mr_description :=
          "The Entrepreneur. Smart, energetic and very perceptive people, who truly enjoy living on the edge. Values action, immediate results and practical solutions.";
        mr_strengths :=
          ["Energetic"; "Rational"; "Action-oriented"; "Perceptive"; "Sociable"];
        mr_weaknesses :=
          ["Impatient"; "Risk-prone"; "Unstructured"; "Blunt"; "Insensitive"];
        mr_career_matches :=
          ["Sales"; "Marketing"; "Entrepreneurship"; "Emergency services"; "Sports"] |});
    ("ESFP",
     {| mr_type := "ESFP";
        mr_description :=
          "The Entertainer. Spontaneous, energetic and enthusiastic people – life is never boring around them. Values experiences, people and making every moment count.";
        mr_strengths :=
          ["Bold"; "Friendly"; "Practical"; "Observant"; "Excellent people skills"];
        mr_weaknesses :=
          ["Sensitive"; "Easily bored"; "Poor planning"; "Conflict avoidant"];
        mr_career_matches :=
          ["Entertainment"; "Sales"; "Teaching"; "Customer service"; "Hospitality"] |})
  ].

(** [GameLogic._generate_mbti_questions]: the 20 local questions. *)
Definition _generate_mbti_questions (_ : unit) : list Question :=
  let options := ["Strongly Agree"; "Agree"; "Neutral"; "Disagree"; "Strongly Disagree"] in
  [
    {| q_id := Some 1;
       q_question := "You find it easy to introduce yourself to other people.";
       q_options := options;
       q_dimension := Some "E-I" |};
    {| q_id := Some 2;
       q_question := "You often get so lost in thoughts that you ignore or forget your surroundings.";
       q_options := options;
       q_dimension := Some "N-S" |};
    {| q_id := Some 3;
       q_question := "You try to respond to emails as soon as possible and cannot stand a messy inbox.";
       q_options := options;
       q_dimension := Some "J-P" |};
    {| q_id := Some 4;
       q_question := "You find it easy to stay relaxed under pressure.";
       q_options := options;
       q_dimension := Some "T-F" |};
    {| q_id := Some 5;
       q_question := "You do not usually initiate conversations.";
       q_options := options;
       q_dimension := Some "I-E" |};
    {| q_id := Some 6;
       q_question := "You rarely worry about how your actions affect other people.";
       q_options := options;
       q_dimension := Some "T-F" |};
    {| q_id := Some 7;
       q_question := "Your home and work environments are quite tidy.";
       q_options := options;
       q_dimension := Some "J-P" |};
    {| q_id := Some 8;
       q_question := "You do not mind being at the center of attention.";
       q_options := options;
       q_dimension := Some "E-I" |};
    {| q_id := Some 9;
       q_question := "You consider yourself more practical than creative.";
       q_options := options;
       q_dimension := Some "S-N" |};
    {| q_id := Some 10;
       q_question := "People can rarely upset you.";
       q_options := options;
       q_dimension := Some "T-F" |};
    {| q_id := Some 11;
       q_question := "Your travel plans are usually well thought out.";
       q_options := options;
       q_dimension := Some "J-P" |};
    {| q_id := Some 12;
       q_question := "It is often difficult for you to relate to other people's feelings.";
       q_options := options;
       q_dimension := Some "T-F" |};
    {| q_id := Some 13;
       q_question := "Your mood can change very quickly.";
       q_options := options;
       q_dimension := Some "F-T" |};
    {| q_id := Some 14;
       q_question := "You prefer to follow a schedule rather than be spontaneous.";
       q_options := options;
       q_dimension := Some "J-P" |};
    {| q_id := Some 15;
       q_question := "You rarely feel insecure.";
       q_options := options;
       q_dimension := Some "T-F" |};
    {| q_id := Some 16;
       q_question := "You avoid making phone calls when possible.";
       q_options := options;
       q_dimension := Some "I-E" |};
    {| q_id := Some 17;
       q_question := "You often spend time exploring unrealistic yet intriguing ideas.";
       q_options := options;
       q_dimension := Some "N-S" |};
    {| q_id := Some 18;
       q_question := "You prefer to complete one project before starting another.";
       q_options := options;
       q_dimension := Some "J-P" |};
    {| q_id := Some 19;
       q_question := "In social situations, you rarely feel awkward or out of place.";
       q_options := options;
       q_dimension := Some "E-I" |};
    {| q_id := Some 20;
       q_question := "You value objective facts more than personal feelings when making decisions.";
       q_options := options;
       q_dimension := Some "T-F" |}
  ].

(** [_get_mbti_type_description]: [descriptions.get(type_code, default)]. *)
Fixpoint lookup (type_code : string) (table : list (string * MbtiResult))
  : option MbtiResult :=
  match table with
  | [] => None
  | (k, v) :: rest =>
      if String.eqb k type_code then Some v else lookup type_code rest
  end.

Definition _get_mbti_type_description (type_code : string) : MbtiResult :=
  match lookup type_code descriptions with
  | Some r => r
  | None =>
      {| mr_type := type_code;
         mr_description :=
           "Your unique personality type. Each person has a distinct combination of preferences that shapes their worldview and approach to life.";
         mr_strengths :=
           ["Unique perspective"; "Individual talents"; "Personal insights"; "Special skills"; "Your authentic approach"];
         mr_weaknesses :=
           ["Personal growth areas"; "Individual challenges"; "Aspects to develop"; "Potential blind spots"];
         mr_career_matches :=
           ["Careers matching your specific strengths"; "Roles that value your unique skills"; "Positions aligned with your personality"] |}
  end.

Definition zero_scores : Scores :=
  {| e_score := 0; i_score := 0; s_score := 0; n_score := 0;
     t_score := 0; f_score := 0; j_score := 0; p_score := 0 |}.

(** The inner loop: the first question whose ["id"] equals
    [question_id]. *)
Fixpoint find_question (question_id : Z) (questions : list Question)
  : option Question :=
  match questions with
  | [] => None
  | q :: rest =>
      match q_id q with
      | Some i => if i =? question_id then Some q
                  else find_question question_id rest
      | None => find_question question_id rest
      end
  end.

(** One turn of the outer loop, for the item [(question_id, answer)]. *)
Definition score_answer (questions : list Question) (sc : Scores)
           (item : Z * Z) : Scores :=
  let '(question_id, answer) := item in
  match find_question question_id questions with
  | None => sc
  | Some question =>
      match q_dimension question with
      | None => sc
      | Some dimension =>
          (* answer 0 = Strongly Agree .. 4 = Strongly Disagree *)
          let score := 2 - answer in
          let '{| e_score := e; i_score := i; s_score := s; n_score := n;
                  t_score := t; f_score := f; j_score := j; p_score := p |}
            := sc in
          if String.eqb dimension "E-I" then
            {| e_score := e + score; i_score := i; s_score := s; n_score := n;
               t_score := t; f_score := f; j_score := j; p_score := p |}
          else if String.eqb dimension "I-E" then
            {| e_score := e; i_score := i + score; s_score := s; n_score := n;
               t_score := t; f_score := f; j_score := j; p_score := p |}
          else if String.eqb dimension "S-N" then
            {| e_score := e; i_score := i; s_score := s + score; n_score := n;
               t_score := t; f_score := f; j_score := j; p_score := p |}
          else if String.eqb dimension "N-S" then
            {| e_score := e; i_score := i; s_score := s; n_score := n + score;
               t_score := t; f_score := f; j_score := j; p_score := p |}
          else if String.eqb dimension "T-F" then
            {| e_score := e; i_score := i; s_score := s; n_score := n;
               t_score := t + score; f_score := f; j_score := j; p_score := p |}
          else if String.eqb dimension "F-T" then
            {| e_score := e; i_score := i; s_score := s; n_score := n;
               t_score := t; f_score := f + score; j_score := j; p_score := p |}
          else if String.eqb dimension "J-P" then
            {| e_score := e; i_score := i; s_score := s; n_score := n;
               t_score := t; f_score := f; j_score := j + score; p_score := p |}
          else if String.eqb dimension "P-J" then
            {| e_score := e; i_score := i; s_score := s; n_score := n;
               t_score := t; f_score := f; j_score := j; p_score := p + score |}
          else sc
      end
  end.

(** The outer loop over [mbti_answers.items()]. *)
Definition mbti_scores (questions : list Question) (answers : list (Z * Z))
  : Scores :=
  fold_left (score_answer questions) answers zero_scores.

(** "Determine overall type" *)
Definition type_code_of (sc : Scores) : string :=
  let type_code := "" in
  let type_code := type_code ++ (if e_score sc >? i_score sc then "E" else "I") in
  let type_code := type_code ++ (if s_score sc >? n_score sc then "S" else "N") in
  let type_code := type_code ++ (if t_score sc >? f_score sc then "T" else "F") in
  let type_code := type_code ++ (if j_score sc >? p_score sc then "J" else "P") in
  type_code.

(** The type code [_generate_local_mbti_result] computes in state [g]. *)
Definition local_type_code (g : Game) : string :=
  type_code_of (mbti_scores (mbti_questions (quiz g)) (mbti_answers (quiz g))).

(** [GameLogic._generate_local_mbti_result] *)
Definition _generate_local_mbti_result (g : Game) : Game :=
  let type_code := local_type_code g in
  let q := quiz g in
  let g := with_quiz
             {| mbti_questions := mbti_questions q;
                current_mbti_index := current_mbti_index q;
                mbti_answers := mbti_answers q;
                mbti_result := Some (_get_mbti_type_description type_code) |} g in
  set_status ("Your personality type: " ++ type_code) (0, 255, 0) g.

End GameLogic.

(* ===================================================================== *)
(** ** Command handlers (frontend/event_handlers.py, [GameEventHandler]) *)
(* ===================================================================== *)

(** What [api_client.login] does: it raises, or it returns a dictionary of
    which [_perform_login] reads ["access_token"] and ["error"]. *)
Inductive LoginReply :=
| LoginRaises (error_msg : string)
| LoginReturns (access_token : option string) (error : option string).

Module GameEventHandler.

Import DecisionGame.

(** [GameEventHandler._perform_login], the body of the login thread. *)
Definition _perform_login (username password : string) (reply : LoginReply)
           (g : Game) : Game :=
  let back_to_login (g : Game) : Game :=
    with_loading
      (with_loading_completed true
         (with_loading_target_state (Some LOGIN) (loading g))) g in
  match reply with
  | LoginReturns (Some access_token) _ =>
      let g := with_user (Some username) g in
      let g := with_token (Some access_token) g in
      set_status ("Welcome, " ++ username ++ "!") (0, 255, 0) g
  | LoginReturns None error =>
      let error_msg :=
        match error with
        | Some e => e
        | None => "Invalid username or password"
        end in
      let g := set_status ("Login failed: " ++ error_msg) (255, 0, 0) g in
      back_to_login g
  | LoginRaises e =>
      let g := set_status ("Login error: " ++ e) (255, 0, 0) g in
      back_to_login g
  end.

(** [GameEventHandler._perform_registration] *)
Definition _perform_registration (username email password fullname : string)
           (reply : RegisterReply) (g : Game) : Game :=
  GameLogic.register username password email fullname reply g.


(** [GameEventHandler._submit_response] *)
Definition _submit_response (rnd : nat) (g : Game) : option Game :=
  match response_input (widgets g) with
  | Some tb =>
      let response := TextBox.get_text tb in
      if PyStr.truthy response
      then GameLogic.answer_current_question rnd response g
      else Some (set_status "Please enter a response" (255, 150, 0) g)
  | None => Some g
  end.

Section Font.

Variable text_width : string -> Z.

(** [GameEventHandler._handle_login_button_click], called at tick
    [now] with the pointer at [mouse_pos]. *)
Definition _handle_login_button_click (now : Z) (mouse_pos : Pos)
           (g : Game) : Game :=
  (* replay the click into the input fields *)
  let w := widgets g in
  let ub := TextBox.handle_event text_width now mouse_pos (username_box w) in
  let pb := TextBox.handle_event text_width now mouse_pos (password_box w) in
  let '(submit_hit, sb) :=
    Button.is_clicked now mouse_pos (login_submit_button w) in
  let w1 :=
    {| username_box := ub; password_box := pb;
       scenario_input_box := scenario_input_box w;
       response_input := response_input w;
       login_submit_button := sb;
       back_button := back_button w;
       next_question_button := next_question_button w;
       previous_question_button := previous_question_button w;
       finish_conversation_button := finish_conversation_button w;
       explore_more_button := explore_more_button w;
       new_topic_button := new_topic_button w |} in
  let g := with_widgets w1 g in
  if submit_hit then
    let username := TextBox.get_text ub in
    let password := TextBox.get_text pb in
    if (negb (PyStr.truthy username) || negb (PyStr.truthy password))%bool
    then set_status "Please enter username and password" (255, 150, 0) g
    else if (String.eqb username "test" && String.eqb password "test")%bool
    then
      (* test login, accepted without the database *)
      let g := with_user (Some "Test User") g in
      let g := with_token (Some "test_token_123") g in
      let g := with_current_state SCENARIO g in
      set_status "Welcome, Test User!" (0, 255, 0) g
    else
      start_loading "Logging in..." (Some SCENARIO)
                    (Some (OpLogin username password)) now g
  else
    let '(back_hit, bb) := Button.is_clicked now mouse_pos (back_button w1) in
    let g := with_widgets
               {| username_box := ub; password_box := pb;
                  scenario_input_box := scenario_input_box w;
                  response_input := response_input w;
                  login_submit_button := sb;
                  back_button := bb;
                  next_question_button := next_question_button w;
                  previous_question_button := previous_question_button w;
                  finish_conversation_button := finish_conversation_button w;
                  explore_more_button := explore_more_button w;
                  new_topic_button := new_topic_button w |} g in
    if back_hit then
      let g := with_current_state MAIN_MENU g in
      set_status "Welcome to Decision Game" default_status_color g
    else g.

End Font.

End GameEventHandler.

(** [DecisionGame.__init__] with the default window size, at tick [now]:
    the initial values of the modelled attributes, and the widgets as
    [UIComponents] places them. *)
Definition initial_game (now : Z) : Game :=
  let center_x := GameLogic.width / 2 in
  {| current_state := MAIN_MENU;
     previous_state := None;
     status_message := "Welcome to Decision Game";
     status_color := (0, 150, 255);
     user := None;
     token := None;
     scenario_text := "";
     loading :=
       {| is_loading := false; loading_message := "Loading...";
          loading_target_state := None; loading_progress := 0;
          loading_start_time := 0; loading_operation := None;
          loading_completed := false; loading_animation_frames := 0 |};
     conversation :=
       {| conversation_questions := []; current_question_index := 0;
          user_responses := []; conversation_complete := false;
          conversation_summary := None |};
     quiz :=
       {| mbti_questions := []; current_mbti_index := 0;
          mbti_answers := []; mbti_result := None |};
     widgets :=
       {| username_box := TextBox.init center_x 200 300 40 false now;
          password_box := TextBox.init center_x 270 300 40 false now;
          scenario_input_box :=
            TextBox.init center_x (600 / 2 - 50) (GameLogic.width - 300) 200 true now;
          response_input := None;
          login_submit_button := Button.init center_x 350 200 50 true;
          back_button := Button.init 70 30 120 40 true;
          next_question_button := Button.init (center_x + 150) 530 150 50 false;
          previous_question_button := Button.init (center_x - 150) 530 150 50 false;
          finish_conversation_button := Button.init center_x 530 200 50 false;
          explore_more_button := Button.init (center_x - 150) 500 250 50 false;
          new_topic_button := Button.init (center_x + 150) 500 250 50 false |};
     threads := [] |}.

(* ===================================================================== *)
(** ** AI collaborator wrapper (frontend/ai_service.py, [AIService]) *)
(* ===================================================================== *)

(** Decoded JSON, what [json.loads] and the fallback constructors build. *)
#[local] Unset Elimination Schemes.
Inductive Json :=
| JNull
| JBool (b : bool)
| JNum (n : Z)
| JStr (s : string)
| JList (items : list Json)
| JDict (entries : list (string * Json)).
#[local] Set Elimination Schemes.

(** One chat message. *)
Record Message := { role : string; content : string }.

(** What [self.client.chat.completions.create(...)] followed by
    [completion.choices[0].message.content] yields: an exception, or the
    content of the first choice ([None] when the API sends none). *)
Inductive Completion :=
| ClientRaises
| ClientReturns (response_content : option string).

(** What [_call_groq_api] returns: text, or an already decoded value. *)
Inductive Response :=
| RText (s : string)
| RJson (j : Json).

Module AIService.

Definition strings (l : list string) : Json := JList (map JStr l).

(** [AIService._get_fallback_scenario_analysis] *)
Definition _get_fallback_scenario_analysis (_ : unit) : Json :=
  JDict
    [ ("questions",
       strings
         [ "What are your main priorities in this situation?";
           "What alternatives have you considered?";
           "What are the potential risks of each option?";
           "How might this decision affect others around you?";
           "What information do you still need to make this decision?" ]);
      ("perspectives",
       strings
         [ "Consider how this decision aligns with your long-term goals.";
           "Think about how this decision might look in hindsight a year from now.";
           "Examine this situation from the perspective of someone you admire.";
           "Consider the ethical implications of each possible choice." ]);
      ("action_plan",
       strings
         [ "List all available options and their pros/cons.";
           "Gather any missing information you identified earlier.";
           "Consult with someone you trust about this decision.";
           "Set a deadline for making the final decision." ]) ].

(** [AIService._get_fallback_mbti_results] *)
Definition _get_fallback_mbti_results (_ : unit) : Json :=
  JDict
    [ ("type", JStr "INFJ");
      ("description",
       JStr "INFJs are creative nurturers with a strong sense of personal integrity and a drive to help others realize their potential.");
      ("strengths",
       strings
         [ "Creative and artistic"; "Insightful about others";
           "Committed to their values"; "Deep and complex thinkers" ]);
      ("weaknesses",
       strings
         [ "Sensitive to criticism"; "Can burn out easily";
           "Perfectionistic tendencies"; "Difficulty with practical matters" ]);
      ("career_suggestions",
       strings
         [ "Counselor or therapist"; "Writer or editor";
           "Healthcare professional"; "Teacher or professor" ]) ].

Section Service.

(** [json.loads]; [None] is [json.JSONDecodeError]. *)
Variable json_loads : string -> option Json.

(** The Groq client, as a function of the messages it is sent. *)
Variable client : list Message -> Completion.

(** [AIService._call_groq_api] *)
Definition _call_groq_api (messages : list Message)
           (fallback_func : unit -> Json) : Response :=
  match client messages with
  | ClientRaises => RJson (fallback_func tt)
  | ClientReturns None =>
      (* [not response_content]: ValueError, caught below *)
      RJson (fallback_func tt)
  | ClientReturns (Some response_content) =>
      if (negb (PyStr.truthy response_content)
          || negb (PyStr.truthy (PyStr.strip response_content)))%bool
      then RJson (fallback_func tt)
      else if PyStr.startswith "<think>" response_content then
        let after_think :=
          if PyStr.contains "</think>" response_content then
            let parts := PyStr.split_max "</think>" 1 response_content in
            if ((1 <? List.length parts)%nat
                && PyStr.truthy (PyStr.strip (nth 1 parts "")))%bool
            then Some (PyStr.strip (nth 1 parts ""))
            else None
          else None in
        match after_think with
        | Some s => RText s
        | None =>
            match PyStr.search_braces response_content with
            | Some potential_json =>
                match json_loads potential_json with
                | Some parsed => RJson parsed
                | None => RJson (fallback_func tt)
                end
            | None => RJson (fallback_func tt)
            end
        end
      else RText response_content
  end.

(** The two prompts of [analyze_scenario]. *)
Definition scenario_messages (scenario_text : string) : list Message :=
  [ {| role := "system";
       content := "You are an expert decision-making assistant. Analyze the following scenario and provide key questions, perspectives, and action plan steps. DO NOT include any thinking or explanation in your response. Respond ONLY with JSON." |};
    {| role := "user";
       content :=
         "Analyze this decision scenario and provide: 1) Five important questions to consider, 2) Four different perspectives to think about, 3) Four action plan steps."
         ++ PyStr.nl ++ PyStr.nl ++ "Scenario: " ++ scenario_text
         ++ PyStr.nl ++ PyStr.nl
         ++ "RESPOND IN VALID JSON FORMAT with these keys: questions (array), perspectives (array), and action_plan (array)." |} ].

(** The text between the first code fence [fence] and the next
    [```], stripped: [s.split(fence)[1].split("```")[0].strip()]. *)
Definition unfence (fence s : string) : string :=
  PyStr.strip (nth 0 (PyStr.split "```" (nth 1 (PyStr.split fence s) "")) "").

(** [AIService.analyze_scenario] *)
Definition analyze_scenario (scenario_text : string) : Json :=
  let messages := scenario_messages scenario_text in
  match _call_groq_api messages _get_fallback_scenario_analysis with
  | RJson (JDict entries) => JDict entries
  | RJson _ =>
      (* [response.strip()] raises on a value that is not text *)
      _get_fallback_scenario_analysis tt
  | RText response =>
      let cleaned_response := PyStr.strip response in
      let cleaned_response :=
        if PyStr.startswith "```json" cleaned_response
        then unfence "```json" cleaned_response
        else if PyStr.startswith "```" cleaned_response
        then unfence "```" cleaned_response
        else cleaned_response in
      match json_loads cleaned_response with
      | Some result => result
      | None =>
          match PyStr.search_braces cleaned_response with
          | Some json_str =>
              match json_loads json_str with
              | Some result => result
              | None => _get_fallback_scenario_analysis tt
              end
          | None => _get_fallback_scenario_analysis tt
          end
      end
  end.

(** The two prompts of [analyze_mbti_answers]. *)
Definition mbti_messages (answers_text : string) : list Message :=
  [ {| role := "system";
       content := "You are an expert MBTI personality assessment analyst. DO NOT include any thinking or explanation in your response. Respond ONLY with JSON." |};
    {| role := "user";
       content :=
         "Analyze these MBTI test answers and provide: 1) The four-letter personality type, 2) A description of the type, 3) Key strengths, 4) Potential weaknesses, 5) Career suggestions."
         ++ PyStr.nl ++ PyStr.nl ++ "Answers:" ++ PyStr.nl ++ answers_text
         ++ PyStr.nl ++ PyStr.nl
         ++ "RESPOND IN VALID JSON FORMAT with these keys: type (string), description (string), strengths (array), weaknesses (array), and career_suggestions (array)." |} ].

(** [AIService.analyze_mbti_answers], on the text [answers_text] the
    answers are formatted to. *)
Definition analyze_mbti_answers (answers_text : string) : Json :=
  let messages := mbti_messages answers_text in
  match _call_groq_api messages _get_fallback_mbti_results with
  | RJson (JDict entries) => JDict entries
  | RJson _ => _get_fallback_mbti_results tt
  | RText response =>
      let cleaned_response := PyStr.strip response in
      if PyStr.startswith "<think>" cleaned_response
      then _get_fallback_mbti_results tt
      else
        let cleaned_response :=
          if PyStr.startswith "```json" cleaned_response
          then unfence "```json" cleaned_response
          else if PyStr.startswith "```" cleaned_response
          then unfence "```" cleaned_response
          else cleaned_response in
        match json_loads cleaned_response with
        | Some result => result
        | None =>
            match PyStr.search_braces cleaned_response with
            | Some json_str =>
                match json_loads json_str with
                | Some result => result
                | None => _get_fallback_mbti_results tt
                end
            | None => _get_fallback_mbti_results tt
            end
        end
  end.

End Service.

End AIService.

(* ===================================================================== *)
(** ** Runs of the engine, and the specification's vocabulary *)
(* ===================================================================== *)

(** The thread of the loading task runs to its end. *)
Definition finish_operation (g : Game) : Game :=
  match loading_operation (loading g) with
  | Some th =>
      with_loading
        (with_loading_operation
           (Some {| target := target th; is_alive := false |}) (loading g)) g
  | None => g
  end.

(** The loading task waits on its thread: an operation was supplied, its
    thread is alive, and the task is not marked completed. *)
Definition waiting_on_thread (l : Loading) : bool :=
  match loading_operation l with
  | Some th => (is_alive th && negb (loading_completed l))%bool
  | None => false
  end.

(** Successive frames: [_update_loading], resp. [update], at the ticks
    [ticks], oldest first. *)
Definition run_loading (ticks : list Z) (g : Game) : Game :=
  fold_left (fun g now => DecisionGame._update_loading now g) ticks g.

Definition run_updates (ticks : list Z) (g : Game) : Game :=
  fold_left (fun g now => DecisionGame.update now g) ticks g.

(** The ramp stays between 0 and 100 at the elapsed time [e]. *)
Definition ramp_in_range (e : Z) : bool :=
  ((0 <=? DecisionGame.progress_ramp e)
   && (DecisionGame.progress_ramp e <=? 100))%bool.

(** The ceilings of [_update_loading], in milliseconds. *)
Definition auto_complete_after : Z := 2500.
Definition emergency_exit_after : Z := 3500.

(** The user edits the response box, leaving it in the state [tb]. *)
Definition enter_response (tb : TextBox.t) (g : Game) : Game :=
  with_widgets (with_response_input (Some tb) (widgets g)) g.

(** The user enters and submits one response after the other; each item
    is the state of the response box at submission and the draw of the
    summary's clarity level. *)
Fixpoint submit_all (inputs : list (TextBox.t * nat)) (g : Game) : option Game :=
  match inputs with
  | [] => Some g
  | (tb, rnd) :: rest =>
      match GameEventHandler._submit_response rnd (enter_response tb g) with
      | Some g' => submit_all rest g'
      | None => None
      end
  end.

(** A blank field: empty, or white space only. *)
Fixpoint blank (s : string) : bool :=
  match s with
  | EmptyString => true
  | String c r => (PyStr.isspace c && blank r)%bool
  end.

(** The specification's reading of the score of a pole: the sum, over
    the answered questions tagged [tag], of the signed magnitude
    [2 - answer]. *)
Definition carries (tag : string) (questions : list Question) (item : Z * Z)
  : bool :=
  match GameLogic.find_question (fst item) questions with
  | Some q =>
      match q_dimension q with
      | Some d => String.eqb d tag
      | None => false
      end
  | None => false
  end.

Definition magnitude (answer : Z) : Z := 2 - answer.

(** What one answer adds to the pole listed first in [tag]. *)
Definition contribution (tag : string) (questions : list Question)
           (item : Z * Z) : Z :=
  if carries tag questions item then magnitude (snd item) else 0.

Fixpoint pole_total (tag : string) (questions : list Question)
         (answers : list (Z * Z)) : Z :=
  match answers with
  | [] => 0
  | item :: rest =>
      contribution tag questions item + pole_total tag questions rest
  end.

(** No answered question carries either tag of an axis. *)
Definition axis_unanswered (tag1 tag2 : string) (questions : list Question)
           (answers : list (Z * Z)) : bool :=
  forallb (fun item => (negb (carries tag1 questions item)
                        && negb (carries tag2 questions item))%bool) answers.

(** The AI client call fails: it raises, or it comes back without text. *)
Definition client_fails (c : Completion) : bool :=
  match c with
  | ClientRaises => true
  | ClientReturns None => true
  | ClientReturns (Some s) => negb (PyStr.truthy (PyStr.strip s))
  end.

(** The registration, resp. the login, did not succeed. *)
Definition registration_failed (reply : RegisterReply) : bool :=
  match reply with
  | RegisterReturns (Some 200) _ => false
  | _ => true
  end.

Definition login_failed (reply : LoginReply) : bool :=
  match reply with
  | LoginReturns (Some _) _ => false
  | _ => true
  end.

(** The watchdog as the specification words it: past the ceiling, one
    loading-update step completes the task or leaves the loading state
    for the login screen, whatever the task. *)
Definition watchdog_for_every_task : Prop :=
  forall (now : Z) (g : Game),
    is_loading (loading g) = true ->
    emergency_exit_after < now - loading_start_time (loading g) ->
    let g' := DecisionGame._update_loading now g in
    loading_completed (loading g') = true
    \/ (is_loading (loading g') = false /\ current_state g' = LOGIN).


(** A login that is still on its way when the ceiling has long passed. *)
Definition pending_login : Game :=
  DecisionGame.start_loading "Logging in..." (Some SCENARIO)
    (Some (OpLogin "alice" "secret")) 0 (initial_game 0).

(* ===================================================================== *)
(** ** More of the game logic (frontend/game_logic.py) *)
(* ===================================================================== *)

(** Python dictionaries with integer keys, in insertion order. *)
Module PyDict.

(** [d[k]], [None] when the key is absent. *)
Fixpoint get (k : Z) (d : list (Z * Z)) : option Z :=
  match d with
  | [] => None
  | (k', v) :: rest => if k' =? k then Some v else get k rest
  end.

(** [d[k] = v]: a present key keeps its place, a new key goes last. *)
Fixpoint set (k v : Z) (d : list (Z * Z)) : list (Z * Z) :=
  match d with
  | [] => [(k, v)]
  | (k', v') :: rest =>
      if k' =? k then (k, v) :: rest else (k', v') :: set k v rest
  end.

End PyDict.

(** [l[i]] with Python's negative indices; [None] is [IndexError]. *)
Definition py_index {A : Type} (l : list A) (i : Z) : option A :=
  let n := Z.of_nat (List.length l) in
  if 0 <=? i then nth_error l (Z.to_nat i)
  else if - n <=? i then nth_error l (Z.to_nat (n + i))
  else None.

(** [str(z)] for an integer. *)
Definition str_of_int (z : Z) : string :=
  DecimalString.NilZero.string_of_int (Z.to_int z).

Module GameFlow.

Import DecisionGame.

(** The test [self.game.user and self.game.token and self.game.user !=
    "Guest"] of [submit_mbti_answers] and its siblings. *)
Definition logged_in (g : Game) : bool :=
  match user g, token g with
  | Some u, Some t =>
      (PyStr.truthy u && PyStr.truthy t && negb (String.eqb u "Guest"))%bool
  | _, _ => false
  end.

(** [GameLogic.submit_mbti_answers], called at tick [now]. *)
Definition submit_mbti_answers (now : Z) (g : Game) : Game :=
  if logged_in g then
    start_loading "Analyzing your personality profile..."
                  (Some PERSONALITY_RESULT) (Some OpSubmitMbtiToApi) now g
  else
    start_loading "Generating your personality profile..."
                  (Some PERSONALITY_RESULT) (Some OpGenerateLocalMbti) now g.

(** [GameLogic.answer_mbti_question], called at tick [now]. *)
Definition answer_mbti_question (now : Z) (option_index : Z) (g : Game)
  : option Game :=
  let q := quiz g in
  let total := Z.of_nat (List.length (mbti_questions q)) in
  if (match mbti_questions q with [] => true | _ => false end
      || (current_mbti_index q >=? total))%bool
  then Some g
  else
    match py_index (mbti_questions q) (current_mbti_index q) with
    | None => None
    | Some current_question =>
        let question_id :=
          match q_id current_question with
          | Some i => i
          | None => current_mbti_index q + 1
          end in
        (* save the answer, move to the next question *)
        let g := with_quiz
                   {| mbti_questions := mbti_questions q;
                      current_mbti_index := current_mbti_index q + 1;
                      mbti_answers :=
                        PyDict.set question_id option_index (mbti_answers q);
                      mbti_result := mbti_result q |} g in
        if current_mbti_index (quiz g) >=? total
        then Some (submit_mbti_answers now g)
        else
          let question_num := current_mbti_index (quiz g) + 1 in
          Some (set_status
                  ("Question " ++ str_of_int question_num ++ " of "
                   ++ str_of_int total)
                  (0, 150, 255) g)
    end.


(** [GameLogic.explore_more] *)
Definition explore_more (g : Game) : Game :=
  let c := conversation g in
  let additional_questions :=
    [ "Let's explore further. What aspect of this decision causes you the most stress?";
      "What information would help you feel more confident in your decision?";
      "How would you feel if you chose differently from what others expect?" ] in
  let g := with_conversation
             {| conversation_questions :=
                  (conversation_questions c ++ additional_questions)%list;
                current_question_index := current_question_index c;
                user_responses := user_responses c;
                conversation_complete := false;
                conversation_summary := conversation_summary c |} g in
  let w := widgets g in
  with_widgets
    {| username_box := username_box w; password_box := password_box w;
       scenario_input_box := scenario_input_box w;
       response_input := response_input w;
       login_submit_button := login_submit_button w;
       back_button := back_button w;
       next_question_button := Button.set_visible true (next_question_button w);
       previous_question_button :=
         Button.set_visible true (previous_question_button w);
       finish_conversation_button := finish_conversation_button w;
       explore_more_button := Button.set_visible false (explore_more_button w);
       new_topic_button := Button.set_visible false (new_topic_button w) |} g.

(** [GameLogic.start_new_topic] *)
Definition start_new_topic (g : Game) : Game :=
  let g := with_current_state SCENARIO g in
  let w := widgets g in
  let g := with_widgets
             {| username_box := username_box w; password_box := password_box w;
                scenario_input_box := TextBox.set_text "" (scenario_input_box w);
                response_input := response_input w;
                login_submit_button := login_submit_button w;
                back_button := back_button w;
                next_question_button := next_question_button w;
                previous_question_button := previous_question_button w;
                finish_conversation_button := finish_conversation_button w;
                explore_more_button := explore_more_button w;
                new_topic_button := new_topic_button w |} g in
  set_status "Ready for a new decision scenario" (0, 150, 255) g.

End GameFlow.

(** The key under which the answer to the question at index [i] goes:
    its ["id"], or [i + 1] when it has none. *)
Definition answer_key (i : Z) (q : Question) : Z :=
  match q_id q with Some k => k | None => i + 1 end.

Fixpoint answer_keys (i : Z) (questions : list Question) : list Z :=
  match questions with
  | [] => []
  | q :: rest => answer_key i q :: answer_keys (i + 1) rest
  end.

(** The user clicks one option after the other; each item is the tick of
    the click and the index of the option. *)
Fixpoint answer_all (clicks : list (Z * Z)) (g : Game) : option Game :=
  match clicks with
  | [] => Some g
  | (now, option_index) :: rest =>
      match GameFlow.answer_mbti_question now option_index g with
      | Some g' => answer_all rest g'
      | None => None
      end
  end.

(* ===================================================================== *)
(** ** Text layout ([DecisionGame.wrap_text], [DecisionGame.truncate_text]) *)
(* ===================================================================== *)

Module TextLayout.

Section Font.

(** [font.size(s)[0]], the width pygame's font gives the text [s]. *)
Variable font_size : string -> Z.

(** The loop of [wrap_text] over the remaining [words]. *)
Fixpoint wrap_loop (max_width : Z) (words lines current_line : list string)
  : list string :=
  match words with
  | [] =>
      (* add the last line *)
      match current_line with
      | [] => lines
      | _ => (lines ++ [PyStr.join " " current_line])%list
      end
  | word :: rest =>
      let test_line := PyStr.join " " (current_line ++ [word])%list in
      if font_size test_line <=? max_width
      then wrap_loop max_width rest lines (current_line ++ [word])%list
      else
        (* the current line is full, start a new one *)
        let lines :=
          match current_line with
          | [] => lines
          | _ => (lines ++ [PyStr.join " " current_line])%list
          end in
        wrap_loop max_width rest lines [word]
  end.

(** [DecisionGame.wrap_text] *)
Definition wrap_text (text : string) (max_width : Z) : list string :=
  let words := PyStr.split " " text in
  wrap_loop max_width words [] [].

(** The loop of [truncate_text], for [i] from [len(text)] down to 1. *)
Fixpoint truncate_loop (text ellipsis : string) (max_width : Z) (i : nat)
  : string :=
  match i with
  | O => ellipsis
  | S i' =>
      let truncated := (String.substring 0 i text ++ ellipsis)%string in
      if font_size truncated <=? max_width then truncated
      else truncate_loop text ellipsis max_width i'
  end.

(** [DecisionGame.truncate_text] *)
Definition truncate_text (text : string) (max_width : Z) (show_ellipsis : bool)
  : string :=
  if font_size text <=? max_width then text
  else
    let ellipsis := if show_ellipsis then "..." else "" in
    truncate_loop text ellipsis max_width (String.length text).

End Font.

End TextLayout.

(* ===================================================================== *)
(** ** More of the AI wrapper (frontend/ai_service.py) *)
(* ===================================================================== *)

(** [key in d] and [d[key]] on a decoded JSON object, which has one
    entry per key. *)
Fixpoint json_get (key : string) (entries : list (string * Json)) : option Json :=
  match entries with
  | [] => None
  | (k, v) :: rest => if String.eqb k key then Some v else json_get key rest
  end.

Module AILists.

Import AIService.

(** [AIService._get_fallback_mbti_questions] *)
Definition _get_fallback_mbti_questions (_ : unit) : Json :=
  JList
    [ JDict
        [ ("question",
           JStr "You find it easy to introduce yourself to other people.");
          ("id",
           JNum 1);
          ("options",
           strings
             [ "Strongly Agree";
               "Agree";
               "Neutral";
               "Disagree";
               "Strongly Disagree" ]) ];
      JDict
        [ ("question",
           JStr "You often get so lost in thoughts that you ignore or forget your surroundings.");
          ("id",
           JNum 2);
          ("options",
           strings
             [ "Strongly Agree";
               "Agree";
               "Neutral";
               "Disagree";
               "Strongly Disagree" ]) ];
      JDict
        [ ("question",
           JStr "You try to respond to emails as soon as possible and cannot stand a messy inbox.");
          ("id",
           JNum 3);
          ("options",
           strings
             [ "Strongly Agree";
               "Agree";
               "Neutral";
               "Disagree";
               "Strongly Disagree" ]) ];
      JDict
        [ ("question",
           JStr "You find it easy to stay relaxed under pressure.");
          ("id",
           JNum 4);
          ("options",
           strings
             [ "Strongly Agree";
               "Agree";
               "Neutral";
               "Disagree";
               "Strongly Disagree" ]) ];
      JDict
        [ ("question",
           JStr "You do not usually initiate conversations.");
          ("id",
           JNum 5);
          ("options",
           strings
             [ "Strongly Agree";
               "Agree";
               "Neutral";
               "Disagree";
               "Strongly Disagree" ]) ] ].

(** [AIService._get_fallback_simulation_scenarios] *)
Definition _get_fallback_simulation_scenarios (_ : unit) : Json :=
  JList
    [ JDict
        [ ("title",
           JStr "Career Crossroads");
          ("description",
           JStr "You've received two job offers: one at a prestigious company with higher pay but longer hours, and one at a startup with lower initial pay but more flexibility and potential for growth.");
          ("options",
           strings
             [ "Accept the prestigious company offer";
               "Accept the startup offer";
               "Negotiate with both companies for better terms";
               "Decline both and continue searching" ]) ];
      JDict
        [ ("title",
           JStr "Relocation Dilemma");
          ("description",
           JStr "You have an opportunity to relocate to another city for better career prospects, but it would mean leaving friends and family behind.");
          ("options",
           strings
             [ "Relocate immediately";
               "Decline the opportunity";
               "Try to negotiate a remote work arrangement";
               "Delay the decision and visit the new city first" ]) ];
      JDict
        [ ("title",
           JStr "Education Investment");
          ("description",
           JStr "You're considering investing in further education, which would require significant time and money but could enhance your long-term career prospects.");
          ("options",
           strings
             [ "Enroll full-time";
               "Enroll part-time while continuing to work";
               "Self-study instead of formal education";
               "Postpone education and focus on gaining experience" ]) ] ].

Section Service.

Variable json_loads : string -> option Json.
Variable client : list Message -> Completion.

(** The two prompts of [get_mbti_questions]. *)
Definition questions_messages : list Message :=
  [ {| role := "system";
       content := "You are an expert MBTI personality assessment assistant. DO NOT include any thinking or explanation in your response. Respond ONLY with JSON." |};
    {| role := "user";
       content := "Generate 5 MBTI personality test questions with options from 'Strongly Agree' to 'Strongly Disagree'. Return as JSON with each question having: question text, id, and options array. RESPOND IN VALID JSON FORMAT with a 'questions' array." |} ].

(** The two prompts of [generate_simulation_scenarios]. *)
Definition scenarios_messages : list Message :=
  [ {| role := "system";
       content := "You are an expert decision scenario creator. DO NOT include any thinking or explanation in your response. Respond ONLY with JSON." |};
    {| role := "user";
       content := "Generate 3 decision scenarios for simulation with: 1) Title, 2) Description, 3) Options (at least 3 per scenario). RESPOND IN VALID JSON FORMAT with a 'scenarios' array containing objects with title, description, and options (array) properties." |} ].

(** The code fences, as in [analyze_scenario]. *)
Definition strip_fences (cleaned_response : string) : string :=
  if PyStr.startswith "```json" cleaned_response
  then unfence "```json" cleaned_response
  else if PyStr.startswith "```" cleaned_response
  then unfence "```" cleaned_response
  else cleaned_response.

(** What [get_mbti_questions] makes of a decoded value: the
    ["questions"] entry of an object, a list as it is. *)
Definition questions_of (parsed : Json) : option Json :=
  match parsed with
  | JDict entries => json_get "questions" entries
  | JList items => Some (JList items)
  | _ => None
  end.

(** The part of [get_mbti_questions] that reads a text response. *)
Definition questions_from_text (response : string) : Json :=
  let cleaned_response := PyStr.strip response in
  if PyStr.startswith "<think>" cleaned_response
  then _get_fallback_mbti_questions tt
  else
    let cleaned_response := strip_fences cleaned_response in
    match json_loads cleaned_response with
    | Some parsed =>
        match questions_of parsed with
        | Some qs => qs
        | None => _get_fallback_mbti_questions tt
        end
    | None =>
        match PyStr.search_braces cleaned_response with
        | Some json_str =>
            match json_loads json_str with
            | Some parsed =>
                match questions_of parsed with
                | Some qs => qs
                | None => _get_fallback_mbti_questions tt
                end
            | None => _get_fallback_mbti_questions tt
            end
        | None => _get_fallback_mbti_questions tt
        end
    end.

(** [AIService.get_mbti_questions]; [None] when an exception leaves it:
    on a response that is neither a list, nor an object with questions,
    nor text, [response.strip()] raises, and the handler's
    [response[:100]] raises again on anything but a list. *)
Definition get_mbti_questions (_ : unit) : option Json :=
  match _call_groq_api json_loads client questions_messages
                       _get_fallback_mbti_questions with
  | RJson (JList items) => Some (JList items)
  | RJson (JDict entries) =>
      match json_get "questions" entries with
      | Some qs => Some qs
      | None => None
      end
  | RJson (JStr s) => Some (questions_from_text s)
  | RJson _ => None
  | RText response => Some (questions_from_text response)
  end.

(** What [generate_simulation_scenarios] makes of a decoded value. *)
Definition scenarios_of (parsed : Json) : Json :=
  match parsed with
  | JDict entries =>
      match json_get "scenarios" entries with
      | Some sc => sc
      | None => JList []
      end
  | JList items => JList items
  | _ => JList []
  end.

(** The part of [generate_simulation_scenarios] that reads a text
    response. *)
Definition scenarios_from_text (response : string) : Json :=
  let cleaned_response := PyStr.strip response in
  if PyStr.startswith "<think>" cleaned_response
  then _get_fallback_simulation_scenarios tt
  else
    let cleaned_response := strip_fences cleaned_response in
    match json_loads cleaned_response with
    | Some parsed => scenarios_of parsed
    | None =>
        match PyStr.search_braces cleaned_response with
        | Some json_str =>
            match json_loads json_str with
            | Some (JDict entries) =>
                match json_get "scenarios" entries with
                | Some sc => sc
                | None => _get_fallback_simulation_scenarios tt
                end
            | Some (JList items) => JList items
            | _ => _get_fallback_simulation_scenarios tt
            end
        | None => _get_fallback_simulation_scenarios tt
        end
    end.

(** [AIService.generate_simulation_scenarios]; [None] when an exception
    leaves it. A list that comes back from [_call_groq_api] makes
    [response.strip()] raise, and the handler returns the fallback. *)
Definition generate_simulation_scenarios (_ : unit) : option Json :=
  match _call_groq_api json_loads client scenarios_messages
                       _get_fallback_simulation_scenarios with
  | RJson (JDict entries) =>
      match json_get "scenarios" entries with
      | Some sc => Some sc
      | None => Some (JList [])
      end
  | RJson (JList _) => Some (_get_fallback_simulation_scenarios tt)
  | RJson (JStr s) => Some (scenarios_from_text s)
  | RJson _ => None
  | RText response => Some (scenarios_from_text response)
  end.

End Service.

End AILists.

(** A list of JSON strings, as the list of their texts. *)
Fixpoint strings_of (items : list Json) : option (list string) :=
  match items with
  | [] => Some []
  | JStr s :: rest =>
      match strings_of rest with
      | Some l => Some (s :: l)
      | None => None
      end
  | _ :: _ => None
  end.

(** An optional entry of a dictionary: absent, or a value of the shape
    [read] knows; [None] for a value of another shape. *)
Definition optional_entry {A : Type} (read : Json -> option A) (key : string)
           (entries : list (string * Json)) : option (option A) :=
  match json_get key entries with
  | None => Some None
  | Some v =>
      match read v with
      | Some a => Some (Some a)
      | None => None
      end
  end.

(** A decoded question dictionary as a [Question]: a text, a list of
    option texts, and, when present, an integer ["id"] and a string
    ["dimension"]. A value of another shape (an ["id"] that is a string
    or a list, say) has no counterpart among the questions of this
    model: [None]. *)
Definition question_of_json (j : Json) : option Question :=
  match j with
  | JDict entries =>
      match json_get "question" entries, json_get "options" entries with
      | Some (JStr text), Some (JList items) =>
          match strings_of items,
                optional_entry
                  (fun v => match v with JNum n => Some n | _ => None end)
                  "id" entries,
                optional_entry
                  (fun v => match v with JStr d => Some d | _ => None end)
                  "dimension" entries with
          | Some options, Some id, Some dimension =>
              Some {| q_id := id; q_question := text; q_options := options;
                      q_dimension := dimension |}
          | _, _, _ => None
          end
      | _, _ => None
      end
  | _ => None
  end.

Fixpoint questions_of_items (items : list Json) : option (list Question) :=
  match items with
  | [] => Some []
  | j :: rest =>
      match question_of_json j, questions_of_items rest with
      | Some q, Some qs => Some (q :: qs)
      | _, _ => None
      end
  end.

(** A decoded list of question dictionaries as a list of [Question]s. *)
Definition questions_of_json (j : Json) : option (list Question) :=
  match j with
  | JList items => questions_of_items items
  | _ => None
  end.

(* ===================================================================== *)
(** ** Sample states *)
(* ===================================================================== *)

(** The login screen with [u] and [p] typed into its two boxes. *)
Definition login_form (u p : string) : Game :=
  let g := with_current_state LOGIN (initial_game 0) in
  let w := widgets g in
  with_widgets
    {| username_box := TextBox.set_text u (username_box w);
       password_box := TextBox.set_text p (password_box w);
       scenario_input_box := scenario_input_box w;
       response_input := response_input w;
       login_submit_button := login_submit_button w;
       back_button := back_button w;
       next_question_button := next_question_button w;
       previous_question_button := previous_question_button w;
       finish_conversation_button := finish_conversation_button w;
       explore_more_button := explore_more_button w;
       new_topic_button := new_topic_button w |} g.

(** A font in which every character is ten pixels wide. *)
Definition fixed_width_font (s : string) : Z := 10 * Z.of_nat (String.length s).

(** A guest in front of the first [n] local quiz questions. *)
Definition guest_quiz (n : nat) : Game :=
  with_quiz
    {| mbti_questions := firstn n (GameLogic._generate_mbti_questions tt);
       current_mbti_index := 0;
       mbti_answers := [];
       mbti_result := None |}
    (with_user (Some "Guest")
       (with_current_state PERSONALITY_TEST (initial_game 0))).

(** A conversation over the five standard questions, about to start. *)
Definition fresh_conversation : Game :=
  GameLogic.setup_conversation_ui 0
    (with_conversation
       {| conversation_questions :=
            GameLogic.generate_conversation_questions "Should I switch jobs?";
          current_question_index := 0;
          user_responses := [];
          conversation_complete := false;
          conversation_summary := None |}
       (with_current_state LETS_TALK (initial_game 0))).

(** A response box holding the text [s]. *)
Definition response_box (s : string) : TextBox.t :=
  TextBox.set_text s (TextBox.init 500 480 700 80 true 0).

(** A conversation answered to its end. *)
Definition finished_conversation : Game :=
  with_conversation
    {| conversation_questions :=
         GameLogic.generate_conversation_questions "Should I switch jobs?";
       current_question_index := 5;
       user_responses := ["a"; "b"; "c"; "d"; "e"];
       conversation_complete := true;
       conversation_summary := Some (GameLogic.generate_conversation_summary 2) |}
    fresh_conversation.

(* ===================================================================== *)
(** ** Thread bodies (frontend/game_logic.py) *)
(* ===================================================================== *)

(** [if value:] on a decoded JSON value. *)
Definition json_truthy (j : Json) : bool :=
  match j with
  | JNull => false
  | JBool b => b
  | JNum n => negb (n =? 0)
  | JStr s => PyStr.truthy s
  | JList items => match items with [] => false | _ => true end
  | JDict entries => match entries with [] => false | _ => true end
  end.

(** What the API part of [_perform_scenario_analysis] does for a
    logged-in user: an exception leaves [api_client.analyze_scenario] or
    [api_client.save_scenario_analysis], or the analysis comes back. *)
Inductive AnalysisReply :=
| AnalysisRaises (error : string)
| AnalysisReturns (result : Json).

(** What [api_client.get_mbti_questions] does: it raises, or it returns
    a list of question dictionaries, which are [Question]s. *)
Inductive QuestionsReply :=
| QuestionsRaise
| QuestionsReturn (response : list Question).

Module GameThreads.

Import DecisionGame.

(** [GameLogic._perform_scenario_analysis], the body of the analysis
    thread, run at tick [now], on the attributes of [Game]. *)
Definition _perform_scenario_analysis (scenario_text : string)
           (reply : AnalysisReply) (now : Z) (g : Game) : Game :=
  let analysed : string + Game :=
    if GameFlow.logged_in g then
      match reply with
      | AnalysisRaises e => inl e
      | AnalysisReturns result =>
          if json_truthy result
          then inr (set_status "Analysis complete" (0, 255, 0) g)
          else inr (set_status "Failed to analyze scenario" (255, 0, 0) g)
      end
    else
      (* mock results for guest users *)
      inr (set_status "Guest analysis complete" (0, 255, 0) g) in
  match analysed with
  | inl e => set_status ("Error: " ++ e) (255, 0, 0) g
  | inr g =>
      (* initialize the conversation *)
      let g := with_conversation
                 {| conversation_questions :=
                      GameLogic.generate_conversation_questions scenario_text;
                    current_question_index := 0;
                    user_responses := [];
                    conversation_complete := false;
                    conversation_summary :=
                      conversation_summary (conversation g) |} g in
      GameLogic.setup_conversation_ui now g
  end.

(** [GameLogic._load_personality_test], the body of the thread that
    fetches the quiz. *)
Definition _load_personality_test (reply : QuestionsReply) (g : Game) : Game :=
  let q := quiz g in
  match reply with
  | QuestionsReturn response =>
      let g :=
        match response with
        | _ :: _ =>
            set_status "Personality test loaded" (0, 255, 0)
              (with_quiz
                 {| mbti_questions := response;
                    current_mbti_index := current_mbti_index q;
                    mbti_answers := mbti_answers q;
                    mbti_result := mbti_result q |} g)
        | [] =>
            set_status "Using local personality test questions" (255, 200, 0)
              (with_quiz
                 {| mbti_questions := GameLogic._generate_mbti_questions tt;
                    current_mbti_index := current_mbti_index q;
                    mbti_answers := mbti_answers q;
                    mbti_result := mbti_result q |} g)
        end in
      (* reset answers and current index *)
      with_quiz
        {| mbti_questions := mbti_questions (quiz g);
           current_mbti_index := 0;
           mbti_answers := [];
           mbti_result := mbti_result (quiz g) |} g
  | QuestionsRaise =>
      set_status "Using local personality test questions" (255, 200, 0)
        (with_quiz
           {| mbti_questions := GameLogic._generate_mbti_questions tt;
              current_mbti_index := current_mbti_index q;
              mbti_answers := mbti_answers q;
              mbti_result := mbti_result q |} g)
  end.

(** [GameLogic.start_personality_test], called at tick [now]. *)
Definition start_personality_test (now : Z) (g : Game) : Game :=
  start_loading "Preparing personality test questions..."
                (Some PERSONALITY_TEST) (Some OpLoadPersonalityTest) now g.

End GameThreads.

(** The progress ramp does not fall from one millisecond to the next. *)
Definition ramp_step_ok (n : nat) : bool :=
  DecisionGame.progress_ramp (Z.of_nat n)
  <=? DecisionGame.progress_ramp (Z.of_nat (S n)).

(** The progress a task without operation shows [e] ms after its start. *)
Definition shown_progress (e : Z) : Z :=
  if e <? 2000 then DecisionGame.progress_ramp e else 100.

(** A scenario typed in by a logged-in user, resp. a guest. *)
Definition scenario_typed (u : option string) (s : string) : Game :=
  let g := with_user u (with_token (Some "token")
             (with_current_state SCENARIO (initial_game 0))) in
  let w := widgets g in
  with_widgets
    {| username_box := username_box w; password_box := password_box w;
       scenario_input_box := TextBox.set_text s (scenario_input_box w);
       response_input := response_input w;
       login_submit_button := login_submit_button w;
       back_button := back_button w;
       next_question_button := next_question_button w;
       previous_question_button := previous_question_button w;
       finish_conversation_button := finish_conversation_button w;
       explore_more_button := explore_more_button w;
       new_topic_button := new_topic_button w |} g.

(* ===================================================================== *)
(** ** Keyboard input ([TextBox.handle_event] on [KEYDOWN], frontend/ui.py) *)
(* ===================================================================== *)

(** Python's sequence operations, with negative and out-of-range
    indices as Python treats them. *)
Module PySeq.

(** Where a slice bound [k] falls in a sequence of [len] items. *)
Definition slice_bound (len k : Z) : nat :=
  Z.to_nat (if k <? 0 then Z.max (len + k) 0 else Z.min k len).

Fixpoint take (n : nat) (s : string) : string :=
  match n, s with
  | S n', String c r => String c (take n' r)
  | _, _ => ""
  end.

Fixpoint drop (n : nat) (s : string) : string :=
  match n, s with
  | S n', String _ r => drop n' r
  | _, _ => s
  end.

Definition len (s : string) : Z := Z.of_nat (String.length s).

(** [s[:k]] *)
Definition upto (k : Z) (s : string) : string := take (slice_bound (len s) k) s.

(** [s[k:]] *)
Definition from (k : Z) (s : string) : string := drop (slice_bound (len s) k) s.

(** The position [l[i]] names; [None] is [IndexError]. *)
Definition item {A : Type} (l : list A) (i : Z) : option nat :=
  let n := Z.of_nat (List.length l) in
  if (0 <=? i) && (i <? n) then Some (Z.to_nat i)
  else if (i <? 0) && (- n <=? i) then Some (Z.to_nat (n + i))
  else None.

(** [l[i]] *)
Definition get {A : Type} (l : list A) (i : Z) : option A :=
  match item l i with
  | Some k => nth_error l k
  | None => None
  end.

(** [l[i] = v] *)
Definition set {A : Type} (l : list A) (i : Z) (v : A) : option (list A) :=
  match item l i with
  | Some k => Some (firstn k l ++ v :: skipn (S k) l)%list
  | None => None
  end.

(** [l.pop(i)], the list that is left. *)
Definition pop {A : Type} (l : list A) (i : Z) : option (list A) :=
  match item l i with
  | Some k => Some (firstn k l ++ skipn (S k) l)%list
  | None => None
  end.

(** [l.insert(i, v)] *)
Definition insert {A : Type} (l : list A) (i : Z) (v : A) : list A :=
  let k := slice_bound (Z.of_nat (List.length l)) i in
  (firstn k l ++ v :: skipn k l)%list.

End PySeq.

(** The keys [TextBox.handle_event] tells apart; [K_OTHER] is any other
    key. *)
Inductive Key :=
| K_BACKSPACE | K_DELETE | K_LEFT | K_RIGHT | K_RETURN | K_TAB | K_OTHER.

Module TextKeys.

Import TextBox.

(** The attributes a key press changes. *)
Definition edited (txt : string) (ls : list string)
           (line pos pos_single scroll : Z) (tb : t) : t :=
  {| rect := rect tb; text := txt; active := active tb;
     multiline := multiline tb; visible := visible tb;
     lines := ls; current_line := line; cursor_pos := pos;
     cursor_pos_single := pos_single; scroll_y := scroll;
     cursor_visible := cursor_visible tb;
     last_cursor_toggle := last_cursor_toggle tb |}.

Definition with_lines (ls : list string) (line pos : Z) (tb : t) : t :=
  edited (text tb) ls line pos (cursor_pos_single tb) (scroll_y tb) tb.

Definition with_text (txt : string) (pos_single : Z) (tb : t) : t :=
  edited txt (lines tb) (current_line tb) (cursor_pos tb) pos_single
         (scroll_y tb) tb.

Definition with_scroll_y (scroll : Z) (tb : t) : t :=
  edited (text tb) (lines tb) (current_line tb) (cursor_pos tb)
         (cursor_pos_single tb) scroll tb.

(** [self.max_visible_lines], set to [height // self.line_height] when
    the box is built. *)
Definition max_visible_lines (tb : t) : Z := rh (rect tb) / line_height.

(** [K_BACKSPACE] *)
Definition backspace (tb : t) : option t :=
  if multiline tb then
    if cursor_pos tb >? 0 then
      (* delete the character before the cursor *)
      match PySeq.get (lines tb) (current_line tb) with
      | None => None
      | Some line =>
          let line := (PySeq.upto (cursor_pos tb - 1) line
                       ++ PySeq.from (cursor_pos tb) line)%string in
          match PySeq.set (lines tb) (current_line tb) line with
          | None => None
          | Some ls => Some (with_lines ls (current_line tb) (cursor_pos tb - 1) tb)
          end
      end
    else if current_line tb >? 0 then
      (* merge with the previous line *)
      match PySeq.get (lines tb) (current_line tb - 1),
            PySeq.get (lines tb) (current_line tb) with
      | Some previous, Some current =>
          match PySeq.set (lines tb) (current_line tb - 1)
                          (previous ++ current)%string with
          | None => None
          | Some ls =>
              match PySeq.pop ls (current_line tb) with
              | None => None
              | Some ls =>
                  Some (with_lines ls (current_line tb - 1)
                                   (PySeq.len previous) tb)
              end
          end
      | _, _ => None
      end
    else Some tb
  else if cursor_pos_single tb >? 0 then
    Some (with_text (PySeq.upto (cursor_pos_single tb - 1) (text tb)
                     ++ PySeq.from (cursor_pos_single tb) (text tb))
                    (cursor_pos_single tb - 1) tb)
  else Some tb.

(** [K_DELETE]: delete the character at the cursor. *)
Definition delete (tb : t) : option t :=
  if multiline tb then
    match PySeq.get (lines tb) (current_line tb) with
    | None => None
    | Some line =>
        if cursor_pos tb <? PySeq.len line then
          let line := (PySeq.upto (cursor_pos tb) line
                       ++ PySeq.from (cursor_pos tb + 1) line)%string in
          match PySeq.set (lines tb) (current_line tb) line with
          | None => None
          | Some ls => Some (with_lines ls (current_line tb) (cursor_pos tb) tb)
          end
        else Some tb
    end
  else if cursor_pos_single tb <? PySeq.len (text tb) then
    Some (with_text (PySeq.upto (cursor_pos_single tb) (text tb)
                     ++ PySeq.from (cursor_pos_single tb + 1) (text tb))
                    (cursor_pos_single tb) tb)
  else Some tb.

(** [K_LEFT] *)
Definition left (tb : t) : option t :=
  if multiline tb then
    if cursor_pos tb >? 0 then
      Some (with_lines (lines tb) (current_line tb) (cursor_pos tb - 1) tb)
    else if current_line tb >? 0 then
      match PySeq.get (lines tb) (current_line tb - 1) with
      | None => None
      | Some line =>
          Some (with_lines (lines tb) (current_line tb - 1) (PySeq.len line) tb)
      end
    else Some tb
  else Some (with_text (text tb) (Z.max 0 (cursor_pos_single tb - 1)) tb).

(** [K_RIGHT] *)
Definition right (tb : t) : option t :=
  if multiline tb then
    match PySeq.get (lines tb) (current_line tb) with
    | None => None
    | Some line =>
        if cursor_pos tb <? PySeq.len line then
          Some (with_lines (lines tb) (current_line tb) (cursor_pos tb + 1) tb)
        else if current_line tb <? Z.of_nat (List.length (lines tb)) - 1 then
          Some (with_lines (lines tb) (current_line tb + 1) 0 tb)
        else Some tb
    end
  else Some (with_text (text tb)
                       (Z.min (PySeq.len (text tb)) (cursor_pos_single tb + 1))
                       tb).

(** [K_RETURN] in a multi-line box: insert a new line. *)
Definition new_line (tb : t) : option t :=
  match PySeq.get (lines tb) (current_line tb) with
  | None => None
  | Some line =>
      let new_line := PySeq.from (cursor_pos tb) line in
      match PySeq.set (lines tb) (current_line tb)
                      (PySeq.upto (cursor_pos tb) line) with
      | None => None
      | Some ls =>
          let ls := PySeq.insert ls (current_line tb + 1) new_line in
          let tb := with_lines ls (current_line tb + 1) 0 tb in
          (* scroll if needed *)
          if current_line tb >=? max_visible_lines tb
          then Some (with_scroll_y (scroll_y tb + line_height) tb)
          else Some tb
      end
  end.

(** Any key but the tabulator: insert [event.unicode] at the cursor,
    unless the box is full. *)
Definition insert_unicode (max_length : option Z) (unicode : string) (tb : t)
  : option t :=
  let room :=
    match max_length with
    | None => true
    | Some m =>
        if multiline tb
        then fold_right (fun line n => PySeq.len line + n) 0 (lines tb) <? m
        else PySeq.len (text tb) <? m
    end in
  if room then
    if multiline tb then
      match PySeq.get (lines tb) (current_line tb) with
      | None => None
      | Some line =>
          let line := (PySeq.upto (cursor_pos tb) line ++ unicode
                       ++ PySeq.from (cursor_pos tb) line)%string in
          match PySeq.set (lines tb) (current_line tb) line with
          | None => None
          | Some ls => Some (with_lines ls (current_line tb) (cursor_pos tb + 1) tb)
          end
      end
    else
      Some (with_text (PySeq.upto (cursor_pos_single tb) (text tb) ++ unicode
                       ++ PySeq.from (cursor_pos_single tb) (text tb))
                      (cursor_pos_single tb + 1) tb)
  else Some tb.

(** The end of the [KEYDOWN] branch: the cursor blinks anew, and a
    multi-line box scrolls to the line of the cursor. *)
Definition after_key (now : Z) (tb : t) : t :=
  let tb :=
    {| rect := rect tb; text := text tb; active := active tb;
       multiline := multiline tb; visible := visible tb;
       lines := lines tb; current_line := current_line tb;
       cursor_pos := cursor_pos tb;
       cursor_pos_single := cursor_pos_single tb; scroll_y := scroll_y tb;
       cursor_visible := true; last_cursor_toggle := now |} in
  if multiline tb then
    let visible_start := scroll_y tb / line_height in
    let visible_end := visible_start + max_visible_lines tb - 1 in
    if current_line tb <? visible_start then
      with_scroll_y (Z.max 0 (current_line tb * line_height)) tb
    else if current_line tb >? visible_end then
      with_scroll_y ((current_line tb - max_visible_lines tb + 1) * line_height) tb
    else tb
  else tb.

(** [TextBox.handle_event] on a [KEYDOWN] event with the key [key] and
    the text [unicode], at tick [now]; [max_length] is the limit the box
    was built with. [None] when an [IndexError] leaves the method. *)
Definition handle_keydown (now : Z) (max_length : option Z) (key : Key)
           (unicode : string) (tb : t) : option t :=
  if negb (visible tb) then Some tb
  else if negb (active tb) then Some tb
  else
    let changed :=
      match key with
      | K_BACKSPACE => backspace tb
      | K_DELETE => delete tb
      | K_LEFT => left tb
      | K_RIGHT => right tb
      | K_RETURN =>
          if multiline tb then new_line tb
          else insert_unicode max_length unicode tb
      | K_TAB => Some tb
      | K_OTHER => insert_unicode max_length unicode tb
      end in
    match changed with
    | Some tb => Some (after_key now tb)
    | None => None
    end.

(** The keys of [keys] pressed one after the other, each with its text. *)
Fixpoint press_all (now : Z) (max_length : option Z)
         (keys : list (Key * string)) (tb : t) : option t :=
  match keys with
  | [] => Some tb
  | (key, unicode) :: rest =>
      match handle_keydown now max_length key unicode tb with
      | Some tb => press_all now max_length rest tb
      | None => None
      end
  end.

(** One [K_OTHER] key press per character of [s]. *)
Fixpoint typed (s : string) : list (Key * string) :=
  match s with
  | EmptyString => []
  | String c r => (K_OTHER, String c "") :: typed r
  end.

(** The cursors are inside the text. *)
Definition cursors_inside (tb : t) : Prop :=
  0 <= cursor_pos_single tb <= PySeq.len (text tb)
  /\ exists line,
       PySeq.get (lines tb) (current_line tb) = Some line
       /\ 0 <= current_line tb
       /\ 0 <= cursor_pos tb <= PySeq.len line.

End TextKeys.

(** A box of the size of the response box holding [s], after a click
    into it. *)
Definition focused_box (multi : bool) (s : string) : TextBox.t :=
  TextBox.handle_event fixed_width_font 0 (500, 490)
    (TextBox.set_text s (TextBox.init 500 480 700 80 multi 0)).

(* ===================================================================== *)
(** ** Properties: navigation *)
(* ===================================================================== *)

Section Navigation.

Import DecisionGame.

Lemma screen_name_truthy (s : Screen) : PyStr.truthy (screen_name s) = true.
Proof. destruct s; reflexivity. Qed.

Lemma screen_eqb_true_iff (a b : Screen) : screen_eqb a b = true <-> a = b.
Proof. destruct a, b; vm_compute; split; congruence. Qed.

Lemma back_with_previous (g : Game) (p : Screen) :
  previous_state g = Some p ->
  back_to_previous_state g
  = with_previous_state (Some (current_state g)) (with_current_state p g).
Proof.
  intros Hp. unfold back_to_previous_state.
  rewrite Hp, screen_name_truthy. reflexivity.
Qed.

Lemma back_without_previous (g : Game) :
  previous_state g = None ->
  back_to_previous_state g = with_current_state SCENARIO g.
Proof. intros Hp. unfold back_to_previous_state. now rewrite Hp. Qed.

(** A swap undoes itself when the previous slot is filled. *)
Lemma back_twice (g : Game) (p : Screen) :
  previous_state g = Some p ->
  back_to_previous_state (back_to_previous_state g) = g.
Proof.
  intros Hp. rewrite (back_with_previous g p Hp).
  rewrite (back_with_previous _ (current_state g)) by reflexivity.
  destruct g; simpl in *; subst; reflexivity.
Qed.

(** C1. After [change_state B] with [save_previous=True] from any state
    whose screen is A, [back_to_previous_state] makes A the current
    screen again and keeps B in the previous slot (a swap); a second
    [back_to_previous_state] right after it gives back the very state
    the first one started from, so the screen is B again. *)
Theorem back_after_goto_restores (g : Game) (B : Screen) :
  let g1 := change_state B true g in
  current_state g1 = B
  /\ current_state (back_to_previous_state g1) = current_state g
  /\ previous_state (back_to_previous_state g1) = Some B
  /\ back_to_previous_state (back_to_previous_state g1) = g1.
Proof.
  intros g1.
  assert (Hprev : previous_state g1 = Some (current_state g)) by reflexivity.
  repeat split.
  - rewrite (back_with_previous g1 _ Hprev). reflexivity.
  - rewrite (back_with_previous g1 _ Hprev). reflexivity.
  - exact (back_twice g1 _ Hprev).
Qed.

(** C10. With an empty previous slot, [back_to_previous_state] sets the
    current screen to the scenario-entry screen and changes nothing
    else (the slot stays empty); with a filled slot it swaps the
    current screen and the slot. The swap happens in that case only. *)
Theorem back_with_empty_history_goes_to_scenario (g : Game) :
  (previous_state g = None ->
     back_to_previous_state g = with_current_state SCENARIO g
     /\ current_state (back_to_previous_state g) = SCENARIO
     /\ previous_state (back_to_previous_state g) = None)
  /\ (forall p, previous_state g = Some p ->
        current_state (back_to_previous_state g) = p
        /\ previous_state (back_to_previous_state g) = Some (current_state g)).
Proof.
  split.
  - intros Hp. rewrite (back_without_previous g Hp). simpl. auto.
  - intros p Hp. rewrite (back_with_previous g p Hp). simpl. auto.
Qed.

End Navigation.

Lemma back_with_empty_history_goes_to_scenario_witness :
  current_state (initial_game 0) = MAIN_MENU
  /\ current_state (DecisionGame.back_to_previous_state (initial_game 0)) = SCENARIO
  /\ current_state
       (DecisionGame.back_to_previous_state
          (DecisionGame.change_state SETTINGS true (initial_game 0)))
     = MAIN_MENU.
Proof.
  split; [reflexivity | split].
  - apply (proj1 (back_with_empty_history_goes_to_scenario (initial_game 0))).
    reflexivity.
  - apply (proj2 (back_with_empty_history_goes_to_scenario
                    (DecisionGame.change_state SETTINGS true (initial_game 0)))
                 MAIN_MENU).
    reflexivity.
Defined.

(* ===================================================================== *)
(** ** Properties: the loading lifecycle *)
(* ===================================================================== *)

(** Name every field of a game, so that a case analysis on one of them
    reaches all its occurrences. *)
Ltac open_game g :=
  let cs := fresh "cs" in let ps := fresh "ps" in
  let sm := fresh "sm" in let sc := fresh "sc" in
  let us := fresh "us" in let tk := fresh "tk" in
  let st := fresh "st" in let cv := fresh "cv" in
  let qz := fresh "qz" in let wd := fresh "wd" in
  let ths := fresh "ths" in
  let il := fresh "il" in let lm := fresh "lm" in
  let lt := fresh "lt" in let lp := fresh "lp" in
  let ls := fresh "ls" in let lo := fresh "lo" in
  let lc := fresh "lc" in let lf := fresh "lf" in
  destruct g as [cs ps sm sc us tk st [il lm lt lp ls lo lc lf] cv qz wd ths];
  cbn [loading is_loading loading_message loading_target_state
       loading_progress loading_start_time loading_operation
       loading_completed loading_animation_frames current_state
       previous_state] in *.

(** Decide the tests of [_update_loading] on the elapsed time. *)
Ltac split_elapsed e :=
  destruct (Z.ltb_spec e 2000);
  destruct (Z.gtb_spec e 2500);
  destruct (Z.gtb_spec e 3500);
  try lia.

Section LoadingLifecycle.

Import DecisionGame.

Lemma ramp_checked :
  forallb (fun n => ramp_in_range (Z.of_nat n)) (seq 0 2000) = true.
Proof. vm_compute. reflexivity. Qed.

Lemma progress_ramp_bounds (e : Z) :
  0 <= e < 2000 -> 0 <= progress_ramp e <= 100.
Proof.
  intros He.
  pose proof ramp_checked as Hc.
  rewrite forallb_forall in Hc.
  specialize (Hc (Z.to_nat e)).
  rewrite Z2Nat.id in Hc by lia.
  assert (Hin : In (Z.to_nat e) (seq 0 2000)) by (apply in_seq; lia).
  apply Hc in Hin. unfold ramp_in_range in Hin.
  apply andb_prop in Hin. destruct Hin as [H1 H2].
  apply Z.leb_le in H1. apply Z.leb_le in H2. lia.
Qed.

#[local] Opaque progress_ramp animation_frame.

(** While the task waits on its thread, a step only animates. *)
Lemma update_loading_waiting (now : Z) (g : Game) :
  waiting_on_thread (loading g) = true ->
  _update_loading now g
  = with_loading
      (with_loading_animation_frames
         (animation_frame (now - loading_start_time (loading g)))
         (loading g)) g.
Proof.
  open_game g. unfold waiting_on_thread, _update_loading. cbn.
  destruct lo as [[tg al]|]; [|discriminate].
  destruct lc, al; cbn; try discriminate. reflexivity.
Qed.

Lemma update_loading_fields (now : Z) (g : Game) :
  let g' := _update_loading now g in
  loading_start_time (loading g') = loading_start_time (loading g)
  /\ loading_operation (loading g') = loading_operation (loading g)
  /\ loading_target_state (loading g') = loading_target_state (loading g)
  /\ loading_message (loading g') = loading_message (loading g)
  /\ previous_state g' = previous_state g
  /\ threads g' = threads g
  /\ conversation g' = conversation g
  /\ quiz g' = quiz g
  /\ widgets g' = widgets g.
Proof.
  open_game g. unfold _update_loading. cbn.
  destruct lo as [[tg al]|]; destruct lc; try destruct al; cbn;
    split_elapsed (now - ls); cbn;
    try destruct (screen_eqb cs LOGIN); cbn;
    repeat split; reflexivity.
Qed.

Lemma update_loading_completed_mono (now : Z) (g : Game) :
  loading_completed (loading g) = true ->
  loading_completed (loading (_update_loading now g)) = true.
Proof.
  open_game g. intros ->. unfold _update_loading. cbn.
  destruct lo as [[tg al]|]; cbn;
    split_elapsed (now - ls); cbn;
    try destruct (screen_eqb cs LOGIN); cbn; reflexivity.
Qed.

(** Not waiting on a thread, and past the auto-complete threshold: the
    step marks the task completed. *)
Lemma update_loading_completes (now : Z) (g : Game) :
  waiting_on_thread (loading g) = false ->
  auto_complete_after < now - loading_start_time (loading g) ->
  loading_completed (loading (_update_loading now g)) = true.
Proof.
  unfold auto_complete_after. open_game g.
  unfold waiting_on_thread, _update_loading. cbn. intros Hw He.
  destruct lo as [[tg al]|]; destruct lc; try destruct al; cbn in *;
    try discriminate;
    split_elapsed (now - ls); cbn;
    try destruct (screen_eqb cs LOGIN); cbn; reflexivity.
Qed.

(** Already completed, and past the emergency threshold: the step
    leaves the loading state for the login screen. *)
Lemma update_loading_emergency_exit (now : Z) (g : Game) :
  loading_completed (loading g) = true ->
  emergency_exit_after < now - loading_start_time (loading g) ->
  is_loading (loading (_update_loading now g)) = false
  /\ current_state (_update_loading now g) = LOGIN.
Proof.
  unfold emergency_exit_after. open_game g. intros -> He.
  unfold _update_loading. cbn.
  destruct lo as [[tg al]|]; cbn;
    split_elapsed (now - ls); cbn;
    destruct (screen_eqb cs LOGIN) eqn:E; cbn;
    (split; [reflexivity | try reflexivity; now apply screen_eqb_true_iff]).
Qed.

(** A step that leaves the task uncompleted leaves the screen alone. *)
Lemma update_loading_uncompleted_keeps_screen (now : Z) (g : Game) :
  loading_completed (loading (_update_loading now g)) = false ->
  current_state (_update_loading now g) = current_state g
  /\ is_loading (loading (_update_loading now g)) = is_loading (loading g).
Proof.
  open_game g. unfold _update_loading. cbn.
  destruct lo as [[tg al]|]; destruct lc; try destruct al; cbn;
    split_elapsed (now - ls); cbn;
    try destruct (screen_eqb cs LOGIN); cbn;
    intros; try discriminate; split; reflexivity.
Qed.

Lemma update_not_loading (now : Z) (g : Game) :
  is_loading (loading g) = false -> update now g = g.
Proof. intros H. unfold update. now rewrite H. Qed.

Lemma run_updates_not_loading (ticks : list Z) (g : Game) :
  is_loading (loading g) = false -> run_updates ticks g = g.
Proof.
  intros H. unfold run_updates. induction ticks as [|t ticks IH]; cbn.
  - reflexivity.
  - rewrite (update_not_loading t g H). exact IH.
Qed.

Lemma run_loading_snoc (ticks : list Z) (t : Z) (g : Game) :
  run_loading (ticks ++ [t]) g = _update_loading t (run_loading ticks g).
Proof. unfold run_loading. now rewrite fold_left_app. Qed.

(** While the task waits on its thread, a whole frame only animates. *)
Lemma update_waiting (now : Z) (g : Game) :
  is_loading (loading g) = true ->
  waiting_on_thread (loading g) = true ->
  update now g
  = with_loading
      (with_loading_animation_frames
         (animation_frame (now - loading_start_time (loading g)))
         (loading g)) g.
Proof.
  intros Hl Hw. unfold update. rewrite Hl.
  rewrite (update_loading_waiting now g Hw).
  open_game g. unfold waiting_on_thread in Hw. cbn in *.
  destruct lo as [[tg al]|]; [|discriminate].
  destruct lc; [now rewrite andb_false_r in Hw|]. reflexivity.
Qed.

Lemma run_updates_waiting (ticks : list Z) (g : Game) :
  is_loading (loading g) = true ->
  waiting_on_thread (loading g) = true ->
  is_loading (loading (run_updates ticks g)) = true
  /\ waiting_on_thread (loading (run_updates ticks g)) = true
  /\ current_state (run_updates ticks g) = current_state g.
Proof.
  revert g. unfold run_updates.
  induction ticks as [|t ticks IH]; intros g Hl Hw; cbn.
  - auto.
  - rewrite (update_waiting t g Hl Hw).
    specialize (IH (with_loading
      (with_loading_animation_frames
         (animation_frame (t - loading_start_time (loading g)))
         (loading g)) g)).
    apply IH.
    + exact Hl.
    + exact Hw.
Qed.

(** The frame that finds the task completed, with a target. *)
Lemma update_transition (now : Z) (g : Game) (tgt : Screen) :
  is_loading (loading g) = true ->
  loading_target_state (loading g) = Some tgt ->
  loading_completed (loading (_update_loading now g)) = true ->
  current_state (update now g) = tgt
  /\ is_loading (loading (update now g)) = false
  /\ loading_target_state (loading (update now g)) = None
  /\ loading_operation (loading (update now g)) = None.
Proof.
  intros Hl Ht Hc. unfold update. rewrite Hl.
  destruct (update_loading_fields now g) as (_ & _ & Ht' & _).
  rewrite Hc, Ht', Ht. cbn. auto.
Qed.

(** Without a target, a frame is the loading-update step alone. *)
Lemma update_no_target (now : Z) (g : Game) :
  is_loading (loading g) = true ->
  loading_target_state (loading g) = None ->
  update now g = _update_loading now g.
Proof.
  intros Hl Ht. unfold update. rewrite Hl.
  destruct (update_loading_fields now g) as (_ & _ & Ht' & _).
  rewrite Ht', Ht.
  now destruct (loading_completed (loading (_update_loading now g))).
Qed.

(** A frame whose step left the loading state ends outside it. *)
Lemma update_leaves_loading (now : Z) (g : Game) :
  is_loading (loading g) = true ->
  is_loading (loading (_update_loading now g)) = false
  /\ current_state (_update_loading now g) = LOGIN ->
  is_loading (loading (update now g)) = false.
Proof.
  intros Hl [Hoff _]. unfold update. rewrite Hl.
  destruct (loading_completed (loading (_update_loading now g)));
    [|exact Hoff].
  destruct (loading_target_state (loading (_update_loading now g)));
    [reflexivity|exact Hoff].
Qed.

(** Without an operation, a step is a function of the elapsed time. *)
Lemma update_loading_no_operation (now : Z) (g : Game) :
  loading_operation (loading g) = None ->
  let e := now - loading_start_time (loading g) in
  let g' := _update_loading now g in
  loading_completed (loading g')
  = (loading_completed (loading g) || (e >? 2500))%bool
  /\ loading_progress (loading g')
     = (if e <? 2000 then progress_ramp e else 100).
Proof.
  open_game g. intros ->. unfold _update_loading. cbn.
  destruct lc; cbn; split_elapsed (now - ls); cbn;
    try destruct (screen_eqb cs LOGIN); cbn; split; reflexivity.
Qed.

End LoadingLifecycle.

Section LoadingClaims.

Import DecisionGame.

#[local] Opaque progress_ramp animation_frame.

(** C2 (as amended). Past the emergency ceiling of 3500 ms, a
    loading-update step on a task that is not waiting on a live thread
    (no operation was supplied, or its thread has ended, or the task is
    already marked completed) marks the task completed; when it was
    already completed the step leaves the loading state and makes the
    login screen current; and two frames past the ceiling always leave
    the loading state. A task that waits on a live thread has no
    timeout: whatever the elapsed time, a step changes nothing but the
    animation frame. *)
Theorem watchdog_unless_waiting_on_thread (now : Z) (g : Game) :
  is_loading (loading g) = true ->
  emergency_exit_after < now - loading_start_time (loading g) ->
  (waiting_on_thread (loading g) = false ->
     loading_completed (loading (_update_loading now g)) = true
     /\ (loading_completed (loading g) = true ->
           is_loading (loading (_update_loading now g)) = false
           /\ current_state (_update_loading now g) = LOGIN)
     /\ (forall now2,
           emergency_exit_after < now2 - loading_start_time (loading g) ->
           is_loading (loading (update now2 (update now g))) = false))
  /\ (waiting_on_thread (loading g) = true ->
        _update_loading now g
        = with_loading
            (with_loading_animation_frames
               (animation_frame (now - loading_start_time (loading g)))
               (loading g)) g).
Proof.
  intros Hl He. split.
  - intros Hw. split; [|split].
    + apply update_loading_completes; [exact Hw|].
      unfold auto_complete_after, emergency_exit_after in *. lia.
    + intros Hc. now apply update_loading_emergency_exit.
    + intros now2 He2.
      assert (Hc1 : loading_completed (loading (_update_loading now g)) = true).
      { apply update_loading_completes; [exact Hw|].
        unfold auto_complete_after, emergency_exit_after in *. lia. }
      destruct (loading_target_state (loading g)) as [tgt|] eqn:Ht.
      * destruct (update_transition now g tgt Hl Ht Hc1) as (_ & Hoff & _).
        now rewrite (update_not_loading now2 _ Hoff).
      * rewrite (update_no_target now g Hl Ht).
        destruct (is_loading (loading (_update_loading now g))) eqn:Hl1.
        -- apply update_leaves_loading; [exact Hl1|].
           apply update_loading_emergency_exit; [exact Hc1|].
           destruct (update_loading_fields now g) as (Hs & _).
           now rewrite Hs.
        -- now rewrite (update_not_loading now2 _ Hl1).
  - apply update_loading_waiting.
Qed.

(** C3. When a frame finds the loading task completed, it makes the
    target recorded in [loading_target_state] at that moment the
    current screen, clears the task (no loading state, no target, no
    operation), and later frames change nothing more: one transition.
    A frame that leaves the task uncompleted leaves the screen as it
    is. A registration started with the login screen as target lands on
    the register screen when the registration fails in flight, and a
    login started with the scenario screen as target lands on the login
    screen when the login fails. *)
Theorem transition_uses_target_at_completion :
  (forall (now : Z) (g : Game) (tgt : Screen),
      is_loading (loading g) = true ->
      loading_target_state (loading g) = Some tgt ->
      loading_completed (loading (_update_loading now g)) = true ->
      current_state (update now g) = tgt
      /\ is_loading (loading (update now g)) = false
      /\ loading_target_state (loading (update now g)) = None
      /\ loading_operation (loading (update now g)) = None
      /\ (forall ticks, run_updates ticks (update now g) = update now g))
  /\ (forall (now : Z) (g : Game),
        loading_completed (loading (_update_loading now g)) = false ->
        current_state (update now g) = current_state g)
  /\ (forall (g0 : Game) (t0 now : Z) (username email password fullname : string)
             (reply : RegisterReply),
        registration_failed reply = true ->
        let g1 := start_loading "Creating your account..." (Some LOGIN)
                    (Some (OpRegistration username email password fullname))
                    t0 g0 in
        let g2 := GameEventHandler._perform_registration
                    username email password fullname reply g1 in
        loading_target_state (loading g1) = Some LOGIN
        /\ loading_target_state (loading g2) = Some REGISTER
        /\ current_state (update now g2) = REGISTER)
  /\ (forall (g0 : Game) (t0 now : Z) (username password : string)
             (reply : LoginReply),
        login_failed reply = true ->
        let g1 := start_loading "Logging in..." (Some SCENARIO)
                    (Some (OpLogin username password)) t0 g0 in
        let g2 := GameEventHandler._perform_login username password reply g1 in
        loading_target_state (loading g1) = Some SCENARIO
        /\ loading_target_state (loading g2) = Some LOGIN
        /\ current_state (update now g2) = LOGIN).
Proof.
  pose proof update_transition as Hmain.
  split; [|split; [|split]].
  - intros now g tgt Hl Ht Hc.
    destruct (Hmain now g tgt Hl Ht Hc) as (H1 & H2 & H3 & H4).
    repeat split; try assumption.
    intros ticks. now apply run_updates_not_loading.
  - intros now g Hc. unfold update.
    destruct (is_loading (loading g)); [|reflexivity].
    rewrite Hc.
    now destruct (update_loading_uncompleted_keeps_screen now g Hc).
  - intros g0 t0 now username email password fullname reply Hf g1 g2.
    assert (Hg2 : is_loading (loading g2) = true
                  /\ loading_target_state (loading g2) = Some REGISTER
                  /\ loading_completed (loading g2) = true).
    { subst g1 g2. unfold GameEventHandler._perform_registration.
      destruct reply as [msg | [code|] detail]; cbn in *; auto.
      destruct code as [|p|p]; cbn in *; auto.
      unfold GameLogic.register.
      destruct (Pos.eq_dec p 200) as [->|Hne]; [discriminate|].
      do 8 (try (destruct p as [p|p|]; cbn in *; auto)); congruence. }
    destruct Hg2 as (Hl & Ht & Hc).
    split; [reflexivity|]. split; [exact Ht|].
    apply (Hmain now g2 REGISTER Hl Ht).
    now apply update_loading_completed_mono.
  - intros g0 t0 now username password reply Hf g1 g2.
    assert (Hg2 : is_loading (loading g2) = true
                  /\ loading_target_state (loading g2) = Some LOGIN
                  /\ loading_completed (loading g2) = true).
    { subst g1 g2. destruct reply as [msg | [tok|] err]; cbn in *; auto.
      discriminate. }
    destruct Hg2 as (Hl & Ht & Hc).
    split; [reflexivity|]. split; [exact Ht|].
    apply (Hmain now g2 LOGIN Hl Ht).
    now apply update_loading_completed_mono.
Qed.

(** C7. A loading task started without an operation, then stepped at
    the ticks [ticks]: it is completed as soon as one step falls more
    than 2500 ms after the start, and not before; its progress is the
    ramp [int(elapsed / 2000 * 100)] during the first two seconds and
    100 afterwards, and stays between 0 and 100. *)
Theorem no_operation_completes_after_threshold
        (g : Game) (message : string) (target_state : option Screen)
        (t0 : Z) (ticks : list Z) :
  let g0 := start_loading message target_state None t0 g in
  loading_completed (loading g0) = false
  /\ (Exists (fun t => auto_complete_after < t - t0) ticks ->
        loading_completed (loading (run_loading ticks g0)) = true)
  /\ (Forall (fun t => t - t0 <= auto_complete_after) ticks ->
        loading_completed (loading (run_loading ticks g0)) = false)
  /\ (Forall (fun t => t0 <= t) ticks ->
        0 <= loading_progress (loading (run_loading ticks g0)) <= 100)
  /\ (forall t,
        loading_progress (loading (_update_loading t (run_loading ticks g0)))
        = if t - t0 <? 2000 then progress_ramp (t - t0) else 100).
Proof.
  intros g0.
  assert (Hinv : forall l,
             loading_operation (loading (run_loading l g0)) = None
             /\ loading_start_time (loading (run_loading l g0)) = t0).
  { induction l as [|t l IH] using rev_ind.
    - split; reflexivity.
    - rewrite run_loading_snoc.
      destruct (update_loading_fields t (run_loading l g0))
        as (Hs & Ho & _).
      destruct IH as [IH1 IH2]. split; congruence. }
  assert (Hstep : forall l t,
             loading_completed (loading (run_loading (l ++ [t]) g0))
             = (loading_completed (loading (run_loading l g0))
                || (t - t0 >? 2500))%bool
             /\ loading_progress (loading (run_loading (l ++ [t]) g0))
                = (if t - t0 <? 2000 then progress_ramp (t - t0) else 100)).
  { intros l t. rewrite run_loading_snoc.
    destruct (Hinv l) as [Ho Hs].
    pose proof (update_loading_no_operation t (run_loading l g0) Ho) as H.
    cbv zeta in H. rewrite Hs in H. exact H. }
  unfold auto_complete_after.
  split; [reflexivity|]. split; [|split; [|split]].
  - induction ticks as [|t l IH] using rev_ind; intros Hex.
    + inversion Hex.
    + destruct (Hstep l t) as [Hc _]. rewrite Hc.
      apply Exists_app in Hex. destruct Hex as [Hex|Hex].
      * rewrite (IH Hex). reflexivity.
      * inversion Hex as [? ? Ht|? ? Ht]; [|inversion Ht].
        apply orb_true_iff. right. apply Z.gtb_lt. lia.
  - induction ticks as [|t l IH] using rev_ind; intros Hall.
    + reflexivity.
    + destruct (Hstep l t) as [Hc _]. rewrite Hc.
      apply Forall_app in Hall. destruct Hall as [Hl Ht].
      rewrite (IH Hl). cbn.
      inversion Ht as [|? ? Ht' _]; subst.
      destruct (Z.gtb_spec (t - t0) 2500); [lia|reflexivity].
  - destruct ticks as [|t l] using rev_ind; intros Hall.
    + cbn. lia.
    + destruct (Hstep l t) as [_ Hp]. rewrite Hp.
      apply Forall_app in Hall. destruct Hall as [_ Ht].
      inversion Ht as [|? ? Ht' _]; subst.
      destruct (Z.ltb_spec (t - t0) 2000); [|lia].
      apply progress_ramp_bounds. lia.
  - intros t. destruct (Hstep ticks t) as [_ Hp].
    rewrite run_loading_snoc in Hp. exact Hp.
Qed.

End LoadingClaims.

(** C2, the claim as worded, fails on a login whose thread is still
    alive ten seconds after the start: the step neither completes the
    task nor leaves the loading state, however many frames follow. *)
Lemma watchdog_misses_running_operation :
  is_loading (loading pending_login) = true
  /\ emergency_exit_after < 10000 - loading_start_time (loading pending_login)
  /\ loading_completed
       (loading (DecisionGame._update_loading 10000 pending_login)) = false
  /\ is_loading
       (loading (DecisionGame._update_loading 10000 pending_login)) = true
  /\ current_state (DecisionGame._update_loading 10000 pending_login)
     = MAIN_MENU
  /\ (forall ticks, is_loading (loading (run_updates ticks pending_login)) = true)
  /\ ~ watchdog_for_every_task.
Proof.
  split; [reflexivity|]. split; [reflexivity|].
  split; [vm_compute; reflexivity|]. split; [vm_compute; reflexivity|].
  split; [vm_compute; reflexivity|]. split.
  - intros ticks.
    now destruct (run_updates_waiting ticks pending_login eq_refl eq_refl).
  - intros H. specialize (H 10000 pending_login eq_refl eq_refl).
    vm_compute in H. destruct H as [H|[H _]]; discriminate.
Qed.

Lemma watchdog_unless_waiting_on_thread_witness :
  let g := DecisionGame.start_loading "Loading..." None None 0 (initial_game 0) in
  loading_completed (loading (DecisionGame._update_loading 4000 g)) = true
  /\ is_loading
       (loading (DecisionGame.update 4100 (DecisionGame.update 4000 g))) = false
  /\ DecisionGame._update_loading 10000 pending_login
     = with_loading
         (with_loading_animation_frames
            (DecisionGame.animation_frame 10000) (loading pending_login))
         pending_login.
Proof.
  intros g.
  assert (Hl : is_loading (loading g) = true) by reflexivity.
  assert (He : emergency_exit_after < 4000 - loading_start_time (loading g))
    by (vm_compute; reflexivity).
  destruct (watchdog_unless_waiting_on_thread 4000 g Hl He) as [Hidle _].
  destruct (Hidle eq_refl) as (Hc & _ & Htwo).
  split; [exact Hc|]. split.
  - apply Htwo. vm_compute. reflexivity.
  - assert (He' : emergency_exit_after
                  < 10000 - loading_start_time (loading pending_login))
      by (vm_compute; reflexivity).
    destruct (watchdog_unless_waiting_on_thread 10000 pending_login
                eq_refl He') as [_ Hwait].
    exact (Hwait eq_refl).
Defined.

Lemma transition_uses_target_at_completion_witness :
  let g1 := DecisionGame.start_loading "Creating your account..." (Some LOGIN)
              (Some (OpRegistration "bob" "bob@example.com" "pw" "Bob"))
              0 (initial_game 0) in
  let g2 := GameEventHandler._perform_registration
              "bob" "bob@example.com" "pw" "Bob"
              (RegisterReturns (Some 400) (Some "Username already exists")) g1 in
  loading_target_state (loading g1) = Some LOGIN
  /\ current_state (DecisionGame.update 50 g2) = REGISTER
  /\ is_loading (loading (DecisionGame.update 50 g2)) = false
  /\ current_state
       (DecisionGame.update 50
          (GameEventHandler._perform_login "bob" "pw"
             (LoginReturns None None)
             (DecisionGame.start_loading "Logging in..." (Some SCENARIO)
                (Some (OpLogin "bob" "pw")) 0 (initial_game 0))))
     = LOGIN.
Proof.
  intros g1 g2.
  destruct transition_uses_target_at_completion as (Hgen & _ & Hreg & Hlog).
  destruct (Hreg (initial_game 0) 0 50 "bob" "bob@example.com" "pw" "Bob"
              (RegisterReturns (Some 400) (Some "Username already exists"))
              eq_refl) as (H1 & H2 & H3).
  split; [exact H1|]. split; [exact H3|]. split.
  - destruct (Hgen 50 g2 REGISTER eq_refl eq_refl) as (_ & H & _).
    + vm_compute. reflexivity.
    + exact H.
  - destruct (Hlog (initial_game 0) 0 50 "bob" "pw" (LoginReturns None None)
                eq_refl) as (_ & _ & H).
    exact H.
Defined.

Lemma no_operation_completes_after_threshold_witness :
  let g0 := DecisionGame.start_loading "Loading..." None None 0 (initial_game 0) in
  loading_completed (loading (run_loading [16; 1000; 2600] g0)) = true
  /\ loading_completed (loading (run_loading [16; 1000; 2500] g0)) = false
  /\ 0 <= loading_progress (loading (run_loading [16; 580] g0)) <= 100.
Proof.
  intros g0.
  destruct (no_operation_completes_after_threshold
              (initial_game 0) "Loading..." None 0 [16; 1000; 2600])
    as (_ & Hex & _).
  destruct (no_operation_completes_after_threshold
              (initial_game 0) "Loading..." None 0 [16; 1000; 2500])
    as (_ & _ & Hall & _).
  destruct (no_operation_completes_after_threshold
              (initial_game 0) "Loading..." None 0 [16; 580])
    as (_ & _ & _ & Hp & _).
  split; [|split].
  - apply Hex. right. right. left. vm_compute. reflexivity.
  - apply Hall. repeat constructor; vm_compute; discriminate.
  - apply Hp. repeat constructor; vm_compute; discriminate.
Defined.

(** The ramp at 580 ms: [0.29 * 100] is 28.999999999999996 in binary64. *)
Example progress_ramp_580 : DecisionGame.progress_ramp 580 = 28.
Proof. vm_compute. reflexivity. Qed.

(* ===================================================================== *)
(** ** Properties: the conversation *)
(* ===================================================================== *)

Section ConversationClaims.

Import DecisionGame.

Lemma get_text_set_text_empty (tb : TextBox.t) :
  TextBox.get_text (TextBox.set_text "" tb) = "".
Proof.
  destruct tb as [r t a m v ls cl cp cps sy cv lt].
  unfold TextBox.get_text, TextBox.set_text. cbn.
  destruct m; reflexivity.
Qed.

Lemma truthy_nonempty (s : string) : s <> "" -> PyStr.truthy s = true.
Proof. destruct s; [congruence | reflexivity]. Qed.

(** One submission of a non-empty response. *)
Lemma submit_response_step (rnd : nat) (tb : TextBox.t) (g : Game) :
  TextBox.get_text tb <> "" ->
  exists g',
    GameEventHandler._submit_response rnd (enter_response tb g) = Some g'
    /\ conversation_questions (conversation g')
       = conversation_questions (conversation g)
    /\ user_responses (conversation g')
       = (user_responses (conversation g) ++ [TextBox.get_text tb])%list
    /\ current_question_index (conversation g')
       = current_question_index (conversation g) + 1
    /\ conversation_complete (conversation g')
       = (conversation_complete (conversation g)
          || (current_question_index (conversation g) + 1
              >=? Z.of_nat (List.length (conversation_questions (conversation g)))))%bool
    /\ option_map TextBox.get_text (response_input (widgets g')) = Some ""
    /\ ((conversation_complete (conversation g) = true ->
         conversation_summary (conversation g) <> None) ->
        conversation_complete (conversation g') = true ->
        conversation_summary (conversation g') <> None)
    /\ current_state g' = current_state g
    /\ loading g' = loading g.
Proof.
  intros Hne.
  unfold GameEventHandler._submit_response, enter_response,
    GameLogic.answer_current_question.
  cbn. rewrite (truthy_nonempty _ Hne). cbn.
  destruct (current_question_index (conversation g) + 1
            >=? Z.of_nat (List.length (conversation_questions (conversation g))))
    eqn:E.
  - eexists. split; [reflexivity|]. cbn.
    rewrite get_text_set_text_empty, orb_true_r.
    repeat split; try reflexivity. intros _ _. discriminate.
  - eexists. split; [reflexivity|]. cbn.
    rewrite get_text_set_text_empty, orb_false_r.
    repeat split; try reflexivity. intros H Hc. now apply H.
Qed.

(** Any number of submissions of non-empty responses. *)
Lemma submit_all_spec (inputs : list (TextBox.t * nat)) :
  forall g : Game,
    Forall (fun i => TextBox.get_text (fst i) <> "") inputs ->
    exists g',
      submit_all inputs g = Some g'
      /\ conversation_questions (conversation g')
         = conversation_questions (conversation g)
      /\ user_responses (conversation g')
         = (user_responses (conversation g)
            ++ map (fun i => TextBox.get_text (fst i)) inputs)%list
      /\ current_question_index (conversation g')
         = current_question_index (conversation g)
           + Z.of_nat (List.length inputs)
      /\ conversation_complete (conversation g')
         = (conversation_complete (conversation g)
            || (negb (Nat.eqb (List.length inputs) 0)
                && (current_question_index (conversation g)
                    + Z.of_nat (List.length inputs)
                    >=? Z.of_nat (List.length
                                    (conversation_questions (conversation g))))))%bool
      /\ (inputs <> [] ->
          option_map TextBox.get_text (response_input (widgets g')) = Some "")
      /\ ((conversation_complete (conversation g) = true ->
           conversation_summary (conversation g) <> None) ->
          conversation_complete (conversation g') = true ->
          conversation_summary (conversation g') <> None).
Proof.
  induction inputs as [|[tb rnd] rest IH]; intros g Hall.
  - exists g. cbn. rewrite app_nil_r, Z.add_0_r, orb_false_r.
    repeat split; try reflexivity; [congruence | auto].
  - inversion Hall as [|? ? Hne Hrest]; subst. cbn [fst] in Hne.
    destruct (submit_response_step rnd tb g Hne)
      as (g1 & Hs & Hq & Hr & Hi & Hc & Hbox & Hsum & _).
    destruct (IH g1 Hrest) as (g' & Hs' & Hq' & Hr' & Hi' & Hc' & Hbox' & Hsum').
    exists g'. cbn [submit_all]. rewrite Hs.
    split; [exact Hs'|]. split; [congruence|]. split.
    { rewrite Hr', Hr. cbn. now rewrite <- app_assoc. }
    split.
    { rewrite Hi', Hi. cbn [List.length]. lia. }
    split.
    { rewrite Hc', Hc, Hq, Hi. cbn [List.length Nat.eqb negb andb].
      set (n := Z.of_nat (List.length (conversation_questions (conversation g)))).
      set (i := current_question_index (conversation g)).
      replace (i + Z.of_nat (S (List.length rest)))
        with (i + 1 + Z.of_nat (List.length rest)) by lia.
      destruct (conversation_complete (conversation g)); cbn; [reflexivity|].
      destruct rest as [|r rest']; cbn [List.length Nat.eqb negb andb].
      + rewrite orb_false_r. f_equal. lia.
      + destruct (Z.geb_spec (i + 1) n) as [H1|H1];
          destruct (Z.geb_spec (i + 1 + Z.of_nat (S (List.length rest'))) n)
            as [H2|H2]; cbn; try reflexivity; lia. }
    split.
    { intros _. destruct rest as [|r rest'].
      - cbn in Hs'. injection Hs' as <-. exact Hbox.
      - apply Hbox'. discriminate. }
    intros H0. apply Hsum'. now apply Hsum.
Qed.

(** C4. A conversation of N questions at index 0 and not complete, and N
    non-empty responses entered and submitted one after the other: every
    submission succeeds; after the first k < N of them the conversation
    is still not complete, the index is k, the k responses have been
    appended in order and the response box is empty again; after the Nth
    the conversation is complete, with a summary. *)
Theorem conversation_completes_on_last_response
        (g : Game) (inputs : list (TextBox.t * nat)) :
  current_question_index (conversation g) = 0 ->
  conversation_complete (conversation g) = false ->
  List.length inputs = List.length (conversation_questions (conversation g)) ->
  Forall (fun i => TextBox.get_text (fst i) <> "") inputs ->
  (forall k, (k < List.length inputs)%nat ->
     exists gk,
       submit_all (firstn k inputs) g = Some gk
       /\ conversation_complete (conversation gk) = false
       /\ current_question_index (conversation gk) = Z.of_nat k
       /\ user_responses (conversation gk)
          = (user_responses (conversation g)
             ++ map (fun i => TextBox.get_text (fst i)) (firstn k inputs))%list
       /\ ((0 < k)%nat ->
           option_map TextBox.get_text (response_input (widgets gk)) = Some ""))
  /\ ((0 < List.length inputs)%nat ->
      exists gN,
        submit_all inputs g = Some gN
        /\ conversation_complete (conversation gN) = true
        /\ conversation_summary (conversation gN) <> None
        /\ current_question_index (conversation gN)
           = Z.of_nat (List.length inputs)
        /\ user_responses (conversation gN)
           = (user_responses (conversation g)
              ++ map (fun i => TextBox.get_text (fst i)) inputs)%list
        /\ option_map TextBox.get_text (response_input (widgets gN)) = Some "").
Proof.
  intros Hi Hc Hlen Hall.
  split.
  - intros k Hk.
    assert (Hallk : Forall (fun i => TextBox.get_text (fst i) <> "") (firstn k inputs)).
    { pose proof Hall as Hall'. rewrite <- (firstn_skipn k inputs) in Hall'.
      apply Forall_app in Hall'. exact (proj1 Hall'). }
    destruct (submit_all_spec (firstn k inputs) g Hallk)
      as (gk & Hs & Hq & Hr & Hidx & Hcomp & Hbox & _).
    assert (Hlenk : List.length (firstn k inputs) = k)
      by (rewrite length_firstn; lia).
    exists gk. split; [exact Hs|]. split.
    { rewrite Hcomp, Hc, Hi, Hlenk, <- Hlen. cbn.
      destruct (Nat.eqb k 0); cbn; [reflexivity|].
      destruct (Z.geb_spec (Z.of_nat k) (Z.of_nat (List.length inputs)));
        [lia|reflexivity]. }
    split; [rewrite Hidx, Hi, Hlenk; lia|].
    split; [exact Hr|].
    intros Hpos. apply Hbox.
    intros E. rewrite E in Hlenk. cbn in Hlenk. lia.
  - intros Hpos.
    destruct (submit_all_spec inputs g Hall)
      as (gN & Hs & Hq & Hr & Hidx & Hcomp & Hbox & Hsum).
    assert (HcN : conversation_complete (conversation gN) = true).
    { rewrite Hcomp, Hc, Hi, <- Hlen. cbn.
      destruct (List.length inputs) as [|n] eqn:En; [lia|]. cbn.
      apply Z.geb_le. lia. }
    assert (Hnil : inputs <> [])
      by (intros E; rewrite E in Hpos; cbn in Hpos; lia).
    exists gN. split; [exact Hs|]. split; [exact HcN|].
    split.
    { apply Hsum; [|exact HcN]. rewrite Hc. discriminate. }
    split; [rewrite Hidx, Hi; lia|].
    split; [exact Hr|now apply Hbox].
Qed.

End ConversationClaims.

Lemma conversation_completes_on_last_response_witness :
  let start :=
    GameLogic.setup_conversation_ui 0
      (with_conversation
         {| conversation_questions :=
              GameLogic.generate_conversation_questions "Should I switch jobs?";
            current_question_index := 0;
            user_responses := [];
            conversation_complete := false;
            conversation_summary := None |}
         (initial_game 0)) in
  let box (s : string) := TextBox.set_text s (TextBox.init 500 480 700 80 true 0) in
  let inputs :=
    [ (box "The pay is better but the team is new.", 0%nat);
      (box "Stay, or move to the new company.", 1%nat);
      (box "Work I enjoy.", 2%nat);
      (box "Once, and it went well.", 3%nat);
      (box "Honesty and growth.", 4%nat) ] in
  option_map (fun g => conversation_complete (conversation g))
             (submit_all (firstn 4 inputs) start) = Some false
  /\ option_map (fun g => conversation_complete (conversation g))
                (submit_all inputs start) = Some true.
Proof.
  intros start box inputs.
  assert (Hall : Forall (fun i => TextBox.get_text (fst i) <> "") inputs).
  { repeat constructor; intros H; vm_compute in H; discriminate H. }
  destruct (conversation_completes_on_last_response start inputs
              eq_refl eq_refl eq_refl Hall) as [Hbefore Hlast].
  split.
  - destruct (Hbefore 4%nat) as (gk & Hs & Hc & _).
    + cbn. lia.
    + rewrite Hs. cbn. now rewrite Hc.
  - destruct Hlast as (gN & Hs & Hc & _).
    + cbn. lia.
    + rewrite Hs. cbn. now rewrite Hc.
Defined.

(* ===================================================================== *)
(** ** Properties: local quiz scoring *)
(* ===================================================================== *)

Section QuizClaims.

Import DecisionGame GameLogic.

(** Decide a dimension tag against the eight tags of the scoring chain. *)
Ltac split_dimension d :=
  destruct (String.eqb_spec d "E-I") as [->|?]; [cbn; try lia|];
  destruct (String.eqb_spec d "I-E") as [->|?]; [cbn; try lia|];
  destruct (String.eqb_spec d "S-N") as [->|?]; [cbn; try lia|];
  destruct (String.eqb_spec d "N-S") as [->|?]; [cbn; try lia|];
  destruct (String.eqb_spec d "T-F") as [->|?]; [cbn; try lia|];
  destruct (String.eqb_spec d "F-T") as [->|?]; [cbn; try lia|];
  destruct (String.eqb_spec d "J-P") as [->|?]; [cbn; try lia|];
  destruct (String.eqb_spec d "P-J") as [->|?]; [cbn; try lia|];
  cbn; try lia.

(** One answer adds its magnitude to the first pole of its tag only. *)
Lemma score_answer_adds (questions : list Question) (sc : Scores)
      (item : Z * Z) :
  let sc' := score_answer questions sc item in
  e_score sc' = e_score sc + contribution "E-I" questions item
  /\ i_score sc' = i_score sc + contribution "I-E" questions item
  /\ s_score sc' = s_score sc + contribution "S-N" questions item
  /\ n_score sc' = n_score sc + contribution "N-S" questions item
  /\ t_score sc' = t_score sc + contribution "T-F" questions item
  /\ f_score sc' = f_score sc + contribution "F-T" questions item
  /\ j_score sc' = j_score sc + contribution "J-P" questions item
  /\ p_score sc' = p_score sc + contribution "P-J" questions item.
Proof.
  destruct item as [question_id answer].
  destruct sc as [e i s n t f j p].
  unfold score_answer, contribution, carries, magnitude. cbn [fst snd].
  destruct (find_question question_id questions) as [q|];
    [|cbn; repeat split; lia].
  destruct (q_dimension q) as [d|]; [|cbn; repeat split; lia].
  split_dimension d; repeat split; lia.
Qed.

Lemma fold_scores (questions : list Question) (answers : list (Z * Z)) :
  forall sc : Scores,
    let sc' := fold_left (score_answer questions) answers sc in
    e_score sc' = e_score sc + pole_total "E-I" questions answers
    /\ i_score sc' = i_score sc + pole_total "I-E" questions answers
    /\ s_score sc' = s_score sc + pole_total "S-N" questions answers
    /\ n_score sc' = n_score sc + pole_total "N-S" questions answers
    /\ t_score sc' = t_score sc + pole_total "T-F" questions answers
    /\ f_score sc' = f_score sc + pole_total "F-T" questions answers
    /\ j_score sc' = j_score sc + pole_total "J-P" questions answers
    /\ p_score sc' = p_score sc + pole_total "P-J" questions answers.
Proof.
  induction answers as [|item rest IH]; intros sc; cbn [fold_left pole_total].
  - cbn. repeat split; lia.
  - destruct (IH (score_answer questions sc item))
      as (He & Hi & Hs & Hn & Ht & Hf & Hj & Hp).
    destruct (score_answer_adds questions sc item)
      as (He' & Hi' & Hs' & Hn' & Ht' & Hf' & Hj' & Hp').
    unfold contribution in *. cbv zeta in *.
    repeat split; lia.
Qed.

Lemma mbti_scores_totals (questions : list Question) (answers : list (Z * Z)) :
  mbti_scores questions answers
  = {| e_score := pole_total "E-I" questions answers;
       i_score := pole_total "I-E" questions answers;
       s_score := pole_total "S-N" questions answers;
       n_score := pole_total "N-S" questions answers;
       t_score := pole_total "T-F" questions answers;
       f_score := pole_total "F-T" questions answers;
       j_score := pole_total "J-P" questions answers;
       p_score := pole_total "P-J" questions answers |}.
Proof.
  unfold mbti_scores.
  destruct (fold_scores questions answers zero_scores)
    as (He & Hi & Hs & Hn & Ht & Hf & Hj & Hp).
  cbv zeta in *. cbn [zero_scores e_score i_score s_score n_score t_score
                      f_score j_score p_score] in *.
  destruct (fold_left (score_answer questions) answers zero_scores); cbn in *.
  f_equal; lia.
Qed.


Lemma pole_total_unanswered (tag1 tag2 : string) (questions : list Question)
      (answers : list (Z * Z)) :
  axis_unanswered tag1 tag2 questions answers = true ->
  pole_total tag1 questions answers = 0
  /\ pole_total tag2 questions answers = 0.
Proof.
  unfold axis_unanswered.
  induction answers as [|item rest IH]; cbn; [auto|].
  intros H. apply andb_prop in H. destruct H as [H Hrest].
  apply andb_prop in H. destruct H as [H1 H2].
  apply negb_true_iff in H1. apply negb_true_iff in H2.
  unfold contribution. rewrite H1, H2. destruct (IH Hrest). lia.
Qed.

Lemma description_type (type_code : string) :
  mr_type (_get_mbti_type_description type_code) = type_code.
Proof.
  unfold _get_mbti_type_description.
  assert (H : forall table,
             Forall (fun kv => mr_type (snd kv) = fst kv) table ->
             forall r, lookup type_code table = Some r -> mr_type r = type_code).
  { induction table as [|[k v] rest IH]; intros Hall r; cbn.
    - discriminate.
    - inversion Hall as [|? ? Hkv Hrest]; subst. cbn in Hkv.
      destruct (String.eqb_spec k type_code) as [->|Hne].
      + intros [= <-]. exact Hkv.
      + now apply IH. }
  destruct (lookup type_code descriptions) as [r|] eqn:E.
  - apply (H descriptions); [|exact E].
    repeat constructor.
  - reflexivity.
Qed.



(** C9. On every axis a tie goes to the second pole, because each letter
    is chosen by a strict comparison: I when E and I are level, N when S
    and N are, F when T and F are, P when J and P are. An axis none of
    whose tags is carried by an answered question is level at 0. With no
    answers at all the code is INFP. *)
Theorem ties_select_second_pole (questions : list Question)
        (answers : list (Z * Z)) :
  let sc := mbti_scores questions answers in
  (e_score sc = i_score sc -> String.get 0 (type_code_of sc) = Some "I"%char)
  /\ (s_score sc = n_score sc -> String.get 1 (type_code_of sc) = Some "N"%char)
  /\ (t_score sc = f_score sc -> String.get 2 (type_code_of sc) = Some "F"%char)
  /\ (j_score sc = p_score sc -> String.get 3 (type_code_of sc) = Some "P"%char)
  /\ (axis_unanswered "E-I" "I-E" questions answers = true ->
        String.get 0 (type_code_of sc) = Some "I"%char)
  /\ (axis_unanswered "S-N" "N-S" questions answers = true ->
        String.get 1 (type_code_of sc) = Some "N"%char)
  /\ (axis_unanswered "T-F" "F-T" questions answers = true ->
        String.get 2 (type_code_of sc) = Some "F"%char)
  /\ (axis_unanswered "J-P" "P-J" questions answers = true ->
        String.get 3 (type_code_of sc) = Some "P"%char)
  /\ type_code_of (mbti_scores questions []) = "INFP"
  /\ (forall g, mbti_answers (quiz g) = [] ->
        local_type_code g = "INFP"
        /\ option_map mr_type (mbti_result (quiz (_generate_local_mbti_result g)))
           = Some "INFP").
Proof.
  intros sc.
  assert (H0 : e_score sc = i_score sc ->
               String.get 0 (type_code_of sc) = Some "I"%char).
  { intros H. unfold type_code_of. rewrite H, Z.gtb_ltb, Z.ltb_irrefl.
    reflexivity. }
  assert (H1 : s_score sc = n_score sc ->
               String.get 1 (type_code_of sc) = Some "N"%char).
  { intros H. unfold type_code_of. rewrite H, (Z.gtb_ltb (n_score sc)), Z.ltb_irrefl.
    destruct (e_score sc >? i_score sc); reflexivity. }
  assert (H2 : t_score sc = f_score sc ->
               String.get 2 (type_code_of sc) = Some "F"%char).
  { intros H. unfold type_code_of. rewrite H, (Z.gtb_ltb (f_score sc)), Z.ltb_irrefl.
    destruct (e_score sc >? i_score sc), (s_score sc >? n_score sc); reflexivity. }
  assert (H3 : j_score sc = p_score sc ->
               String.get 3 (type_code_of sc) = Some "P"%char).
  { intros H. unfold type_code_of. rewrite H, (Z.gtb_ltb (p_score sc)), Z.ltb_irrefl.
    destruct (e_score sc >? i_score sc), (s_score sc >? n_score sc),
      (t_score sc >? f_score sc); reflexivity. }
  assert (Hsc : sc = mbti_scores questions answers) by reflexivity.
  rewrite mbti_scores_totals in Hsc.
  repeat split; try assumption.
  - intros H. apply H0. rewrite Hsc. cbn.
    destruct (pole_total_unanswered _ _ _ _ H). lia.
  - intros H. apply H1. rewrite Hsc. cbn.
    destruct (pole_total_unanswered _ _ _ _ H). lia.
  - intros H. apply H2. rewrite Hsc. cbn.
    destruct (pole_total_unanswered _ _ _ _ H). lia.
  - intros H. apply H3. rewrite Hsc. cbn.
    destruct (pole_total_unanswered _ _ _ _ H). lia.
  - unfold local_type_code. now rewrite H.
  - change (mbti_result (quiz (_generate_local_mbti_result g)))
      with (Some (_get_mbti_type_description (local_type_code g))).
    unfold local_type_code. rewrite H. reflexivity.
Qed.

End QuizClaims.


Lemma ties_select_second_pole_witness :
  let questions := GameLogic._generate_mbti_questions tt in
  let answers := [(1, 0); (5, 0); (3, 1)] in
  GameLogic.e_score (GameLogic.mbti_scores questions answers) = 2
  /\ GameLogic.i_score (GameLogic.mbti_scores questions answers) = 2
  /\ String.get 0 (GameLogic.type_code_of (GameLogic.mbti_scores questions answers))
     = Some "I"%char
  /\ String.get 1 (GameLogic.type_code_of (GameLogic.mbti_scores questions answers))
     = Some "N"%char
  /\ GameLogic.local_type_code (initial_game 0) = "INFP".
Proof.
  intros questions answers.
  destruct (ties_select_second_pole questions answers)
    as (He & _ & _ & _ & _ & Hn & _ & _ & _ & Hempty).
  split; [reflexivity|]. split; [reflexivity|].
  split; [apply He; reflexivity|].
  split; [apply Hn; reflexivity|].
  apply (Hempty (initial_game 0)). reflexivity.
Defined.

(** The twenty local questions, all answered "Strongly Agree". *)
Example all_strongly_agree :
  GameLogic.type_code_of
    (GameLogic.mbti_scores (GameLogic._generate_mbti_questions tt)
       (map (fun n => (Z.of_nat n, 0)) (seq 1 20)))
  = "ENTJ".
Proof. vm_compute. reflexivity. Qed.

(* ===================================================================== *)
(** ** Properties: validation of blank input *)
(* ===================================================================== *)

Section ValidationClaims.

Import DecisionGame.

Lemma lstrip_blank (s : string) : blank s = true -> PyStr.lstrip s = "".
Proof.
  induction s as [|c r IH]; cbn; [reflexivity|].
  intros H. apply andb_prop in H. destruct H as [Hc Hr].
  rewrite Hc. now apply IH.
Qed.

Lemma strip_blank (s : string) : blank s = true -> PyStr.strip s = "".
Proof. intros H. unfold PyStr.strip. now rewrite (lstrip_blank s H). Qed.

(** A click replayed into a text box leaves its content alone. *)
Lemma handle_event_keeps_text (text_width : string -> Z) (now : Z) (pos : Pos)
      (tb : TextBox.t) :
  TextBox.get_text (TextBox.handle_event text_width now pos tb)
  = TextBox.get_text tb.
Proof.
  unfold TextBox.handle_event, TextBox.get_text.
  destruct (negb (TextBox.visible tb)); [reflexivity|].
  destruct (collidepoint (TextBox.rect tb) pos && TextBox.multiline tb
            && TextBox.active tb)%bool; [reflexivity|].
  destruct (collidepoint (TextBox.rect tb) pos && negb (TextBox.multiline tb))%bool;
    reflexivity.
Qed.


End ValidationClaims.



(* ===================================================================== *)
(** ** Properties: the AI wrapper in degraded mode *)
(* ===================================================================== *)

Section FallbackClaims.

Import AIService.

Lemma call_groq_api_fails (json_loads : string -> option Json)
      (client : list Message -> Completion) (messages : list Message)
      (fallback_func : unit -> Json) :
  client_fails (client messages) = true ->
  _call_groq_api json_loads client messages fallback_func
  = RJson (fallback_func tt).
Proof.
  unfold _call_groq_api, client_fails.
  destruct (client messages) as [|[s|]]; try reflexivity.
  intros H. rewrite H. now rewrite orb_true_r.
Qed.

(** C8. With a client whose every call fails (it raises, or it returns
    no text), [analyze_scenario] returns the static fallback analysis
    whatever the scenario, and [analyze_mbti_answers] the static
    fallback result: two calls in degraded mode, to any two failing
    clients with any two inputs, return equal payloads. *)
Theorem degraded_mode_returns_fallback
        (json_loads1 json_loads2 : string -> option Json)
        (client1 client2 : list Message -> Completion)
        (text1 text2 : string) :
  (forall messages, client_fails (client1 messages) = true) ->
  (forall messages, client_fails (client2 messages) = true) ->
  analyze_scenario json_loads1 client1 text1 = _get_fallback_scenario_analysis tt
  /\ analyze_scenario json_loads1 client1 text1
     = analyze_scenario json_loads2 client2 text2
  /\ analyze_mbti_answers json_loads1 client1 text1 = _get_fallback_mbti_results tt
  /\ analyze_mbti_answers json_loads1 client1 text1
     = analyze_mbti_answers json_loads2 client2 text2.
Proof.
  intros H1 H2.
  assert (Hs : forall jl cl t, (forall m, client_fails (cl m) = true) ->
                 analyze_scenario jl cl t = _get_fallback_scenario_analysis tt).
  { intros jl cl t H. unfold analyze_scenario.
    rewrite (call_groq_api_fails jl cl _ _ (H _)). reflexivity. }
  assert (Hm : forall jl cl t, (forall m, client_fails (cl m) = true) ->
                 analyze_mbti_answers jl cl t = _get_fallback_mbti_results tt).
  { intros jl cl t H. unfold analyze_mbti_answers.
    rewrite (call_groq_api_fails jl cl _ _ (H _)). reflexivity. }
  rewrite !Hs, !Hm by assumption. repeat split; reflexivity.
Qed.

End FallbackClaims.

Lemma degraded_mode_returns_fallback_witness :
  AIService.analyze_scenario (fun _ => None) (fun _ => ClientRaises)
                             "Should I switch jobs?"
  = AIService.analyze_scenario (fun _ => Some JNull)
                               (fun _ => ClientReturns (Some "   "))
                               "Should I move abroad?".
Proof.
  destruct (degraded_mode_returns_fallback
              (fun _ => None) (fun _ => Some JNull)
              (fun _ => ClientRaises) (fun _ => ClientReturns (Some "   "))
              "Should I switch jobs?" "Should I move abroad?"
              (fun _ => eq_refl) (fun _ => eq_refl)) as (_ & H & _).
  exact H.
Defined.

(* ===================================================================== *)
(** ** Further properties: strings and text boxes *)
(* ===================================================================== *)

Section StringFacts.

Import PyStr.

Lemma append_nil_r (s : string) : (s ++ "")%string = s.
Proof. induction s as [|c r IH]; cbn; [reflexivity | now rewrite IH]. Qed.

Lemma append_assoc (a b c : string) :
  ((a ++ b) ++ c)%string = (a ++ b ++ c)%string.
Proof. induction a as [|x r IH]; cbn; [reflexivity | now rewrite IH]. Qed.

Lemma split_from_nonempty (sep : string) (s : string) :
  forall budget skip cur, split_from sep budget skip cur s <> [].
Proof.
  induction s as [|c r IH]; intros budget skip cur; cbn [split_from];
    [intros Hx; discriminate Hx|].
  destruct skip; [|apply IH].
  destruct (can_split budget && String.prefix sep (String c r))%bool;
    [intros Hx; discriminate Hx | apply IH].
Qed.

Lemma join_cons (sep x : string) (l : list string) :
  l <> [] -> join sep (x :: l) = (x ++ sep ++ join sep l)%string.
Proof. intros H. destruct l; [congruence | reflexivity]. Qed.

Lemma prefix_char (c d : ascii) (r : string) :
  String.prefix (String c "") (String d r) = Ascii.eqb c d.
Proof.
  cbn. destruct (ascii_dec c d) as [->|Hne].
  - rewrite Ascii.eqb_refl. now destruct r.
  - symmetry. now apply Ascii.eqb_neq.
Qed.

(** Splitting on a one-character separator and joining again. *)
Lemma join_split_from_char (c : ascii) (s : string) :
  forall cur,
    join (String c "") (split_from (String c "") None O cur s)
    = (cur ++ s)%string.
Proof.
  induction s as [|d r IH]; intros cur.
  - cbn. now rewrite append_nil_r.
  - cbn [split_from can_split andb]. rewrite prefix_char.
    destruct (Ascii.eqb_spec c d) as [->|Hne].
    + cbn [String.length Nat.sub spend].
      rewrite join_cons by apply split_from_nonempty.
      rewrite IH. reflexivity.
    + rewrite IH, append_assoc. reflexivity.
Qed.

Lemma join_split_char (c : ascii) (s : string) :
  join (String c "") (split (String c "") s) = s.
Proof. unfold split. now rewrite join_split_from_char. Qed.

(** No piece of a split on one character contains that character. *)
Lemma split_from_char_free (c : ascii) (s : string) :
  forall cur,
    find_char c cur = None ->
    Forall (fun piece => find_char c piece = None)
           (split_from (String c "") None O cur s).
Proof.
  assert (Happ : forall a d, find_char c a = None -> Ascii.eqb c d = false ->
                   find_char c (a ++ String d "") = None).
  { induction a as [|x r IHa]; intros d Ha Hd; cbn in *.
    - now rewrite Hd.
    - destruct (Ascii.eqb c x); [discriminate|].
      destruct (find_char c r) eqn:E; [discriminate|].
      now rewrite (IHa d eq_refl Hd). }
  induction s as [|d r IH]; intros cur Hcur.
  - cbn. constructor; [exact Hcur | constructor].
  - cbn [split_from can_split andb]. rewrite prefix_char.
    destruct (Ascii.eqb c d) eqn:E.
    + constructor; [exact Hcur|]. apply IH. reflexivity.
    + apply IH. now apply Happ.
Qed.

Lemma rev_onto_spec (s : string) :
  forall acc, rev_onto s acc = (reverse s ++ acc)%string.
Proof.
  unfold reverse.
  induction s as [|c r IH]; intros acc; cbn; [reflexivity|].
  rewrite IH, (IH (String c "")), append_assoc. reflexivity.
Qed.

Lemma reverse_cons (c : ascii) (r : string) :
  reverse (String c r) = (reverse r ++ String c "")%string.
Proof. unfold reverse. cbn. now rewrite rev_onto_spec. Qed.

Lemma reverse_app (a b : string) :
  reverse (a ++ b) = (reverse b ++ reverse a)%string.
Proof.
  induction a as [|c r IH]; cbn [append].
  - change (reverse "") with "". now rewrite append_nil_r.
  - now rewrite !reverse_cons, IH, append_assoc.
Qed.

Lemma reverse_involutive (s : string) : reverse (reverse s) = s.
Proof.
  induction s as [|c r IH]; [reflexivity|].
  rewrite reverse_cons, reverse_app, IH. reflexivity.
Qed.

Lemma blank_app (a b : string) :
  blank (a ++ b) = (blank a && blank b)%bool.
Proof.
  induction a as [|c r IH]; cbn; [reflexivity|].
  rewrite IH. now rewrite andb_assoc.
Qed.

Lemma blank_reverse (s : string) : blank (reverse s) = blank s.
Proof.
  induction s as [|c r IH]; [reflexivity|].
  rewrite reverse_cons, blank_app, IH. cbn.
  rewrite andb_true_r. apply andb_comm.
Qed.

Lemma lstrip_empty_iff (s : string) : lstrip s = "" <-> blank s = true.
Proof.
  induction s as [|c r IH]; cbn; [tauto|].
  destruct (isspace c); cbn; [exact IH|].
  split; discriminate.
Qed.

(** What is left of [lstrip]: nothing, or a text that starts with a
    character that is no white space. *)
Lemma lstrip_head (s : string) :
  lstrip s = "" \/ exists c r, lstrip s = String c r /\ isspace c = false.
Proof.
  induction s as [|c r IH]; cbn; [now left|].
  destruct (isspace c) eqn:E; [exact IH|].
  right. now exists c, r.
Qed.

Lemma lstrip_fixed (c : ascii) (r : string) :
  isspace c = false -> lstrip (String c r) = String c r.
Proof. intros H. cbn. now rewrite H. Qed.

Lemma lstrip_suffix (s : string) :
  exists w, blank w = true /\ s = (w ++ lstrip s)%string.
Proof.
  induction s as [|c r IH]; cbn.
  - now exists "".
  - destruct (isspace c) eqn:E.
    + destruct IH as (w & Hw & Hs). exists (String c w). cbn.
      rewrite E, Hw. split; [reflexivity | now rewrite <- Hs].
    + now exists "".
Qed.

(** [strip] gives the empty string exactly on blank texts. *)
Lemma strip_empty_iff (s : string) : strip s = "" <-> blank s = true.
Proof.
  split; [|apply strip_blank].
  unfold strip, rstrip. intros H.
  assert (Hr : lstrip (reverse (lstrip s)) = "").
  { rewrite <- (reverse_involutive (lstrip (reverse (lstrip s)))), H.
    reflexivity. }
  apply lstrip_empty_iff in Hr. rewrite blank_reverse in Hr.
  destruct (lstrip_suffix s) as (w & Hw & Hs).
  rewrite Hs, blank_app, Hw, Hr. reflexivity.
Qed.

End StringFacts.

Section TextBoxFacts.

Import PyStr.

(** X1. [set_text] followed by [get_text] gives the text back, in a
    single-line box and in a multi-line box alike. *)
Theorem set_text_get_text (s : string) (tb : TextBox.t) :
  TextBox.get_text (TextBox.set_text s tb) = s.
Proof.
  destruct tb as [r t a m v ls cl cp cps sy cv lt].
  unfold TextBox.get_text, TextBox.set_text. cbn.
  destruct m; cbn; [|reflexivity].
  pose proof (split_from_nonempty nl s None O "") as Hne.
  pose proof (join_split_char (ascii_of_nat 10) s) as Hj.
  unfold split, nl in *.
  destruct (split_from (String (ascii_of_nat 10) "") None 0 "" s);
    [congruence | exact Hj].
Qed.

End TextBoxFacts.

Section StripFacts.

Import PyStr.

Lemma lstrip_idempotent (s : string) : lstrip (lstrip s) = lstrip s.
Proof.
  destruct (lstrip_head s) as [-> | (c & r & -> & Hc)];
    [reflexivity | now apply lstrip_fixed].
Qed.

Lemma reverse_empty_iff (s : string) : reverse s = "" <-> s = "".
Proof.
  split; [|now intros ->].
  destruct s as [|c r]; [reflexivity|].
  rewrite reverse_cons. destruct (reverse r); discriminate.
Qed.

(** [strip] is idempotent: a stripped text has nothing left to strip. *)
Lemma strip_idempotent (s : string) : strip (strip s) = strip s.
Proof.
  unfold strip at 2 3. unfold rstrip.
  set (u := lstrip s). set (v := lstrip (reverse u)).
  assert (Hv : lstrip v = v) by apply lstrip_idempotent.
  assert (Hr : rstrip (reverse v) = reverse v).
  { unfold rstrip. now rewrite reverse_involutive, Hv. }
  assert (Hl : lstrip (reverse v) = reverse v).
  { destruct (lstrip_head s) as [Hu | (c & r & Hu & Hc)]; fold u in Hu.
    - subst v. rewrite Hu. reflexivity.
    - destruct (lstrip_suffix (reverse u)) as (w & Hw & Hs). fold v in Hs.
      assert (Hu' : u = (reverse v ++ reverse w)%string).
      { rewrite <- reverse_app, <- Hs. now rewrite reverse_involutive. }
      destruct (reverse v) as [|x t] eqn:Ev.
      + reflexivity.
      + rewrite Hu in Hu'. cbn in Hu'. injection Hu' as -> _.
        now apply lstrip_fixed. }
  unfold strip. now rewrite Hl, Hr.
Qed.

Lemma truthy_strip_not_blank (s : string) :
  truthy (strip s) = true -> blank s = false.
Proof.
  intros H. destruct (blank s) eqn:E; [|reflexivity].
  rewrite (strip_blank s E) in H. discriminate.
Qed.

End StripFacts.

Section MoreValidation.

Import DecisionGame.

(** X2. A scenario text with at least one character that is no white
    space: [analyze_scenario] stores the text as typed (not stripped),
    enters the loading state with the conversation screen as target and
    starts exactly one thread, the analysis of that text; the screen and
    the status line stay as they are. *)
Theorem analyze_scenario_starts_analysis (now : Z) (g : Game) :
  blank (TextBox.get_text (scenario_input_box (widgets g))) = false ->
  let text := TextBox.get_text (scenario_input_box (widgets g)) in
  let g' := GameLogic.analyze_scenario now g in
  scenario_text g' = text
  /\ threads g' = (threads g ++ [OpScenarioAnalysis text])%list
  /\ is_loading (loading g') = true
  /\ loading_target_state (loading g') = Some LETS_TALK
  /\ loading_start_time (loading g') = now
  /\ loading_completed (loading g') = false
  /\ loading_progress (loading g') = 0
  /\ loading_operation (loading g')
     = Some {| target := OpScenarioAnalysis text; is_alive := true |}
  /\ current_state g' = current_state g
  /\ status_message g' = status_message g.
Proof.
  intros Hb. cbv zeta. unfold GameLogic.analyze_scenario.
  remember (TextBox.get_text (scenario_input_box (widgets g))) as text.
  assert (Ht : PyStr.truthy text = true).
  { destruct text; [cbn in Hb; discriminate Hb | reflexivity]. }
  assert (Hs : String.eqb (PyStr.strip text) "" = false).
  { apply String.eqb_neq. intros E. apply strip_empty_iff in E. congruence. }
  rewrite Ht, Hs. cbn. repeat split; reflexivity.
Qed.

End MoreValidation.

Lemma analyze_scenario_starts_analysis_witness :
  let g := with_current_state SCENARIO (initial_game 0) in
  let w := widgets g in
  let g1 :=
    with_widgets
      {| username_box := username_box w; password_box := password_box w;
         scenario_input_box :=
           TextBox.set_text " Should I switch jobs? " (scenario_input_box w);
         response_input := response_input w;
         login_submit_button := login_submit_button w;
         back_button := back_button w;
         next_question_button := next_question_button w;
         previous_question_button := previous_question_button w;
         finish_conversation_button := finish_conversation_button w;
         explore_more_button := explore_more_button w;
         new_topic_button := new_topic_button w |} g in
  threads (GameLogic.analyze_scenario 9 g1)
  = [OpScenarioAnalysis " Should I switch jobs? "].
Proof.
  intros g w g1.
  destruct (analyze_scenario_starts_analysis 9 g1 eq_refl) as (_ & H & _).
  exact H.
Defined.

Section MoreFallback.

Import AIService.

(** X3. Text that [_call_groq_api] hands back is never blank: a blank
    completion is replaced by the fallback. *)
Theorem call_groq_api_text_not_blank
        (json_loads : string -> option Json)
        (client : list Message -> Completion)
        (messages : list Message) (fallback_func : unit -> Json) (s : string) :
  _call_groq_api json_loads client messages fallback_func = RText s ->
  blank s = false.
Proof.
  unfold _call_groq_api.
  destruct (client messages) as [|[rc|]]; try discriminate.
  destruct (PyStr.truthy rc) eqn:Hrc; cbn [negb orb]; [|discriminate].
  destruct (PyStr.truthy (PyStr.strip rc)) eqn:Hstrip; cbn [negb];
    [|discriminate].
  destruct (PyStr.startswith "<think>" rc).
  - destruct (PyStr.contains "</think>" rc).
    + destruct ((1 <? List.length (PyStr.split_max "</think>" 1 rc))%nat
                && PyStr.truthy
                     (PyStr.strip (nth 1 (PyStr.split_max "</think>" 1 rc) "")))%bool
        eqn:E.
      * intros [= <-]. apply andb_prop in E. destruct E as [_ E].
        apply truthy_strip_not_blank. now rewrite strip_idempotent.
      * destruct (PyStr.search_braces rc); [|discriminate].
        destruct (json_loads s0); discriminate.
    + destruct (PyStr.search_braces rc); [|discriminate].
      destruct (json_loads s0); discriminate.
  - intros [= <-]. now apply truthy_strip_not_blank.
Qed.

End MoreFallback.

Lemma call_groq_api_text_not_blank_witness :
  AIService._call_groq_api (fun _ => None)
    (fun _ => ClientReturns (Some "<think>hm</think> {} "))
    [] AIService._get_fallback_scenario_analysis = RText "{}"
  /\ blank "{}" = false.
Proof.
  split; [vm_compute; reflexivity|].
  apply (call_groq_api_text_not_blank (fun _ => None)
           (fun _ => ClientReturns (Some "<think>hm</think> {} "))
           [] AIService._get_fallback_scenario_analysis).
  vm_compute. reflexivity.
Defined.

(** A completion that holds nothing but a no-break space and a NEL is
    blank to [str.strip], and the fallback is returned. *)
Example no_break_space_completion_falls_back :
  blank (String (ascii_of_nat 160) (String (ascii_of_nat 133) "")) = true
  /\ AIService._call_groq_api (fun _ => None)
       (fun _ => ClientReturns
                   (Some (String (ascii_of_nat 160)
                            (String (ascii_of_nat 133) ""))))
       [] AIService._get_fallback_scenario_analysis
     = RJson (AIService._get_fallback_scenario_analysis tt).
Proof. split; reflexivity. Qed.

(* ===================================================================== *)
(** ** Further properties: login and the life of a loading task *)
(* ===================================================================== *)

(** A task whose thread has ended: the next frame marks it completed at
    100 percent and lands on its target; session and data are untouched. *)
Lemma finished_operation_lands (later : Z) (g : Game) (tgt : Screen)
      (th : Thread) :
  is_loading (loading g) = true ->
  loading_target_state (loading g) = Some tgt ->
  loading_completed (loading g) = false ->
  loading_operation (loading g) = Some th ->
  let g' := DecisionGame.update later (finish_operation g) in
  current_state g' = tgt
  /\ user g' = user g
  /\ token g' = token g
  /\ is_loading (loading g') = false
  /\ loading_progress (loading g') = 100
  /\ loading_target_state (loading g') = None
  /\ loading_operation (loading g') = None
  /\ conversation g' = conversation g
  /\ quiz g' = quiz g
  /\ threads g' = threads g.
Proof.
  open_game g. intros -> -> -> ->. cbv zeta.
  unfold finish_operation, DecisionGame.update, DecisionGame._update_loading.
  cbn. repeat split; reflexivity.
Qed.

Section LoginFacts.

Import DecisionGame.

Variable text_width : string -> Z.

(** What a click on the login button with both fields filled in does. *)
Lemma login_click_fields (now : Z) (mouse_pos : Pos) (g : Game) :
  let username := TextBox.get_text (username_box (widgets g)) in
  let password := TextBox.get_text (password_box (widgets g)) in
  fst (Button.is_clicked now mouse_pos (login_submit_button (widgets g))) = true ->
  username <> "" ->
  password <> "" ->
  ~ (username = "test" /\ password = "test") ->
  let g' := GameEventHandler._handle_login_button_click
              text_width now mouse_pos g in
  threads g' = (threads g ++ [OpLogin username password])%list
  /\ is_loading (loading g') = true
  /\ loading_target_state (loading g') = Some SCENARIO
  /\ loading_start_time (loading g') = now
  /\ loading_completed (loading g') = false
  /\ loading_operation (loading g')
     = Some {| target := OpLogin username password; is_alive := true |}
  /\ current_state g' = current_state g
  /\ user g' = user g
  /\ token g' = token g.
Proof.
  cbv zeta. intros Hhit Hu Hp Htest.
  unfold GameEventHandler._handle_login_button_click.
  destruct (Button.is_clicked now mouse_pos (login_submit_button (widgets g)))
    as [hit sb]. cbn in Hhit. subst hit.
  rewrite !handle_event_keeps_text.
  rewrite (truthy_nonempty _ Hu), (truthy_nonempty _ Hp). cbn [negb orb].
  assert (Hc : (String.eqb (TextBox.get_text (username_box (widgets g))) "test"
                && String.eqb (TextBox.get_text (password_box (widgets g))) "test")%bool
               = false).
  { destruct (String.eqb_spec (TextBox.get_text (username_box (widgets g))) "test");
      [|reflexivity].
    destruct (String.eqb_spec (TextBox.get_text (password_box (widgets g))) "test");
      [|reflexivity].
    exfalso. now apply Htest. }
  rewrite Hc. cbn. repeat split; reflexivity.
Qed.

(** X4. The test account: a click on the login button with user name and
    password both "test" logs in as "Test User" with a fixed token and
    goes to the scenario screen at once; no loading state, no thread, no
    call of the login API. *)
Theorem test_login_bypasses_api (now : Z) (mouse_pos : Pos) (g : Game) :
  fst (Button.is_clicked now mouse_pos (login_submit_button (widgets g))) = true ->
  TextBox.get_text (username_box (widgets g)) = "test" ->
  TextBox.get_text (password_box (widgets g)) = "test" ->
  let g' := GameEventHandler._handle_login_button_click
              text_width now mouse_pos g in
  user g' = Some "Test User"
  /\ token g' = Some "test_token_123"
  /\ current_state g' = SCENARIO
  /\ status_message g' = "Welcome, Test User!"
  /\ loading g' = loading g
  /\ threads g' = threads g.
Proof.
  intros Hhit Hu Hp. cbv zeta.
  unfold GameEventHandler._handle_login_button_click.
  destruct (Button.is_clicked now mouse_pos (login_submit_button (widgets g)))
    as [hit sb]. cbn in Hhit. subst hit.
  rewrite !handle_event_keeps_text, Hu, Hp. cbn. repeat split; reflexivity.
Qed.

(** X5. A click that misses the login button never logs anybody in and
    never starts a task: session, loading state and threads stay as they
    are, and the screen either stays or, when the back button is hit,
    becomes the main menu. *)
Theorem login_click_elsewhere (now : Z) (mouse_pos : Pos) (g : Game) :
  fst (Button.is_clicked now mouse_pos (login_submit_button (widgets g))) = false ->
  let g' := GameEventHandler._handle_login_button_click
              text_width now mouse_pos g in
  user g' = user g
  /\ token g' = token g
  /\ loading g' = loading g
  /\ threads g' = threads g
  /\ current_state g'
     = (if fst (Button.is_clicked now mouse_pos (back_button (widgets g)))
        then MAIN_MENU else current_state g).
Proof.
  intros Hhit. cbv zeta.
  unfold GameEventHandler._handle_login_button_click.
  destruct (Button.is_clicked now mouse_pos (login_submit_button (widgets g)))
    as [hit sb]. cbn in Hhit. subst hit. cbn [back_button].
  destruct (Button.is_clicked now mouse_pos (back_button (widgets g)))
    as [bhit bb]. cbn [fst].
  destruct bhit; cbn; repeat split; reflexivity.
Qed.

(** X6. A login from click to landing: the click starts the task, the login
    thread gets an access token and ends, and the next frame lands on
    the scenario screen with the user and the token recorded. *)
Theorem login_success_lands_on_scenario
        (now later : Z) (mouse_pos : Pos) (g : Game)
        (access_token : string) (error : option string) :
  let username := TextBox.get_text (username_box (widgets g)) in
  let password := TextBox.get_text (password_box (widgets g)) in
  fst (Button.is_clicked now mouse_pos (login_submit_button (widgets g))) = true ->
  username <> "" ->
  password <> "" ->
  ~ (username = "test" /\ password = "test") ->
  let g1 := GameEventHandler._handle_login_button_click
              text_width now mouse_pos g in
  let g2 := GameEventHandler._perform_login username password
              (LoginReturns (Some access_token) error) g1 in
  let g3 := update later (finish_operation g2) in
  current_state g3 = SCENARIO
  /\ user g3 = Some username
  /\ token g3 = Some access_token
  /\ is_loading (loading g3) = false
  /\ loading_progress (loading g3) = 100.
Proof.
  cbv zeta. intros Hhit Hu Hp Htest.
  destruct (login_click_fields now mouse_pos g Hhit Hu Hp Htest)
    as (_ & Hl & Ht & _ & Hc & Ho & _).
  pose proof (finished_operation_lands later
                (GameEventHandler._perform_login
                   (TextBox.get_text (username_box (widgets g)))
                   (TextBox.get_text (password_box (widgets g)))
                   (LoginReturns (Some access_token) error)
                   (GameEventHandler._handle_login_button_click
                      text_width now mouse_pos g))
                SCENARIO _ Hl Ht Hc Ho) as H.
  cbv zeta in H. destruct H as (H1 & H2 & H3 & H4 & H5 & _).
  repeat split; assumption.
Qed.

End LoginFacts.

Lemma test_login_bypasses_api_witness :
  user (GameEventHandler._handle_login_button_click
          fixed_width_font 5 (500, 370) (login_form "test" "test"))
  = Some "Test User".
Proof.
  destruct (test_login_bypasses_api fixed_width_font 5 (500, 370)
              (login_form "test" "test") eq_refl eq_refl eq_refl) as (H & _).
  exact H.
Defined.

Lemma login_click_elsewhere_witness :
  current_state (GameEventHandler._handle_login_button_click
                   fixed_width_font 5 (70, 40) (login_form "alice" "secret"))
  = MAIN_MENU
  /\ threads (GameEventHandler._handle_login_button_click
                fixed_width_font 5 (900, 500) (login_form "alice" "secret"))
     = [].
Proof.
  destruct (login_click_elsewhere fixed_width_font 5 (70, 40)
              (login_form "alice" "secret") eq_refl) as (_ & _ & _ & _ & H1).
  destruct (login_click_elsewhere fixed_width_font 5 (900, 500)
              (login_form "alice" "secret") eq_refl) as (_ & _ & _ & H2 & _).
  split; [exact H1 | exact H2].
Defined.

Lemma login_success_lands_on_scenario_witness :
  let g1 := GameEventHandler._handle_login_button_click
              fixed_width_font 5 (500, 370) (login_form "alice" "secret") in
  let g2 := GameEventHandler._perform_login "alice" "secret"
              (LoginReturns (Some "tok") None) g1 in
  current_state (DecisionGame.update 900 (finish_operation g2)) = SCENARIO.
Proof.
  destruct (login_success_lands_on_scenario fixed_width_font 5 900 (500, 370)
              (login_form "alice" "secret") "tok" None eq_refl)
    as (H & _); try discriminate.
  - intros [H _]. discriminate H.
  - exact H.
Defined.

Section TaskLife.

Import DecisionGame.

#[local] Opaque progress_ramp animation_frame.



(** X8. A stale thread redirects the task that replaced its own: when a
    login is in flight, a second task is started, and the login then
    fails, the next frame ends the loading state on the login screen,
    whatever the second task's target, while the second operation has
    been started and nothing waits for it any more. *)
Theorem stale_login_failure_redirects_new_task
        (g : Game) (m2 : string) (tgt2 : option Screen) (op2 : Operation)
        (t1 t2 now : Z) (username password : string) (reply : LoginReply) :
  login_failed reply = true ->
  let g2 := start_loading m2 tgt2 (Some op2) t2
              (start_loading "Logging in..." (Some SCENARIO)
                 (Some (OpLogin username password)) t1 g) in
  let g3 := update now (GameEventHandler._perform_login
                          username password reply g2) in
  current_state g3 = LOGIN
  /\ is_loading (loading g3) = false
  /\ loading_operation (loading g3) = None
  /\ In op2 (threads g3).
Proof.
  intros Hf. cbv zeta.
  set (g2 := start_loading m2 tgt2 (Some op2) t2
               (start_loading "Logging in..." (Some SCENARIO)
                  (Some (OpLogin username password)) t1 g)).
  set (g2' := GameEventHandler._perform_login username password reply g2).
  assert (H : is_loading (loading g2') = true
              /\ loading_target_state (loading g2') = Some LOGIN
              /\ loading_completed (loading g2') = true
              /\ threads g2' = threads g2).
  { subst g2'. destruct reply as [msg | [tok|] err]; cbn in *; auto.
    discriminate. }
  destruct H as (Hl & Ht & Hc & Hth).
  destruct (update_transition now g2' LOGIN Hl Ht
              (update_loading_completed_mono now g2' Hc))
    as (H1 & H2 & _ & H4).
  repeat split; try assumption.
  assert (Hth3 : threads (update now g2') = threads g2').
  { unfold update. rewrite Hl.
    destruct (update_loading_fields now g2') as (_ & _ & _ & _ & _ & Hthr & _).
    destruct (loading_completed (loading (_update_loading now g2')));
      [|exact Hthr].
    destruct (loading_target_state (loading (_update_loading now g2')));
      [|exact Hthr].
    exact Hthr. }
  rewrite Hth3, Hth. subst g2. unfold start_loading. cbn.
  apply in_or_app. right. now left.
Qed.

End TaskLife.

Lemma stale_login_failure_redirects_new_task_witness :
  let g2 := DecisionGame.start_loading "Analyzing your scenario..."
              (Some LETS_TALK) (Some (OpScenarioAnalysis "x")) 40
              (DecisionGame.start_loading "Logging in..." (Some SCENARIO)
                 (Some (OpLogin "alice" "secret")) 0 (initial_game 0)) in
  current_state
    (DecisionGame.update 100
       (GameEventHandler._perform_login "alice" "secret"
          (LoginReturns None (Some "Invalid credentials")) g2))
  = LOGIN.
Proof.
  destruct (stale_login_failure_redirects_new_task (initial_game 0)
              "Analyzing your scenario..." (Some LETS_TALK)
              (OpScenarioAnalysis "x") 0 40 100 "alice" "secret"
              (LoginReturns None (Some "Invalid credentials")) eq_refl)
    as (H & _).
  exact H.
Defined.

(* ===================================================================== *)
(** ** Further properties: answering the quiz *)
(* ===================================================================== *)

Section QuizFlow.

Import DecisionGame GameFlow.

Lemma dict_get_set_same (k v : Z) (d : list (Z * Z)) :
  PyDict.get k (PyDict.set k v d) = Some v.
Proof.
  induction d as [|[k' v'] rest IH]; cbn.
  - now rewrite Z.eqb_refl.
  - destruct (k' =? k) eqn:E; cbn.
    + now rewrite Z.eqb_refl.
    + now rewrite E.
Qed.

Lemma dict_get_set_other (k k2 v : Z) (d : list (Z * Z)) :
  k <> k2 -> PyDict.get k2 (PyDict.set k v d) = PyDict.get k2 d.
Proof.
  intros Hne. induction d as [|[k' v'] rest IH]; cbn.
  - destruct (Z.eqb_spec k k2); [congruence | reflexivity].
  - destruct (Z.eqb_spec k' k) as [->|Hk]; cbn.
    + destruct (Z.eqb_spec k k2); [congruence | reflexivity].
    + destruct (k' =? k2); [reflexivity | exact IH].
Qed.

Lemma dict_set_keys (k v : Z) (d : list (Z * Z)) :
  map fst (PyDict.set k v d)
  = if existsb (Z.eqb k) (map fst d) then map fst d
    else (map fst d ++ [k])%list.
Proof.
  induction d as [|[k' v'] rest IH]; cbn; [reflexivity|].
  rewrite (Z.eqb_sym k k').
  destruct (k' =? k) eqn:E; cbn.
  - apply Z.eqb_eq in E. now subst.
  - rewrite IH. now destruct (existsb (Z.eqb k) (map fst rest)).
Qed.

Lemma dict_set_fresh (k v : Z) (d : list (Z * Z)) :
  ~ In k (map fst d) -> PyDict.set k v d = (d ++ [(k, v)])%list.
Proof.
  induction d as [|[k' v'] rest IH]; cbn; intros Hn; [reflexivity|].
  destruct (Z.eqb_spec k' k) as [->|Hk]; [exfalso; auto|].
  rewrite IH; [reflexivity | tauto].
Qed.

Lemma dict_set_nodup (k v : Z) (d : list (Z * Z)) :
  NoDup (map fst d) -> NoDup (map fst (PyDict.set k v d)).
Proof.
  intros Hd. rewrite dict_set_keys.
  destruct (existsb (Z.eqb k) (map fst d)) eqn:E; [exact Hd|].
  apply NoDup_app; [exact Hd | repeat constructor; intros [] |].
  intros x Hx [Ex|[]]. subst x.
  assert (Hex : existsb (Z.eqb k) (map fst d) = true).
  { apply existsb_exists. exists k. split; [exact Hx | apply Z.eqb_refl]. }
  congruence.
Qed.

Lemma submit_fields (now : Z) (g : Game) :
  quiz (submit_mbti_answers now g) = quiz g
  /\ is_loading (loading (submit_mbti_answers now g)) = true
  /\ loading_target_state (loading (submit_mbti_answers now g))
     = Some PERSONALITY_RESULT
  /\ loading_completed (loading (submit_mbti_answers now g)) = false
  /\ threads (submit_mbti_answers now g)
     = (threads g ++ [if logged_in g then OpSubmitMbtiToApi
                      else OpGenerateLocalMbti])%list
  /\ current_state (submit_mbti_answers now g) = current_state g
  /\ loading_operation (loading (submit_mbti_answers now g))
     = Some {| target := if logged_in g then OpSubmitMbtiToApi
                         else OpGenerateLocalMbti;
               is_alive := true |}.
Proof.
  unfold submit_mbti_answers.
  destruct (logged_in g); cbn; repeat split; reflexivity.
Qed.

(** One answer to the question at the current index. *)
Lemma answer_step (now option_index : Z) (g : Game) (q : Question) :
  0 <= current_mbti_index (quiz g) ->
  nth_error (mbti_questions (quiz g)) (Z.to_nat (current_mbti_index (quiz g)))
  = Some q ->
  answer_mbti_question now option_index g
  = Some
      (let total := Z.of_nat (List.length (mbti_questions (quiz g))) in
       let g1 := with_quiz
                   {| mbti_questions := mbti_questions (quiz g);
                      current_mbti_index := current_mbti_index (quiz g) + 1;
                      mbti_answers :=
                        PyDict.set
                          (answer_key (current_mbti_index (quiz g)) q)
                          option_index (mbti_answers (quiz g));
                      mbti_result := mbti_result (quiz g) |} g in
       if current_mbti_index (quiz g) + 1 >=? total
       then submit_mbti_answers now g1
       else set_status
              ("Question " ++ str_of_int (current_mbti_index (quiz g) + 1 + 1)
               ++ " of " ++ str_of_int total)
              (0, 150, 255) g1).
Proof.
  intros H0 Hq.
  assert (Hlt : (Z.to_nat (current_mbti_index (quiz g))
                 < List.length (mbti_questions (quiz g)))%nat).
  { apply nth_error_Some. congruence. }
  assert (Hnil : match mbti_questions (quiz g) with
                 | [] => true
                 | _ => false
                 end = false).
  { destruct (mbti_questions (quiz g)); [cbn in Hlt; lia | reflexivity]. }
  unfold answer_mbti_question, py_index. cbv zeta. rewrite Hnil. cbn [orb].
  destruct (Z.geb_spec (current_mbti_index (quiz g))
              (Z.of_nat (List.length (mbti_questions (quiz g))))) as [Hge|_];
    [lia|].
  destruct (Z.leb_spec 0 (current_mbti_index (quiz g))) as [_|Hneg]; [|lia].
  rewrite Hq. cbn [quiz with_quiz current_mbti_index].
  destruct (current_mbti_index (quiz g) + 1
            >=? Z.of_nat (List.length (mbti_questions (quiz g))));
    reflexivity.
Qed.

(** X9. An answer is stored under the question's key, the index moves on by
    one, the other answers stay, and no key is ever stored twice. *)
Theorem answer_is_recorded (now option_index : Z) (g : Game) (q : Question) :
  0 <= current_mbti_index (quiz g) ->
  nth_error (mbti_questions (quiz g)) (Z.to_nat (current_mbti_index (quiz g)))
  = Some q ->
  exists g',
    answer_mbti_question now option_index g = Some g'
    /\ PyDict.get (answer_key (current_mbti_index (quiz g)) q)
                  (mbti_answers (quiz g')) = Some option_index
    /\ (forall k, k <> answer_key (current_mbti_index (quiz g)) q ->
          PyDict.get k (mbti_answers (quiz g'))
          = PyDict.get k (mbti_answers (quiz g)))
    /\ current_mbti_index (quiz g') = current_mbti_index (quiz g) + 1
    /\ mbti_questions (quiz g') = mbti_questions (quiz g)
    /\ (NoDup (map fst (mbti_answers (quiz g))) ->
        NoDup (map fst (mbti_answers (quiz g')))).
Proof.
  intros H0 Hq. rewrite (answer_step now option_index g q H0 Hq).
  eexists. split; [reflexivity|]. cbv zeta.
  destruct (current_mbti_index (quiz g) + 1
            >=? Z.of_nat (List.length (mbti_questions (quiz g))));
    [match goal with
     | |- context [submit_mbti_answers now ?g1] =>
         destruct (submit_fields now g1) as (Hq1 & _); rewrite Hq1
     end|];
    cbn [quiz with_quiz set_status mbti_answers current_mbti_index
         mbti_questions];
    (split; [apply dict_get_set_same|];
     split; [intros k Hk; apply dict_get_set_other; congruence|];
     split; [reflexivity|]; split; [reflexivity|];
     apply dict_set_nodup).
Qed.

(** A click when there is no question left, or no question at all, is
    ignored. *)
Lemma answer_after_the_end (now option_index : Z) (g : Game) :
  Z.of_nat (List.length (mbti_questions (quiz g))) <= current_mbti_index (quiz g) ->
  answer_mbti_question now option_index g = Some g.
Proof.
  intros H. unfold answer_mbti_question.
  destruct (Z.geb_spec (current_mbti_index (quiz g))
              (Z.of_nat (List.length (mbti_questions (quiz g))))); [|lia].
  now rewrite orb_true_r.
Qed.

Lemma answer_keys_app (i : Z) (a b : list Question) :
  answer_keys i (a ++ b)
  = (answer_keys i a ++ answer_keys (i + Z.of_nat (List.length a)) b)%list.
Proof.
  revert i. induction a as [|q a IH]; intros i; cbn [answer_keys app List.length].
  - now rewrite Z.add_0_r.
  - rewrite IH. cbn. do 3 f_equal. lia.
Qed.

Lemma answer_all_spec (rest : list Question) :
  forall (done : list Question) (clicks : list (Z * Z)) (g : Game),
    rest <> [] ->
    mbti_questions (quiz g) = (done ++ rest)%list ->
    current_mbti_index (quiz g) = Z.of_nat (List.length done) ->
    List.length clicks = List.length rest ->
    NoDup (map fst (mbti_answers (quiz g))
           ++ answer_keys (Z.of_nat (List.length done)) rest) ->
    exists g',
      answer_all clicks g = Some g'
      /\ mbti_answers (quiz g')
         = (mbti_answers (quiz g)
            ++ combine (answer_keys (Z.of_nat (List.length done)) rest)
                       (map snd clicks))%list
      /\ current_mbti_index (quiz g')
         = Z.of_nat (List.length (done ++ rest))
      /\ mbti_questions (quiz g') = mbti_questions (quiz g)
      /\ is_loading (loading g') = true
      /\ loading_target_state (loading g') = Some PERSONALITY_RESULT
      /\ loading_completed (loading g') = false
      /\ threads g'
         = (threads g ++ [if logged_in g then OpSubmitMbtiToApi
                          else OpGenerateLocalMbti])%list
      /\ current_state g' = current_state g
      /\ loading_operation (loading g')
         = Some {| target := if logged_in g then OpSubmitMbtiToApi
                             else OpGenerateLocalMbti;
                   is_alive := true |}.
Proof.
  induction rest as [|q rest IH]; intros done clicks g Hne Hqs Hidx Hlen Hnd;
    [congruence|].
  destruct clicks as [|[now o] clicks]; [discriminate|].
  cbn [List.length] in Hlen. injection Hlen as Hlen.
  assert (H0 : 0 <= current_mbti_index (quiz g)) by lia.
  assert (Hq : nth_error (mbti_questions (quiz g))
                 (Z.to_nat (current_mbti_index (quiz g))) = Some q).
  { rewrite Hqs, Hidx, Nat2Z.id, nth_error_app2 by lia.
    now rewrite Nat.sub_diag. }
  assert (Hfresh : ~ In (answer_key (current_mbti_index (quiz g)) q)
                     (map fst (mbti_answers (quiz g)))).
  { rewrite Hidx. intros Hin.
    cbn [answer_keys] in Hnd. apply NoDup_remove_2 in Hnd.
    apply Hnd. apply in_or_app. now left. }
  cbn [answer_all]. rewrite (answer_step now o g q H0 Hq). cbv zeta.
  rewrite (dict_set_fresh _ _ _ Hfresh).
  destruct rest as [|q2 rest'].
  - (* the last question: the answers are submitted *)
    destruct clicks; [|discriminate]. cbn [answer_all].
    assert (Hge : (current_mbti_index (quiz g) + 1
                   >=? Z.of_nat (List.length (mbti_questions (quiz g)))) = true).
    { apply Z.geb_le. rewrite Hqs, Hidx, length_app. cbn. lia. }
    rewrite Hge. eexists. split; [reflexivity|].
    match goal with
    | |- context [submit_mbti_answers now ?g1] =>
        destruct (submit_fields now g1)
          as (Hq1 & Hl1 & Ht1 & Hc1 & Hth1 & Hcs1 & Hop1)
    end.
    rewrite Hq1, Hl1, Ht1, Hc1, Hth1, Hcs1, Hop1.
    cbn [quiz with_quiz mbti_answers current_mbti_index mbti_questions
         threads current_state].
    rewrite Hidx.
    replace (logged_in (with_quiz _ g)) with (logged_in g) by reflexivity.
    repeat split; try reflexivity.
    rewrite length_app. cbn. lia.
  - assert (Hlt : (current_mbti_index (quiz g) + 1
                   >=? Z.of_nat (List.length (mbti_questions (quiz g)))) = false).
    { destruct (Z.geb_spec (current_mbti_index (quiz g) + 1)
                  (Z.of_nat (List.length (mbti_questions (quiz g)))));
        [|reflexivity].
      rewrite Hqs, Hidx, length_app in *. cbn in *. lia. }
    rewrite Hlt.
    match goal with
    | |- exists g', answer_all clicks ?x = _ /\ _ => set (g1 := x)
    end.
    destruct (IH (done ++ [q])%list clicks g1) as (g' & Hs & Ha & Hi & Hq' & Hrest).
    + discriminate.
    + subst g1. cbn. rewrite Hqs, <- app_assoc. reflexivity.
    + subst g1. cbn. rewrite Hidx, length_app. cbn. lia.
    + exact Hlen.
    + subst g1. cbn [quiz with_quiz set_status mbti_answers].
      rewrite map_app, <- app_assoc. cbn [map fst app].
      rewrite length_app. cbn [List.length].
      replace (Z.of_nat (List.length done + 1))
        with (Z.of_nat (List.length done) + 1) by lia.
      rewrite Hidx. cbn [answer_keys] in Hnd. exact Hnd.
    + exists g'. split; [exact Hs|].
      split.
      { rewrite Ha. subst g1. cbn [quiz with_quiz set_status mbti_answers].
        rewrite <- app_assoc, length_app. cbn [List.length map snd combine app].
        replace (Z.of_nat (List.length done + 1))
          with (Z.of_nat (List.length done) + 1) by lia.
        rewrite Hidx. reflexivity. }
      split.
      { rewrite Hi, <- app_assoc. reflexivity. }
      split; [rewrite Hq'; reflexivity|].
      exact Hrest.
Qed.

(** X10. A quiz whose questions have distinct keys, answered from the first
    question to the last: every click succeeds, the answers are stored
    one per question under its key, in order, and the last click enters
    the loading state with the result screen as target and starts one
    thread: the API submission for a logged-in user, the local scoring
    for a guest. Clicks after that are ignored. *)
Theorem quiz_run_submits_once (clicks : list (Z * Z)) (g : Game) :
  mbti_questions (quiz g) <> [] ->
  current_mbti_index (quiz g) = 0 ->
  mbti_answers (quiz g) = [] ->
  List.length clicks = List.length (mbti_questions (quiz g)) ->
  NoDup (answer_keys 0 (mbti_questions (quiz g))) ->
  exists g',
    answer_all clicks g = Some g'
    /\ mbti_answers (quiz g')
       = combine (answer_keys 0 (mbti_questions (quiz g))) (map snd clicks)
    /\ is_loading (loading g') = true
    /\ loading_target_state (loading g') = Some PERSONALITY_RESULT
    /\ threads g'
       = (threads g ++ [if logged_in g then OpSubmitMbtiToApi
                        else OpGenerateLocalMbti])%list
    /\ current_state g' = current_state g
    /\ (forall now option_index,
          answer_mbti_question now option_index g' = Some g').
Proof.
  intros Hne Hidx Hans Hlen Hnd.
  destruct (answer_all_spec (mbti_questions (quiz g)) [] clicks g Hne
              eq_refl Hidx Hlen)
    as (g' & Hs & Ha & Hi & Hq & Hl & Ht & _ & Hth & Hc & _).
  { rewrite Hans. exact Hnd. }
  exists g'. rewrite Hans in Ha. cbn in Ha, Hi.
  repeat split; try assumption.
  intros now o. apply answer_after_the_end. rewrite Hq, Hi. lia.
Qed.

End QuizFlow.

Section QuizEnd.

Import DecisionGame GameFlow.

(** X11. A guest's quiz from the first click to the result screen: after the
    last answer the local scoring runs in its thread, the thread ends,
    and the next frame shows the result screen with the type computed
    from the recorded answers. *)
Theorem guest_quiz_ends_on_result (clicks : list (Z * Z)) (later : Z) (g : Game) :
  logged_in g = false ->
  mbti_questions (quiz g) <> [] ->
  current_mbti_index (quiz g) = 0 ->
  mbti_answers (quiz g) = [] ->
  List.length clicks = List.length (mbti_questions (quiz g)) ->
  NoDup (answer_keys 0 (mbti_questions (quiz g))) ->
  exists g',
    answer_all clicks g = Some g'
    /\ let g'' := update later
                    (finish_operation (GameLogic._generate_local_mbti_result g')) in
       current_state g'' = PERSONALITY_RESULT
       /\ is_loading (loading g'') = false
       /\ option_map mr_type (mbti_result (quiz g''))
          = Some (GameLogic.type_code_of
                    (GameLogic.mbti_scores (mbti_questions (quiz g))
                       (combine (answer_keys 0 (mbti_questions (quiz g)))
                                (map snd clicks)))).
Proof.
  intros Hguest Hne Hidx Hans Hlen Hnd.
  destruct (answer_all_spec (mbti_questions (quiz g)) [] clicks g Hne
              eq_refl Hidx Hlen)
    as (g' & Hs & Ha & Hi & Hq & Hl & Ht & Hc & Hth & Hcs & Hop).
  { rewrite Hans. exact Hnd. }
  exists g'. split; [exact Hs|].
  rewrite Hans in Ha. cbn [app List.length Z.of_nat] in Ha.
  destruct (finished_operation_lands later
              (GameLogic._generate_local_mbti_result g') PERSONALITY_RESULT
              _ Hl Ht Hc Hop)
    as (H1 & _ & _ & H4 & _ & _ & _ & _ & Hquiz & _).
  cbv zeta. split; [exact H1|]. split; [exact H4|].
  rewrite Hquiz.
  change (mbti_result (quiz (GameLogic._generate_local_mbti_result g')))
    with (Some (GameLogic._get_mbti_type_description
                  (GameLogic.local_type_code g'))).
  cbn [option_map]. rewrite description_type.
  unfold GameLogic.local_type_code. now rewrite Hq, Ha.
Qed.

End QuizEnd.

Lemma answer_is_recorded_witness :
  option_map (fun g => PyDict.get 1 (mbti_answers (quiz g)))
             (GameFlow.answer_mbti_question 3 4 (guest_quiz 2))
  = Some (Some 4).
Proof.
  destruct (answer_is_recorded 3 4 (guest_quiz 2)
              (nth 0 (GameLogic._generate_mbti_questions tt)
                   {| q_id := None; q_question := ""; q_options := [];
                      q_dimension := None |}))
    as (g' & Hs & Hget & _).
  - cbn. lia.
  - reflexivity.
  - rewrite Hs. cbn [option_map]. f_equal. exact Hget.
Defined.

Lemma guest_quiz_keys : NoDup (answer_keys 0 (mbti_questions (quiz (guest_quiz 2)))).
Proof.
  cbn. constructor.
  - intros [H|[]]. discriminate H.
  - constructor; [intros [] | constructor].
Qed.

Lemma quiz_run_submits_once_witness :
  option_map threads (answer_all [(10, 0); (20, 4)] (guest_quiz 2))
  = Some [OpGenerateLocalMbti].
Proof.
  destruct (quiz_run_submits_once [(10, 0); (20, 4)] (guest_quiz 2))
    as (g' & Hs & _ & _ & _ & Hth & _).
  - discriminate.
  - reflexivity.
  - reflexivity.
  - reflexivity.
  - exact guest_quiz_keys.
  - rewrite Hs. cbn [option_map]. f_equal. exact Hth.
Defined.

Lemma guest_quiz_ends_on_result_witness :
  option_map
    (fun g' =>
       current_state
         (DecisionGame.update 99
            (finish_operation (GameLogic._generate_local_mbti_result g'))))
    (answer_all [(10, 0); (20, 4)] (guest_quiz 2))
  = Some PERSONALITY_RESULT.
Proof.
  destruct (guest_quiz_ends_on_result [(10, 0); (20, 4)] 99 (guest_quiz 2))
    as (g' & Hs & Hcs & _).
  - reflexivity.
  - discriminate.
  - reflexivity.
  - reflexivity.
  - reflexivity.
  - exact guest_quiz_keys.
  - rewrite Hs. cbn [option_map]. f_equal. exact Hcs.
Defined.

(* ===================================================================== *)
(** ** Further properties: conversation flow, logout *)
(* ===================================================================== *)

Section FlowFacts.

Import DecisionGame GameFlow.

(** X12. An empty response is turned down: the submission only sets the
    status line, and neither the responses nor the index nor the
    completion flag change. Without a response box the submission does
    nothing at all. *)
Theorem empty_response_is_rejected (rnd : nat) (g : Game) :
  (forall tb, response_input (widgets g) = Some tb ->
     TextBox.get_text tb = "" ->
     exists g',
       GameEventHandler._submit_response rnd g = Some g'
       /\ status_message g' = "Please enter a response"
       /\ conversation g' = conversation g
       /\ widgets g' = widgets g
       /\ current_state g' = current_state g)
  /\ (response_input (widgets g) = None ->
        GameEventHandler._submit_response rnd g = Some g).
Proof.
  unfold GameEventHandler._submit_response. split.
  - intros tb Hb He. rewrite Hb, He. cbn.
    eexists. split; [reflexivity|]. cbn. auto.
  - intros ->. reflexivity.
Qed.

(** X13. "Explore Further" on a conversation that has been answered to its
    end reopens it for exactly three more responses: the conversation is
    not complete after it nor after one or two further non-empty
    responses, and complete again after the third. *)
Theorem explore_more_reopens_for_three
        (g : Game) (inputs : list (TextBox.t * nat)) :
  current_question_index (conversation g)
  = Z.of_nat (List.length (conversation_questions (conversation g))) ->
  List.length inputs = 3%nat ->
  Forall (fun i => TextBox.get_text (fst i) <> "") inputs ->
  conversation_complete (conversation (explore_more g)) = false
  /\ List.length (conversation_questions (conversation (explore_more g)))
     = (List.length (conversation_questions (conversation g)) + 3)%nat
  /\ (forall k, (k < 3)%nat ->
        exists gk,
          submit_all (firstn k inputs) (explore_more g) = Some gk
          /\ conversation_complete (conversation gk) = false)
  /\ (exists g3,
        submit_all inputs (explore_more g) = Some g3
        /\ conversation_complete (conversation g3) = true
        /\ user_responses (conversation g3)
           = (user_responses (conversation g)
              ++ map (fun i => TextBox.get_text (fst i)) inputs)%list).
Proof.
  intros Hidx Hlen Hall.
  assert (Hq : List.length (conversation_questions (conversation (explore_more g)))
               = (List.length (conversation_questions (conversation g)) + 3)%nat).
  { cbn. now rewrite length_app. }
  assert (Hi : current_question_index (conversation (explore_more g))
               = current_question_index (conversation g)) by reflexivity.
  assert (Hc : conversation_complete (conversation (explore_more g)) = false)
    by reflexivity.
  split; [exact Hc|]. split; [exact Hq|]. split.
  - intros k Hk.
    assert (Hallk : Forall (fun i => TextBox.get_text (fst i) <> "")
                           (firstn k inputs)).
    { pose proof Hall as Hall'. rewrite <- (firstn_skipn k inputs) in Hall'.
      apply Forall_app in Hall'. exact (proj1 Hall'). }
    destruct (submit_all_spec (firstn k inputs) (explore_more g) Hallk)
      as (gk & Hs & _ & _ & _ & Hcomp & _).
    exists gk. split; [exact Hs|].
    rewrite Hcomp, Hc, Hi, Hidx, Hq, length_firstn, Hlen.
    cbn [orb]. destruct (Nat.eqb (Nat.min k 3) 0); cbn; [reflexivity|].
    destruct (Z.geb_spec
                (Z.of_nat (List.length (conversation_questions (conversation g)))
                 + Z.of_nat (Nat.min k 3))
                (Z.of_nat (List.length (conversation_questions (conversation g)) + 3)));
      [lia | reflexivity].
  - destruct (submit_all_spec inputs (explore_more g) Hall)
      as (g3 & Hs & _ & Hr & _ & Hcomp & _).
    exists g3. split; [exact Hs|]. split; [|exact Hr].
    rewrite Hcomp, Hc, Hi, Hidx, Hq, Hlen. cbn [orb Nat.eqb negb andb].
    apply Z.geb_le. lia.
Qed.


(** X15. "New Scenario" empties the scenario box, so that asking for an
    analysis right after it is turned down as a blank scenario: the
    status line asks for a scenario, and no task is started. *)
Theorem new_topic_then_analysis_is_rejected (now : Z) (g : Game) :
  let g' := GameLogic.analyze_scenario now (start_new_topic g) in
  current_state g' = SCENARIO
  /\ status_message g' = "Please enter a scenario first"
  /\ loading g' = loading g
  /\ threads g' = threads g
  /\ TextBox.get_text (scenario_input_box (widgets g')) = "".
Proof.
  cbv zeta. unfold GameLogic.analyze_scenario.
  assert (Hbox : TextBox.get_text (scenario_input_box (widgets (start_new_topic g)))
                 = "").
  { cbn. apply get_text_set_text_empty. }
  rewrite Hbox. cbn. repeat split; try reflexivity.
  apply get_text_set_text_empty.
Qed.

End FlowFacts.

Lemma empty_response_is_rejected_witness :
  option_map status_message
             (GameEventHandler._submit_response 0 fresh_conversation)
  = Some "Please enter a response".
Proof.
  destruct (empty_response_is_rejected 0 fresh_conversation) as [H _].
  destruct (H (TextBox.init 500 480 700 80 true 0) eq_refl eq_refl)
    as (g' & Hs & Hm & _).
  rewrite Hs. cbn [option_map]. f_equal. exact Hm.
Defined.


Lemma explore_more_reopens_for_three_witness :
  let inputs := [(response_box "x", 0%nat); (response_box "y", 1%nat);
                 (response_box "z", 2%nat)] in
  conversation_complete
    (conversation (GameFlow.explore_more finished_conversation)) = false
  /\ option_map (fun g => conversation_complete (conversation g))
                (submit_all inputs (GameFlow.explore_more finished_conversation))
     = Some true.
Proof.
  intros inputs.
  assert (Hall : Forall (fun i => TextBox.get_text (fst i) <> "") inputs).
  { repeat constructor; intros H; vm_compute in H; discriminate H. }
  destruct (explore_more_reopens_for_three finished_conversation inputs
              eq_refl eq_refl Hall) as (H1 & _ & _ & (g3 & Hs & Hc & _)).
  split; [exact H1|]. rewrite Hs. cbn [option_map]. now rewrite Hc.
Defined.

(* ===================================================================== *)
(** ** Further properties: wrapping and truncating text *)
(* ===================================================================== *)

Section LayoutFacts.

Import PyStr TextLayout.

Variable font_size : string -> Z.

Lemma join_app (sep : string) (a b : list string) :
  a <> [] -> b <> [] ->
  join sep (a ++ b) = (join sep a ++ sep ++ join sep b)%string.
Proof.
  intros Ha Hb. induction a as [|x a IH]; [congruence|].
  destruct a as [|y a].
  - cbn [app]. now rewrite join_cons.
  - cbn [app]. cbn [app] in IH.
    rewrite (join_cons sep x (y :: a ++ b)) by discriminate.
    rewrite (join_cons sep x (y :: a)) by discriminate.
    rewrite IH by discriminate.
    now rewrite !append_assoc.
Qed.

(** Joining a list in which one run of words has been joined already. *)
Lemma join_flatten (sep : string) (a ys b : list string) :
  ys <> [] ->
  join sep (a ++ join sep ys :: b) = join sep (a ++ ys ++ b).
Proof.
  intros Hys.
  assert (Hmid : join sep (join sep ys :: b) = join sep (ys ++ b)).
  { destruct b as [|z b].
    - now rewrite app_nil_r.
    - rewrite join_cons by discriminate.
      now rewrite join_app by (assumption || discriminate). }
  destruct a as [|x a]; [exact Hmid|].
  rewrite !(join_app sep (x :: a)); try discriminate.
  - now rewrite Hmid.
  - destruct ys; [congruence | discriminate].
Qed.

Lemma wrap_loop_join (max_width : Z) (words : list string) :
  forall lines current_line,
    join " " (wrap_loop font_size max_width words lines current_line)
    = join " " (lines ++ current_line ++ words).
Proof.
  induction words as [|word rest IH]; intros lines cur; cbn [wrap_loop].
  - destruct cur as [|c cur]; [cbn [app]; now rewrite app_nil_r|].
    now rewrite (join_flatten " " lines (c :: cur) []) by discriminate.
  - destruct (font_size (join " " (cur ++ [word])) <=? max_width).
    + rewrite IH, <- app_assoc. reflexivity.
    + rewrite IH. destruct cur as [|c cur]; [reflexivity|].
      rewrite <- app_assoc. cbn [app].
      apply (join_flatten " " lines (c :: cur) (word :: rest)). discriminate.
Qed.

(** X16. Wrapping loses nothing: the lines of [wrap_text], joined by single
    spaces, are the text again. *)
Theorem wrap_text_keeps_text (text : string) (max_width : Z) :
  join " " (wrap_text font_size text max_width) = text.
Proof.
  unfold wrap_text. rewrite wrap_loop_join. cbn [app].
  apply (join_split_char " "%char).
Qed.

Lemma wrap_loop_fits (max_width : Z) (all_words : list string)
      (words : list string) :
  forall lines current_line,
    (forall w, In w words -> In w all_words) ->
    Forall (fun line => font_size line <= max_width \/ In line all_words) lines ->
    (current_line = []
     \/ font_size (join " " current_line) <= max_width
     \/ exists w, current_line = [w] /\ In w all_words) ->
    Forall (fun line => font_size line <= max_width \/ In line all_words)
           (wrap_loop font_size max_width words lines current_line).
Proof.
  assert (Hpush : forall lines cur,
             Forall (fun line => font_size line <= max_width \/ In line all_words)
                    lines ->
             (cur = [] \/ font_size (join " " cur) <= max_width
              \/ exists w, cur = [w] /\ In w all_words) ->
             Forall (fun line => font_size line <= max_width \/ In line all_words)
                    match cur with
                    | [] => lines
                    | _ => (lines ++ [join " " cur])%list
                    end).
  { intros lines cur Hl Hc. destruct cur as [|c cur]; [exact Hl|].
    apply Forall_app. split; [exact Hl|]. constructor; [|constructor].
    destruct Hc as [Hc | [Hc | (w & Hw & Hin)]];
      [discriminate | now left |].
    injection Hw as -> ->. now right. }
  induction words as [|word rest IH]; intros lines cur Hsub Hl Hc;
    cbn [wrap_loop].
  - now apply Hpush.
  - destruct (Z.leb_spec (font_size (join " " (cur ++ [word]))) max_width).
    + apply IH; [intros w Hw; apply Hsub; now right | exact Hl |].
      right. now left.
    + apply IH; [intros w Hw; apply Hsub; now right | now apply Hpush |].
      right. right. exists word. split; [reflexivity|]. apply Hsub. now left.
Qed.

(** X17. A line of [wrap_text] is wider than [max_width] only when it is a
    single word of the text. *)
Theorem wrap_text_lines_fit (text : string) (max_width : Z) :
  Forall (fun line => font_size line <= max_width
                      \/ In line (split " " text))
         (wrap_text font_size text max_width).
Proof.
  unfold wrap_text. apply wrap_loop_fits; [auto | constructor | now left].
Qed.

Lemma truncate_loop_spec (text ellipsis : string) (max_width : Z) (n : nat) :
  exists i, (i <= n)%nat
    /\ truncate_loop font_size text ellipsis max_width n
       = (String.substring 0 i text ++ ellipsis)%string
    /\ (i = O \/ font_size (String.substring 0 i text ++ ellipsis) <= max_width)
    /\ (forall j, (i < j <= n)%nat ->
          max_width < font_size (String.substring 0 j text ++ ellipsis)).
Proof.
  induction n as [|n IH]; cbn [truncate_loop].
  - exists O. repeat split; [lia | | now left | intros j Hj; lia].
    now destruct text.
  - destruct (Z.leb_spec (font_size (String.substring 0 (S n) text ++ ellipsis))
                         max_width) as [Hfit|Hno].
    + exists (S n). repeat split; [lia | now right | intros j Hj; lia].
    + destruct IH as (i & Hi & Heq & Hfit & Hmax).
      exists i. repeat split; [lia | exact Heq | exact Hfit |].
      intros j Hj. destruct (Nat.eq_dec j (S n)) as [->|Hne]; [exact Hno|].
      apply Hmax. lia.
Qed.

(** X18. [truncate_text] gives the text itself when it fits; otherwise the
    longest beginning of the text that fits once the ellipsis is added,
    followed by the ellipsis, and the bare ellipsis when no beginning
    fits. *)
Theorem truncate_text_longest_fit (text : string) (max_width : Z)
        (show_ellipsis : bool) :
  let ellipsis := if show_ellipsis then "..." else "" in
  let result := truncate_text font_size text max_width show_ellipsis in
  (font_size text <= max_width -> result = text)
  /\ (max_width < font_size text ->
        exists i, (i <= String.length text)%nat
          /\ result = (String.substring 0 i text ++ ellipsis)%string
          /\ (i = O \/ font_size result <= max_width)
          /\ (forall j, (i < j <= String.length text)%nat ->
                max_width < font_size (String.substring 0 j text ++ ellipsis))).
Proof.
  cbv zeta. unfold truncate_text. split.
  - intros H. destruct (Z.leb_spec (font_size text) max_width); [reflexivity|lia].
  - intros H. destruct (Z.leb_spec (font_size text) max_width); [lia|].
    destruct (truncate_loop_spec text (if show_ellipsis then "..." else "")
                max_width (String.length text)) as (i & Hi & Heq & Hfit & Hmax).
    exists i. rewrite Heq. auto.
Qed.

End LayoutFacts.

Lemma truncate_text_longest_fit_witness :
  TextLayout.truncate_text fixed_width_font "Decision Game" 80 true = "Decis..."
  /\ TextLayout.truncate_text fixed_width_font "Decision" 80 true = "Decision".
Proof.
  split; [reflexivity|].
  destruct (truncate_text_longest_fit fixed_width_font "Decision" 80 true)
    as [Hfit _].
  apply Hfit. vm_compute. discriminate.
Defined.

Example wrap_text_sample :
  TextLayout.wrap_text fixed_width_font "to be or not to be" 60
  = ["to be"; "or not"; "to be"].
Proof. reflexivity. Qed.

(* ===================================================================== *)
(** ** Further properties: the AI wrapper *)
(* ===================================================================== *)

Section AIFacts.

Import AIService AILists.

(** X19. In degraded mode the two list-returning calls give their static
    fallback lists: [get_mbti_questions] straight away, and
    [generate_simulation_scenarios] through its exception handler, since
    the fallback it got back from [_call_groq_api] is a list and not
    text. *)
Theorem degraded_mode_returns_fallback_lists
        (json_loads : string -> option Json)
        (client : list Message -> Completion) :
  (forall messages, client_fails (client messages) = true) ->
  get_mbti_questions json_loads client tt
  = Some (_get_fallback_mbti_questions tt)
  /\ generate_simulation_scenarios json_loads client tt
     = Some (_get_fallback_simulation_scenarios tt).
Proof.
  intros H. unfold get_mbti_questions, generate_simulation_scenarios.
  rewrite !(call_groq_api_fails json_loads client _ _ (H _)).
  split; reflexivity.
Qed.

(** What [_call_groq_api] does with an answer that opens a thinking
    block and never closes it, but holds an object in braces. *)
Lemma call_groq_api_unclosed_think
      (json_loads : string -> option Json)
      (client : list Message -> Completion) (messages : list Message)
      (fallback_func : unit -> Json) (rc json_str : string) (parsed : Json) :
  client messages = ClientReturns (Some rc) ->
  blank rc = false ->
  PyStr.startswith "<think>" rc = true ->
  PyStr.contains "</think>" rc = false ->
  PyStr.search_braces rc = Some json_str ->
  json_loads json_str = Some parsed ->
  _call_groq_api json_loads client messages fallback_func = RJson parsed.
Proof.
  intros Hc Hb Hs Hn Hbr Hj. unfold _call_groq_api. rewrite Hc.
  assert (Ht : PyStr.truthy rc = true).
  { destruct rc; [discriminate Hb | reflexivity]. }
  assert (Hts : PyStr.truthy (PyStr.strip rc) = true).
  { destruct (PyStr.strip rc) eqn:E; [|reflexivity].
    apply strip_empty_iff in E. congruence. }
  rewrite Ht, Hts, Hs, Hn, Hbr, Hj. reflexivity.
Qed.

(** X20. An exception leaves [get_mbti_questions] when the model's answer is
    an unclosed thinking block around a JSON object that has no
    ["questions"] entry: the object is neither a list nor text, and the
    handler fails on it in turn. *)
Theorem get_mbti_questions_can_raise
        (json_loads : string -> option Json)
        (client : list Message -> Completion)
        (rc json_str : string) (entries : list (string * Json)) :
  client questions_messages = ClientReturns (Some rc) ->
  blank rc = false ->
  PyStr.startswith "<think>" rc = true ->
  PyStr.contains "</think>" rc = false ->
  PyStr.search_braces rc = Some json_str ->
  json_loads json_str = Some (JDict entries) ->
  json_get "questions" entries = None ->
  get_mbti_questions json_loads client tt = None.
Proof.
  intros Hc Hb Hs Hn Hbr Hj Hq. unfold get_mbti_questions.
  rewrite (call_groq_api_unclosed_think json_loads client _ _ rc json_str
             (JDict entries) Hc Hb Hs Hn Hbr Hj).
  now rewrite Hq.
Qed.

End AIFacts.

Lemma degraded_mode_returns_fallback_lists_witness :
  AILists.get_mbti_questions (fun _ => None) (fun _ => ClientRaises) tt
  = Some (AILists._get_fallback_mbti_questions tt).
Proof.
  destruct (degraded_mode_returns_fallback_lists
              (fun _ => None) (fun _ => ClientRaises) (fun _ => eq_refl))
    as [H _].
  exact H.
Defined.

Lemma get_mbti_questions_can_raise_witness :
  AILists.get_mbti_questions
    (fun s => if String.eqb s "{}" then Some (JDict []) else None)
    (fun _ => ClientReturns (Some "<think>{}")) tt
  = None.
Proof.
  apply (get_mbti_questions_can_raise
           (fun s => if String.eqb s "{}" then Some (JDict []) else None)
           (fun _ => ClientReturns (Some "<think>{}"))
           "<think>{}" "{}" []); reflexivity.
Defined.

Section UntaggedQuiz.

Import GameLogic.

Lemma find_question_in (question_id : Z) (questions : list Question) (q : Question) :
  find_question question_id questions = Some q -> In q questions.
Proof.
  induction questions as [|q0 rest IH]; cbn; [discriminate|].
  destruct (q_id q0) as [i|].
  - destruct (i =? question_id).
    + intros [= <-]. now left.
    + intros H. right. now apply IH.
  - intros H. right. now apply IH.
Qed.

Lemma untagged_pole_total (tag : string) (questions : list Question)
      (answers : list (Z * Z)) :
  Forall (fun q => q_dimension q = None) questions ->
  pole_total tag questions answers = 0.
Proof.
  intros Hall. induction answers as [|item rest IH]; cbn; [reflexivity|].
  rewrite IH. unfold contribution, carries.
  destruct (find_question (fst item) questions) as [q|] eqn:E; [|reflexivity].
  apply find_question_in in E.
  rewrite Forall_forall in Hall. now rewrite (Hall q E).
Qed.

(** X21. Questions that carry no dimension tag score nothing: whatever the
    answers, the local result is INFP. The five fallback questions of the
    AI service are such questions. *)
Theorem untagged_questions_score_infp (questions : list Question)
        (answers : list (Z * Z)) :
  Forall (fun q => q_dimension q = None) questions ->
  type_code_of (mbti_scores questions answers) = "INFP".
Proof.
  intros Hall. rewrite mbti_scores_totals.
  rewrite !(untagged_pole_total _ _ _ Hall). reflexivity.
Qed.

End UntaggedQuiz.

Lemma untagged_questions_score_infp_witness :
  exists questions,
    questions_of_json (AILists._get_fallback_mbti_questions tt) = Some questions
    /\ GameLogic.type_code_of
         (GameLogic.mbti_scores questions
            [(1, 0); (2, 0); (3, 0); (4, 0); (5, 0)])
       = "INFP".
Proof.
  eexists. split; [reflexivity|].
  apply untagged_questions_score_infp.
  repeat constructor.
Defined.

Section FenceFacts.

Import PyStr AIService.

(** A stretch of text without the separator's first character is passed
    over by [split] and joins the piece being collected. *)
Lemma split_from_passes (c0 : ascii) (sep' s rest : string) :
  find_char c0 s = None ->
  forall cur,
    split_from (String c0 sep') None O cur (s ++ rest)
    = split_from (String c0 sep') None O (cur ++ s) rest.
Proof.
  induction s as [|d r IH]; intros Hs cur; cbn [append].
  - now rewrite append_nil_r.
  - cbn in Hs. destruct (Ascii.eqb c0 d) eqn:E; [discriminate Hs|].
    destruct (find_char c0 r) eqn:Er; [discriminate Hs|].
    cbn [split_from can_split andb String.prefix].
    destruct (ascii_dec c0 d) as [->|_];
      [rewrite Ascii.eqb_refl in E; discriminate E|].
    rewrite IH by reflexivity. now rewrite append_assoc.
Qed.

(** A text that starts and ends with a character that is no white space
    is left as it is by [strip]. *)
Lemma strip_fixed (c d : ascii) (mid : string) :
  isspace c = false -> isspace d = false ->
  strip (String c (mid ++ String d "")) = String c (mid ++ String d "").
Proof.
  intros Hc Hd. unfold strip, rstrip. rewrite (lstrip_fixed _ _ Hc).
  rewrite reverse_cons, reverse_app.
  change (reverse (String d "")) with (String d "").
  cbn [append]. rewrite (lstrip_fixed _ _ Hd).
  change (String d (reverse mid ++ String c ""))
    with (String d "" ++ (reverse mid ++ String c ""))%string.
  rewrite reverse_app, reverse_app, reverse_involutive.
  reflexivity.
Qed.

Lemma prefix_app (p s : string) : String.prefix p (p ++ s) = true.
Proof.
  induction p as [|c r IH]; cbn [append String.prefix].
  - now destruct s.
  - destruct (ascii_dec c c) as [_|Hne]; [exact IH | now elim Hne].
Qed.

Lemma split_json_fence_open (rest : string) :
  split "```json" ("```json" ++ rest)
  = "" :: split_from "```json" None O "" rest.
Proof.
  unfold split.
  change ("```json" ++ rest)%string with (String "`" ("``json" ++ rest)).
  cbn [split_from can_split andb].
  change (String "`" ("``json" ++ rest)) with ("```json" ++ rest)%string.
  rewrite prefix_app. reflexivity.
Qed.

Lemma split_json_fence_close (cur : string) :
  split_from "```json" None O cur "```" = [(cur ++ "```")%string].
Proof.
  cbn [split_from can_split andb String.prefix].
  repeat match goal with |- context [ascii_dec ?a ?b] =>
           destruct (ascii_dec a b) as [_|Hne]; [|now elim Hne] end.
  now rewrite !append_assoc.
Qed.

Lemma split_fence_close (cur : string) :
  split_from "```" None O cur "```" = [cur; ""].
Proof. reflexivity. Qed.

(** The text between a [```json] fence and the closing fence is what
    [unfence] decodes. *)
Lemma unfence_json (body : string) :
  find_char "`"%char body = None ->
  unfence "```json" ("```json" ++ body ++ "```") = strip body.
Proof.
  intros Hb. unfold unfence.
  rewrite split_json_fence_open.
  rewrite (split_from_passes "`"%char "``json" body "```" Hb "").
  rewrite split_json_fence_close.
  cbn [nth append]. unfold split.
  rewrite (split_from_passes "`"%char "``" body "```" Hb "").
  rewrite split_fence_close. reflexivity.
Qed.

(** X22. A JSON answer inside a [```json] code fence is unwrapped: the
    analysis is what [json.loads] decodes from the stripped text between
    the fences. *)
Theorem fenced_json_is_unwrapped
        (json_loads : string -> option Json)
        (client : list Message -> Completion)
        (scenario_text body : string) (result : Json) :
  find_char "`"%char body = None ->
  client (scenario_messages scenario_text)
  = ClientReturns (Some ("```json" ++ body ++ "```")) ->
  json_loads (strip body) = Some result ->
  analyze_scenario json_loads client scenario_text = result.
Proof.
  intros Hb Hc Hj.
  assert (Hfix : strip ("```json" ++ body ++ "```")
                 = ("```json" ++ body ++ "```")%string).
  { change ("```json" ++ body ++ "```")%string
      with (String "`" ("``json" ++ body ++ "``" ++ String "`" ""))%string.
    rewrite <- !append_assoc. now apply strip_fixed. }
  unfold analyze_scenario, _call_groq_api. cbv zeta. rewrite Hc, Hfix.
  change (truthy ("```json" ++ body ++ "```")) with true.
  change (startswith "<think>" ("```json" ++ body ++ "```")) with false.
  cbn [negb orb]. cbv iota. rewrite Hfix.
  unfold startswith at 1. rewrite prefix_app. rewrite (unfence_json body Hb), Hj. reflexivity.
Qed.

End FenceFacts.

Lemma fenced_json_is_unwrapped_witness :
  AIService.analyze_scenario
    (fun s => if String.eqb s "{}" then Some (JDict []) else None)
    (fun _ => ClientReturns
                (Some ("```json" ++ (PyStr.nl ++ "{}" ++ PyStr.nl) ++ "```")%string))
    "Should I move?"
  = JDict [].
Proof.
  apply (fenced_json_is_unwrapped
           (fun s => if String.eqb s "{}" then Some (JDict []) else None)
           (fun _ => ClientReturns
                (Some ("```json" ++ (PyStr.nl ++ "{}" ++ PyStr.nl) ++ "```")%string))
           "Should I move?" (PyStr.nl ++ "{}" ++ PyStr.nl)); reflexivity.
Defined.

(* ===================================================================== *)
(** ** Further properties: thread bodies and the progress bar *)
(* ===================================================================== *)

Section ThreadFacts.

Import DecisionGame GameFlow GameThreads.

Lemma finished_operation_keeps (later : Z) (g : Game) (tgt : Screen)
      (th : Thread) :
  is_loading (loading g) = true ->
  loading_target_state (loading g) = Some tgt ->
  loading_completed (loading g) = false ->
  loading_operation (loading g) = Some th ->
  let g' := update later (finish_operation g) in
  widgets g' = widgets g
  /\ status_message g' = status_message g.
Proof.
  open_game g. intros -> -> -> ->. cbv zeta.
  unfold finish_operation, update, _update_loading.
  cbn. split; reflexivity.
Qed.

Lemma start_loading_fields (message : string) (tgt : option Screen)
      (op : Operation) (now : Z) (g : Game) :
  let g' := start_loading message tgt (Some op) now g in
  is_loading (loading g') = true
  /\ loading_target_state (loading g') = tgt
  /\ loading_completed (loading g') = false
  /\ loading_operation (loading g') = Some {| target := op; is_alive := true |}
  /\ user g' = user g /\ token g' = token g
  /\ conversation g' = conversation g
  /\ current_state g' = current_state g.
Proof. open_game g. cbn. repeat split; reflexivity. Qed.

Lemma perform_analysis_loading (text : string) (reply : AnalysisReply)
      (t : Z) (g : Game) :
  loading (_perform_scenario_analysis text reply t g) = loading g.
Proof.
  unfold _perform_scenario_analysis.
  destruct (logged_in g);
    [destruct reply as [e|r]; [|destruct (json_truthy r)]|]; reflexivity.
Qed.

(** X23. From the request to the conversation: a scenario that is not blank
    is analysed in a thread, and when the thread has ended the next
    frame shows the conversation screen. The conversation starts afresh
    with the five questions, a new response box and no responses, for a
    guest and for a logged-in user alike, whether or not the analysis
    brought a result; only when the API call raises does the screen
    show the conversation as it was left. *)
Theorem scenario_analysis_lands_on_conversation
        (now t later : Z) (reply : AnalysisReply) (g : Game) :
  blank (TextBox.get_text (scenario_input_box (widgets g))) = false ->
  let text := TextBox.get_text (scenario_input_box (widgets g)) in
  let g1 := GameLogic.analyze_scenario now g in
  let g2 := _perform_scenario_analysis text reply t g1 in
  let g3 := update later (finish_operation g2) in
  current_state g3 = LETS_TALK
  /\ is_loading (loading g3) = false
  /\ ((logged_in g = false \/ exists result, reply = AnalysisReturns result) ->
        conversation g3
        = {| conversation_questions :=
               GameLogic.generate_conversation_questions text;
             current_question_index := 0;
             user_responses := [];
             conversation_complete := false;
             conversation_summary := conversation_summary (conversation g) |}
        /\ response_input (widgets g3)
           = Some (TextBox.init 500 480 700 80 true t))
  /\ (forall e, logged_in g = true -> reply = AnalysisRaises e ->
        conversation g3 = conversation g
        /\ status_message g3 = ("Error: " ++ e)%string).
Proof.
  intros Hb text g1 g2 g3.
  assert (Hg1 : g1 = start_loading "Analyzing your scenario..." (Some LETS_TALK)
                       (Some (OpScenarioAnalysis text)) now
                       (with_scenario_text text g)).
  { subst g1 text. unfold GameLogic.analyze_scenario.
    remember (TextBox.get_text (scenario_input_box (widgets g))) as s eqn:Es.
    assert (Ht : PyStr.truthy s = true) by (destruct s; [discriminate Hb | reflexivity]).
    assert (Hs : String.eqb (PyStr.strip s) "" = false).
    { apply String.eqb_neq. intros Hx. apply strip_empty_iff in Hx. congruence. }
    now rewrite Ht, Hs. }
  assert (Hlog : logged_in g1 = logged_in g).
  { rewrite Hg1. open_game g. reflexivity. }
  assert (Hl2 : is_loading (loading g2) = true
                /\ loading_target_state (loading g2) = Some LETS_TALK
                /\ loading_completed (loading g2) = false
                /\ loading_operation (loading g2)
                   = Some {| target := OpScenarioAnalysis text; is_alive := true |}).
  { subst g2. rewrite perform_analysis_loading, Hg1.
    repeat split; reflexivity. }
  destruct Hl2 as (Hl & Ht & Hc & Ho).
  destruct (finished_operation_lands later g2 LETS_TALK _ Hl Ht Hc Ho)
    as (Hs3 & _ & _ & Hl3 & _ & _ & _ & Hcv & _).
  destruct (finished_operation_keeps later g2 LETS_TALK _ Hl Ht Hc Ho)
    as (Hwd & Hst).
  fold g3 in Hs3, Hl3, Hcv, Hwd, Hst.
  split; [exact Hs3|]. split; [exact Hl3|].
  split.
  - intros Hcase.
    assert (Hconv : conversation g2
            = {| conversation_questions :=
                   GameLogic.generate_conversation_questions text;
                 current_question_index := 0;
                 user_responses := [];
                 conversation_complete := false;
                 conversation_summary := conversation_summary (conversation g) |}
            /\ response_input (widgets g2)
               = Some (TextBox.init 500 480 700 80 true t)).
    { subst g2. unfold _perform_scenario_analysis. rewrite Hlog, Hg1.
      destruct Hcase as [Hguest | [result ->]].
      - rewrite Hguest. split; reflexivity.
      - destruct (logged_in g); [destruct (json_truthy result)|];
          split; reflexivity. }
    now rewrite Hcv, Hwd.
  - intros e Hin ->.
    assert (Hconv : conversation g2 = conversation g
                    /\ status_message g2 = ("Error: " ++ e)%string).
    { subst g2. unfold _perform_scenario_analysis. rewrite Hlog, Hin, Hg1.
      split; reflexivity. }
    now rewrite Hcv, Hst.
Qed.

End ThreadFacts.

Lemma scenario_analysis_lands_on_conversation_witness :
  let g := scenario_typed (Some "alice") "Should I switch jobs?" in
  let g3 := DecisionGame.update 900
              (finish_operation
                 (GameThreads._perform_scenario_analysis
                    "Should I switch jobs?" (AnalysisRaises "timeout") 800
                    (GameLogic.analyze_scenario 0 g))) in
  current_state g3 = LETS_TALK
  /\ conversation g3 = conversation g
  /\ status_message g3 = "Error: timeout".
Proof.
  destruct (scenario_analysis_lands_on_conversation
              0 800 900 (AnalysisRaises "timeout")
              (scenario_typed (Some "alice") "Should I switch jobs?")
              eq_refl) as (H1 & _ & _ & H4).
  destruct (H4 "timeout" eq_refl eq_refl) as (H5 & H6).
  split; [exact H1 | split; [exact H5 | exact H6]].
Defined.

Section QuizReload.

Import DecisionGame GameFlow GameThreads.

(** X24. Loading the quiz resets the answers and the position only when the
    questions come back. When fetching them raises, the twenty local
    questions are installed over the previous run's position and
    answers: after a run that went through twenty questions or more,
    every click on an option is ignored, and the quiz cannot be taken
    again. *)
Theorem failed_reload_keeps_old_run (g : Game) :
  20 <= current_mbti_index (quiz g) ->
  (let g' := _load_personality_test QuestionsRaise g in
   mbti_questions (quiz g') = GameLogic._generate_mbti_questions tt
   /\ mbti_answers (quiz g') = mbti_answers (quiz g)
   /\ current_mbti_index (quiz g') = current_mbti_index (quiz g)
   /\ forall now option_index,
        answer_mbti_question now option_index g' = Some g')
  /\ (forall response,
        let g' := _load_personality_test (QuestionsReturn response) g in
        mbti_questions (quiz g') <> []
        /\ mbti_answers (quiz g') = []
        /\ current_mbti_index (quiz g') = 0
        /\ forall now option_index,
             exists g'',
               answer_mbti_question now option_index g' = Some g''
               /\ current_mbti_index (quiz g'') = 1).
Proof.
  intros Hidx. split.
  - cbv zeta. repeat split; try reflexivity.
    intros now option_index. unfold answer_mbti_question.
    cbv zeta.
    change (mbti_questions (quiz (_load_personality_test QuestionsRaise g)))
      with (GameLogic._generate_mbti_questions tt).
    change (current_mbti_index (quiz (_load_personality_test QuestionsRaise g)))
      with (current_mbti_index (quiz g)).
    change (Z.of_nat (List.length (GameLogic._generate_mbti_questions tt)))
      with 20.
    destruct (Z.geb_spec (current_mbti_index (quiz g)) 20) as [_|Hlt]; [|lia].
    reflexivity.
  - intros response. cbv zeta.
    assert (Hq : exists q rest,
               mbti_questions
                 (quiz (_load_personality_test (QuestionsReturn response) g))
               = q :: rest).
    { destruct response as [|first more].
      - now exists (hd {| q_id := None; q_question := ""; q_options := [];
                          q_dimension := None |}
                       (GameLogic._generate_mbti_questions tt)),
                   (tl (GameLogic._generate_mbti_questions tt)).
      - now exists first, more. }
    destruct Hq as (q & rest & Hq).
    assert (Hi : current_mbti_index
                   (quiz (_load_personality_test (QuestionsReturn response) g))
                 = 0) by now destruct response.
    split; [rewrite Hq; intros Hx; discriminate Hx|].
    split; [now destruct response|].
    split; [exact Hi|].
    intros now option_index.
    eexists. split.
    + apply (answer_step now option_index _ q); rewrite Hi; [lia|].
      now rewrite Hq.
    + cbv zeta. rewrite Hi.
      match goal with |- context [if ?c then _ else _] => destruct c end.
      * destruct (submit_fields now
          (with_quiz
             {| mbti_questions :=
                  mbti_questions
                    (quiz (_load_personality_test (QuestionsReturn response) g));
                current_mbti_index := 0 + 1;
                mbti_answers :=
                  PyDict.set (answer_key 0 q) option_index
                    (mbti_answers
                       (quiz (_load_personality_test (QuestionsReturn response) g)));
                mbti_result :=
                  mbti_result
                    (quiz (_load_personality_test (QuestionsReturn response) g)) |}
             (_load_personality_test (QuestionsReturn response) g)))
          as (Hqz & _).
        now rewrite Hqz.
      * reflexivity.
Qed.

End QuizReload.

Lemma failed_reload_keeps_old_run_witness :
  let g := with_quiz
             {| mbti_questions := GameLogic._generate_mbti_questions tt;
                current_mbti_index := 20;
                mbti_answers := [(1, 0); (2, 4)];
                mbti_result := None |} (initial_game 0) in
  let g' := GameThreads._load_personality_test QuestionsRaise g in
  mbti_answers (quiz g') = [(1, 0); (2, 4)]
  /\ GameFlow.answer_mbti_question 5 0 g' = Some g'.
Proof.
  cbv zeta.
  destruct (failed_reload_keeps_old_run
              (with_quiz
                 {| mbti_questions := GameLogic._generate_mbti_questions tt;
                    current_mbti_index := 20;
                    mbti_answers := [(1, 0); (2, 4)];
                    mbti_result := None |} (initial_game 0)))
    as ((_ & H2 & _ & H4) & _).
  - cbn. lia.
  - split; [exact H2 | exact (H4 5 0)].
Defined.

Section ProgressBar.

Import DecisionGame.

Lemma ramp_steps_checked : forallb ramp_step_ok (seq 0 1999) = true.
Proof. vm_compute. reflexivity. Qed.

Lemma ramp_monotone (a b : Z) :
  0 <= a -> a <= b -> b < 2000 -> progress_ramp a <= progress_ramp b.
Proof.
  intros Ha Hab Hb.
  assert (Hstep : forall n, (n < 1999)%nat ->
            progress_ramp (Z.of_nat n) <= progress_ramp (Z.of_nat (S n))).
  { intros n Hn. pose proof ramp_steps_checked as Hc.
    rewrite forallb_forall in Hc.
    assert (Hin : In n (seq 0 1999)) by (apply in_seq; lia).
    apply Hc in Hin. unfold ramp_step_ok in Hin. now apply Z.leb_le in Hin. }
  assert (Hgen : forall d n, (n + d < 2000)%nat ->
            progress_ramp (Z.of_nat n) <= progress_ramp (Z.of_nat (n + d))).
  { induction d as [|d IH]; intros n Hn.
    - rewrite Nat.add_0_r. lia.
    - specialize (IH n ltac:(lia)).
      specialize (Hstep (n + d)%nat ltac:(lia)).
      replace (n + S d)%nat with (S (n + d)) by lia. lia. }
  specialize (Hgen (Z.to_nat (b - a)) (Z.to_nat a) ltac:(lia)).
  rewrite <- Z2Nat.inj_add, !Z2Nat.id in Hgen by lia.
  now replace (a + (b - a)) with b in Hgen by lia.
Qed.

Lemma shown_progress_monotone (a b : Z) :
  0 <= a -> a <= b -> shown_progress a <= shown_progress b.
Proof.
  intros Ha Hab. unfold shown_progress.
  destruct (Z.ltb_spec a 2000), (Z.ltb_spec b 2000); try lia.
  - now apply ramp_monotone.
  - pose proof (progress_ramp_bounds a ltac:(lia)). lia.
Qed.

(** What a frame shows for a task without operation. *)
Lemma update_shows_progress (now : Z) (g : Game) :
  is_loading (loading g) = true ->
  loading_operation (loading g) = None ->
  loading_progress (loading (update now g))
  = shown_progress (now - loading_start_time (loading g))
  /\ loading_operation (loading (update now g)) = None
  /\ loading_start_time (loading (update now g))
     = loading_start_time (loading g).
Proof.
  intros Hl Ho.
  destruct (update_loading_no_operation now g Ho) as (_ & Hp).
  destruct (update_loading_fields now g) as (Hs & Hop & _).
  unfold update. rewrite Hl. fold (shown_progress (now - loading_start_time (loading g))) in Hp.
  destruct (loading_completed (loading (_update_loading now g)));
    [destruct (loading_target_state (loading (_update_loading now g)))|];
    cbn; rewrite ?Hp, ?Hs, ?Hop, ?Ho; repeat split; reflexivity.
Qed.

(** X25. The progress bar of a task without operation never moves backwards
    from one frame to a later one. *)
Theorem progress_never_goes_back (now1 now2 : Z) (g : Game) :
  loading_operation (loading g) = None ->
  loading_start_time (loading g) <= now1 ->
  now1 <= now2 ->
  loading_progress (loading (update now1 g))
  <= loading_progress (loading (update now2 (update now1 g))).
Proof.
  intros Ho H1 H2.
  destruct (is_loading (loading g)) eqn:Hl.
  - destruct (update_shows_progress now1 g Hl Ho) as (Hp1 & Ho1 & Hs1).
    destruct (is_loading (loading (update now1 g))) eqn:Hl1.
    + destruct (update_shows_progress now2 _ Hl1 Ho1) as (Hp2 & _).
      rewrite Hp2, Hp1, Hs1. apply shown_progress_monotone; lia.
    + rewrite (update_not_loading now2 _ Hl1). lia.
  - rewrite (update_not_loading now1 g Hl), (update_not_loading now2 g Hl). lia.
Qed.

End ProgressBar.

Lemma progress_never_goes_back_witness :
  let g := DecisionGame.start_loading "Loading..." (Some SCENARIO) None 100
             (initial_game 0) in
  loading_progress (loading (DecisionGame.update 680 g))
  <= loading_progress
       (loading (DecisionGame.update 1500 (DecisionGame.update 680 g))).
Proof.
  apply (progress_never_goes_back 680 1500
           (DecisionGame.start_loading "Loading..." (Some SCENARIO) None 100
              (initial_game 0))).
  - reflexivity.
  - cbn. lia.
  - lia.
Defined.

Section Profiles.

Import GameLogic.

(** X26. The local result is always one of the sixteen profiles of the
    table, filed under the code that was computed; the generic profile
    for unknown codes is never used. *)
Theorem local_result_has_profile (g : Game) :
  exists profile,
    mbti_result (quiz (_generate_local_mbti_result g)) = Some profile
    /\ lookup (local_type_code g) descriptions = Some profile
    /\ mr_type profile = local_type_code g
    /\ status_message (_generate_local_mbti_result g)
       = ("Your personality type: " ++ local_type_code g)%string.
Proof.
  assert (H : forall sc, exists profile,
             lookup (type_code_of sc) descriptions = Some profile).
  { intros sc. unfold type_code_of.
    destruct (e_score sc >? i_score sc), (s_score sc >? n_score sc),
      (t_score sc >? f_score sc), (j_score sc >? p_score sc);
      eexists; reflexivity. }
  destruct (H (mbti_scores (mbti_questions (quiz g)) (mbti_answers (quiz g))))
    as (profile & Hp).
  fold (local_type_code g) in Hp.
  exists profile.
  assert (Hd : _get_mbti_type_description (local_type_code g) = profile).
  { unfold _get_mbti_type_description. now rewrite Hp. }
  split; [|split; [exact Hp | split]].
  - change (mbti_result (quiz (_generate_local_mbti_result g)))
      with (Some (_get_mbti_type_description (local_type_code g))).
    now rewrite Hd.
  - rewrite <- Hd. apply description_type.
  - reflexivity.
Qed.

End Profiles.

(* ===================================================================== *)
(** ** Further properties: keyboard input *)
(* ===================================================================== *)

Section SeqFacts.

Import PySeq.

Lemma take_drop (n : nat) (s : string) : (take n s ++ drop n s)%string = s.
Proof.
  revert s. induction n as [|n IH]; intros [|c r]; cbn; try reflexivity.
  now rewrite IH.
Qed.

Lemma str_length_app (a b : string) :
  String.length (a ++ b) = (String.length a + String.length b)%nat.
Proof. induction a as [|c r IH]; cbn; [reflexivity | now rewrite IH]. Qed.

Lemma len_app (a b : string) : len (a ++ b) = len a + len b.
Proof. unfold len. rewrite str_length_app. lia. Qed.

Lemma length_take (n : nat) (s : string) :
  (n <= String.length s)%nat -> String.length (take n s) = n.
Proof.
  revert s. induction n as [|n IH]; intros [|c r] H; cbn in *;
    try reflexivity; try lia.
  rewrite IH; [reflexivity | lia].
Qed.

Lemma take_app_exact (a b : string) : take (String.length a) (a ++ b) = a.
Proof. induction a as [|c r IH]; cbn; [now destruct b | now rewrite IH]. Qed.

Lemma drop_app_exact (a b : string) : drop (String.length a) (a ++ b) = b.
Proof. induction a as [|c r IH]; cbn; [now destruct b | exact IH]. Qed.

Lemma slice_bound_inside (n k : Z) :
  0 <= k <= n -> slice_bound n k = Z.to_nat k.
Proof.
  intros H. unfold slice_bound.
  destruct (Z.ltb_spec k 0); [lia|]. now rewrite Z.min_l by lia.
Qed.

Lemma slice_bound_beyond (n k : Z) :
  0 <= n <= k -> slice_bound n k = Z.to_nat n.
Proof.
  intros H. unfold slice_bound.
  destruct (Z.ltb_spec k 0); [lia|]. now rewrite Z.min_r by lia.
Qed.

Lemma take_all (n : nat) (s : string) :
  (String.length s <= n)%nat -> take n s = s.
Proof.
  revert s. induction n as [|n IH]; intros [|c r] H; cbn in *;
    try reflexivity; try lia.
  rewrite IH; [reflexivity | lia].
Qed.

Lemma drop_all (n : nat) (s : string) :
  (String.length s <= n)%nat -> drop n s = "".
Proof.
  revert s. induction n as [|n IH]; intros [|c r] H; cbn in *;
    try reflexivity; try lia.
  apply IH. lia.
Qed.

(** A cut of [s] at [k], with [u] put in between: the two halves are
    found again on either side of [u]. *)
Lemma upto_insert (k : Z) (s u : string) :
  0 <= k <= len s ->
  upto k (upto k s ++ u ++ from k s) = upto k s
  /\ from (k + len u) (upto k s ++ u ++ from k s) = from k s
  /\ (upto k s ++ from k s)%string = s
  /\ len (upto k s) = k.
Proof.
  intros Hk. unfold upto, from.
  rewrite (slice_bound_inside (len s) k Hk).
  assert (Hlen : String.length (take (Z.to_nat k) s) = Z.to_nat k).
  { apply length_take. unfold len in Hk. lia. }
  assert (Hl : len (take (Z.to_nat k) s) = k) by (unfold len; lia).
  rewrite !len_app, Hl.
  rewrite !slice_bound_inside by (unfold len in *; lia).
  repeat split.
  - rewrite <- Hlen at 1. apply take_app_exact.
  - replace (Z.to_nat (k + len u))
      with (String.length (take (Z.to_nat k) s ++ u)).
    + rewrite <- append_assoc. apply drop_app_exact.
    + rewrite str_length_app. unfold len. lia.
  - apply take_drop.
Qed.

Lemma item_inside {A : Type} (l : list A) (i : Z) :
  0 <= i < Z.of_nat (List.length l) -> item l i = Some (Z.to_nat i).
Proof.
  intros H. unfold item.
  destruct (Z.leb_spec 0 i); [|lia].
  destruct (Z.ltb_spec i (Z.of_nat (List.length l))); [|lia]. reflexivity.
Qed.

Lemma get_inside {A : Type} (l : list A) (i : Z) (x : A) :
  0 <= i -> get l i = Some x ->
  i < Z.of_nat (List.length l) /\ nth_error l (Z.to_nat i) = Some x.
Proof.
  intros Hi. unfold get, item.
  destruct (Z.leb_spec 0 i); [|lia].
  destruct (Z.ltb_spec i (Z.of_nat (List.length l))); cbn.
  - intros Hx. split; [lia | exact Hx].
  - destruct (Z.ltb_spec i 0); [lia|]. cbn. discriminate.
Qed.

Lemma nth_error_replace {A : Type} (l : list A) (k : nat) (v : A) :
  (k < List.length l)%nat ->
  nth_error (firstn k l ++ v :: skipn (S k) l) k = Some v
  /\ List.length (firstn k l ++ v :: skipn (S k) l) = List.length l.
Proof.
  intros H. split.
  - rewrite nth_error_app2; rewrite length_firstn, Nat.min_l by lia; [|lia].
    now rewrite Nat.sub_diag.
  - rewrite length_app, length_firstn.
    change (List.length (v :: skipn (S k) l))
      with (S (List.length (skipn (S k) l))).
    rewrite length_skipn. lia.
Qed.

(** [l[i] = v] on an index in range: the item is [v] afterwards, and
    the list is as long as before. *)
Lemma set_inside {A : Type} (l : list A) (i : Z) (v : A) :
  0 <= i < Z.of_nat (List.length l) ->
  exists l', set l i v = Some l'
    /\ l' = (firstn (Z.to_nat i) l ++ v :: skipn (S (Z.to_nat i)) l)%list
    /\ get l' i = Some v
    /\ List.length l' = List.length l.
Proof.
  intros H. unfold set. rewrite (item_inside l i H).
  destruct (nth_error_replace l (Z.to_nat i) v ltac:(lia)) as (Hn & Hlen).
  eexists. split; [reflexivity|]. split; [reflexivity|].
  split; [|exact Hlen].
  unfold get. rewrite item_inside by (rewrite Hlen; lia). exact Hn.
Qed.

Lemma replace_replace {A : Type} (l : list A) (k : nat) (v w : A) :
  (k < List.length l)%nat ->
  let l' := (firstn k l ++ v :: skipn (S k) l)%list in
  (firstn k l' ++ w :: skipn (S k) l')%list
  = (firstn k l ++ w :: skipn (S k) l)%list.
Proof.
  intros H l'. subst l'.
  assert (Hf : List.length (firstn k l) = k)
    by (rewrite length_firstn; lia).
  rewrite firstn_app, Hf, Nat.sub_diag, firstn_O, app_nil_r.
  rewrite firstn_all2 by lia.
  replace (S k) with (List.length (firstn k l) + 1)%nat at 1 by lia.
  rewrite skipn_app, Hf.
  replace (k + 1 - k)%nat with 1%nat by lia.
  rewrite skipn_all2 by lia. reflexivity.
Qed.

Lemma replace_same {A : Type} (l : list A) (k : nat) (v : A) :
  nth_error l k = Some v ->
  (firstn k l ++ v :: skipn (S k) l)%list = l.
Proof.
  revert l. induction k as [|k IH]; intros [|x l] H; cbn in *;
    try discriminate.
  - now injection H as ->.
  - now rewrite IH.
Qed.

End SeqFacts.

Section KeyFacts.

Import TextBox PySeq TextKeys.

Lemma after_key_fields (now : Z) (tb : t) :
  text (after_key now tb) = text tb
  /\ lines (after_key now tb) = lines tb
  /\ current_line (after_key now tb) = current_line tb
  /\ cursor_pos (after_key now tb) = cursor_pos tb
  /\ cursor_pos_single (after_key now tb) = cursor_pos_single tb
  /\ multiline (after_key now tb) = multiline tb
  /\ visible (after_key now tb) = visible tb
  /\ active (after_key now tb) = active tb.
Proof.
  unfold after_key. cbn.
  destruct (multiline tb) eqn:E; cbn; [|repeat split; reflexivity].
  destruct (current_line tb <? scroll_y tb / line_height); cbn;
    [repeat split; reflexivity|].
  destruct (current_line tb
            >? scroll_y tb / line_height + max_visible_lines _ - 1); cbn;
    repeat split; reflexivity.
Qed.

Lemma get_text_after_key (now : Z) (tb : t) :
  get_text (after_key now tb) = get_text tb.
Proof.
  destruct (after_key_fields now tb) as (Ht & Hl & _ & _ & _ & Hm & _).
  unfold get_text. now rewrite Ht, Hl, Hm.
Qed.

Lemma cursors_inside_after_key (now : Z) (tb : t) :
  cursors_inside tb -> cursors_inside (after_key now tb).
Proof.
  destruct (after_key_fields now tb) as (Ht & Hl & Hc & Hp & Hs & _).
  unfold cursors_inside. now rewrite Ht, Hl, Hc, Hp, Hs.
Qed.

(** A key press on a visible, active box. *)
Lemma keydown_active (now : Z) (max_length : option Z) (key : Key)
      (unicode : string) (tb : t) :
  visible tb = true -> active tb = true ->
  handle_keydown now max_length key unicode tb
  = match match key with
          | K_BACKSPACE => backspace tb
          | K_DELETE => delete tb
          | K_LEFT => left tb
          | K_RIGHT => right tb
          | K_RETURN =>
              if multiline tb then new_line tb
              else insert_unicode max_length unicode tb
          | K_TAB => Some tb
          | K_OTHER => insert_unicode max_length unicode tb
          end with
    | Some tb => Some (after_key now tb)
    | None => None
    end.
Proof. intros Hv Ha. unfold handle_keydown. now rewrite Hv, Ha. Qed.

(** The line under the cursor of a box whose cursors are inside. *)
Lemma cursor_line (tb : t) (line : string) :
  get (lines tb) (current_line tb) = Some line ->
  0 <= current_line tb ->
  current_line tb < Z.of_nat (List.length (lines tb))
  /\ nth_error (lines tb) (Z.to_nat (current_line tb)) = Some line.
Proof. intros Hg H0. now apply get_inside. Qed.

(** X27. A character typed and deleted again leaves the box as it was: the
    character goes in at the cursor, and after the backspace the text,
    the lines and the cursors are those from before the two key presses,
    in a single-line box and in a multi-line box alike. *)
Theorem typed_character_is_deleted_again
        (now1 now2 : Z) (c : ascii) (tb : t) :
  visible tb = true -> active tb = true -> cursors_inside tb ->
  exists tb1 tb2,
    handle_keydown now1 None K_OTHER (String c "") tb = Some tb1
    /\ handle_keydown now2 None K_BACKSPACE "" tb1 = Some tb2
    /\ (if multiline tb
        then exists line,
               get (lines tb) (current_line tb) = Some line
               /\ get (lines tb1) (current_line tb)
                  = Some (upto (cursor_pos tb) line
                          ++ String c (from (cursor_pos tb) line))%string
        else text tb1
             = (upto (cursor_pos_single tb) (text tb)
                ++ String c (from (cursor_pos_single tb) (text tb)))%string)
    /\ get_text tb2 = get_text tb
    /\ text tb2 = text tb
    /\ lines tb2 = lines tb
    /\ current_line tb2 = current_line tb
    /\ cursor_pos tb2 = cursor_pos tb
    /\ cursor_pos_single tb2 = cursor_pos_single tb.
Proof.
  intros Hv Ha (Hs & line & Hg & Hcl & Hcp).
  rewrite (keydown_active now1 None K_OTHER _ tb Hv Ha).
  unfold insert_unicode.
  destruct (multiline tb) eqn:Hm.
  - (* a multi-line box *)
    destruct (cursor_line tb line Hg Hcl) as (Hlt & Hnth).
    rewrite Hg.
    destruct (set_inside (lines tb) (current_line tb)
                (upto (cursor_pos tb) line ++ String c ""
                 ++ from (cursor_pos tb) line)%string ltac:(lia))
      as (ls1 & Hset1 & Hls1 & Hget1 & Hlen1).
    rewrite Hset1.
    set (tb0 := with_lines ls1 (current_line tb) (cursor_pos tb + 1) tb).
    destruct (after_key_fields now1 tb0)
      as (Ht & Hl & Hc & Hp & Hps & Hmu & Hvi & Hac).
    destruct (upto_insert (cursor_pos tb) line (String c "") Hcp)
      as (Hu1 & Hu2 & Hu3 & _).
    change (len (String c "")) with 1 in Hu2.
    destruct (set_inside ls1 (current_line tb) line ltac:(lia))
      as (ls2 & Hset2 & Hls2 & _).
    assert (Hback : ls2 = lines tb).
    { rewrite Hls2, Hls1.
      rewrite (replace_replace (lines tb) (Z.to_nat (current_line tb)))
        by lia.
      now apply replace_same. }
    exists (after_key now1 tb0),
      (after_key now2
         (with_lines ls2 (current_line tb) (cursor_pos tb) (after_key now1 tb0))).
    split; [reflexivity|].
    split.
    { rewrite (keydown_active now2 None K_BACKSPACE _ (after_key now1 tb0))
        by (rewrite ?Hvi, ?Hac; assumption).
      unfold backspace. rewrite Hmu, Hp, Hl, Hc.
      change (multiline tb0) with (multiline tb). rewrite Hm.
      change (cursor_pos tb0) with (cursor_pos tb + 1).
      change (lines tb0) with ls1.
      change (current_line tb0) with (current_line tb).
      destruct (Z.gtb_spec (cursor_pos tb + 1) 0) as [_|Hx]; [|lia].
      rewrite Hget1.
      rewrite Z.add_simpl_r, Hu1, Hu2, Hu3, Hset2. reflexivity. }
    split; [exists line; split; [reflexivity | rewrite Hl; exact Hget1]|].
    rewrite get_text_after_key.
    destruct (after_key_fields now2
                (with_lines ls2 (current_line tb) (cursor_pos tb) (after_key now1 tb0)))
      as (Ht2 & Hl2 & Hc2 & Hp2 & Hps2 & _).
    rewrite Ht2, Hl2, Hc2, Hp2, Hps2. cbn.
    rewrite Ht, Hps, Hback. unfold get_text. cbn. rewrite Hmu.
    change (multiline tb0) with (multiline tb). rewrite Hm.
    repeat split; reflexivity.
  - (* a single-line box *)
    set (tb0 := with_text
                  (upto (cursor_pos_single tb) (text tb) ++ String c ""
                   ++ from (cursor_pos_single tb) (text tb))
                  (cursor_pos_single tb + 1) tb).
    destruct (after_key_fields now1 tb0)
      as (Ht & Hl & Hc & Hp & Hps & Hmu & Hvi & Hac).
    destruct (upto_insert (cursor_pos_single tb) (text tb) (String c "") Hs)
      as (Hu1 & Hu2 & Hu3 & _).
    change (len (String c "")) with 1 in Hu2.
    exists (after_key now1 tb0),
      (after_key now2
         (with_text (text tb) (cursor_pos_single tb) (after_key now1 tb0))).
    split; [reflexivity|].
    split.
    { rewrite (keydown_active now2 None K_BACKSPACE _ (after_key now1 tb0))
        by (rewrite ?Hvi, ?Hac; assumption).
      unfold backspace. rewrite Hmu, Hps, Ht.
      change (multiline tb0) with (multiline tb). rewrite Hm.
      change (cursor_pos_single tb0) with (cursor_pos_single tb + 1).
      change (text tb0)
        with (upto (cursor_pos_single tb) (text tb) ++ String c ""
              ++ from (cursor_pos_single tb) (text tb))%string.
      destruct (Z.gtb_spec (cursor_pos_single tb + 1) 0) as [_|Hx]; [|lia].
      rewrite Z.add_simpl_r, Hu1, Hu2, Hu3. reflexivity. }
    split; [rewrite Ht; reflexivity|].
    rewrite get_text_after_key.
    destruct (after_key_fields now2
                (with_text (text tb) (cursor_pos_single tb) (after_key now1 tb0)))
      as (Ht2 & Hl2 & Hc2 & Hp2 & Hps2 & _).
    rewrite Ht2, Hl2, Hc2, Hp2, Hps2. cbn.
    rewrite Hl, Hc, Hp. unfold get_text. cbn. rewrite Hmu.
    change (multiline tb0) with (multiline tb). rewrite Hm.
    repeat split; reflexivity.
Qed.

Lemma upto_from_end (s : string) : upto (len s) s = s /\ from (len s) s = "".
Proof.
  unfold upto, from.
  rewrite slice_bound_inside by (unfold len; lia).
  unfold len. rewrite Nat2Z.id.
  split; [apply take_all | apply drop_all]; lia.
Qed.

Lemma upto_from_prefix (p rest : string) :
  upto (len p) (p ++ rest) = p /\ from (len p) (p ++ rest) = rest.
Proof.
  unfold upto, from.
  rewrite slice_bound_inside by (rewrite len_app; unfold len; lia).
  unfold len. rewrite Nat2Z.id.
  split; [apply take_app_exact | apply drop_app_exact].
Qed.

(** Typing into a single-line box whose cursor is at the end. *)
Lemma typed_at_end (now : Z) (s : string) :
  forall tb,
    visible tb = true -> active tb = true -> multiline tb = false ->
    cursor_pos_single tb = len (text tb) ->
    exists tb',
      press_all now None (typed s) tb = Some tb'
      /\ text tb' = (text tb ++ s)%string
      /\ multiline tb' = false.
Proof.
  induction s as [|c r IH]; intros tb Hv Ha Hm Hc; cbn [typed press_all].
  - exists tb. now rewrite append_nil_r.
  - rewrite (keydown_active now None K_OTHER _ tb Hv Ha).
    unfold insert_unicode. rewrite Hm, Hc.
    destruct (upto_from_end (text tb)) as (-> & ->).
    set (tb0 := with_text (text tb ++ String c "" ++ "")
                          (len (text tb) + 1) tb).
    destruct (after_key_fields now tb0)
      as (Ht & _ & _ & _ & Hps & Hmu & Hvi & Hac).
    destruct (IH (after_key now tb0)) as (tb' & Hp & Htx & Hm').
    + now rewrite Hvi.
    + now rewrite Hac.
    + now rewrite Hmu.
    + rewrite Hps, Ht. cbn. rewrite !len_app. reflexivity.
    + exists tb'. split; [exact Hp|]. split; [|exact Hm'].
      rewrite Htx, Ht.
      change (text tb0) with (text tb ++ String c "" ++ "")%string.
      rewrite append_assoc. reflexivity.
Qed.

(** Typing into the first line of a multi-line box, after [p]. *)
Lemma typed_in_first_line (now : Z) (s : string) :
  forall tb p l0 rest,
    visible tb = true -> active tb = true -> multiline tb = true ->
    lines tb = (p ++ l0)%string :: rest ->
    current_line tb = 0 ->
    cursor_pos tb = len p ->
    exists tb',
      press_all now None (typed s) tb = Some tb'
      /\ lines tb' = (p ++ s ++ l0)%string :: rest
      /\ multiline tb' = true.
Proof.
  induction s as [|c r IH]; intros tb p l0 rest Hv Ha Hm Hl Hc Hp;
    cbn [typed press_all].
  - exists tb. now split.
  - rewrite (keydown_active now None K_OTHER _ tb Hv Ha).
    unfold insert_unicode. rewrite Hm, Hl, Hc, Hp.
    change (get ((p ++ l0)%string :: rest) 0) with (Some (p ++ l0)%string).
    destruct (upto_from_prefix p l0) as (-> & ->).
    change (set ((p ++ l0)%string :: rest) 0 (p ++ String c "" ++ l0)%string)
      with (Some ((p ++ String c "" ++ l0)%string :: rest)).
    set (tb0 := with_lines ((p ++ String c "" ++ l0)%string :: rest) 0
                           (len p + 1) tb).
    destruct (after_key_fields now tb0)
      as (_ & Hls & Hcl & Hcp & _ & Hmu & Hvi & Hac).
    destruct (IH (after_key now tb0) (p ++ String c "")%string l0 rest)
      as (tb' & Hpr & Hln & Hm').
    + now rewrite Hvi.
    + now rewrite Hac.
    + now rewrite Hmu.
    + rewrite Hls. cbn. now rewrite append_assoc.
    + now rewrite Hcl.
    + rewrite Hcp. cbn. rewrite len_app. reflexivity.
    + exists tb'. split; [exact Hpr|]. split; [|exact Hm'].
      rewrite Hln, append_assoc. reflexivity.
Qed.

Lemma join_head (sep a x : string) (l : list string) :
  PyStr.join sep ((a ++ x)%string :: l) = (a ++ PyStr.join sep (x :: l))%string.
Proof. destruct l; cbn; [reflexivity | now rewrite append_assoc]. Qed.

(** X28. What is typed after [set_text] goes behind the text in a
    single-line box and in front of it in a multi-line box: [set_text]
    leaves the cursor at the end of the one and at the start of the
    other. *)
Theorem typing_after_set_text (now : Z) (old typed_text : string) (tb : t) :
  visible tb = true -> active tb = true ->
  exists tb',
    press_all now None (typed typed_text) (set_text old tb) = Some tb'
    /\ get_text tb'
       = (if multiline tb then typed_text ++ old else old ++ typed_text)%string.
Proof.
  intros Hv Ha. destruct (multiline tb) eqn:Hm.
  - assert (Hls : exists l0 rest,
               lines (set_text old tb) = l0 :: rest
               /\ PyStr.join PyStr.nl (l0 :: rest) = old).
    { unfold set_text. rewrite Hm. cbn [lines].
      pose proof (join_split_char (ascii_of_nat 10) old) as Hj.
      pose proof (split_from_nonempty PyStr.nl old None O "") as Hne.
      change (String (ascii_of_nat 10) "") with PyStr.nl in Hj.
      unfold PyStr.split in *.
      destruct (PyStr.split_from PyStr.nl None 0 "" old) as [|l0 rest];
        [now elim Hne|].
      now exists l0, rest. }
    destruct Hls as (l0 & rest & Hls & Hj).
    destruct (typed_in_first_line now typed_text (set_text old tb) "" l0 rest)
      as (tb' & Hp & Hl & Hm').
    + unfold set_text. now rewrite Hm.
    + unfold set_text. now rewrite Hm.
    + unfold set_text. now rewrite Hm.
    + exact Hls.
    + unfold set_text. now rewrite Hm.
    + unfold set_text. now rewrite Hm.
    + exists tb'. split; [exact Hp|].
      unfold get_text. rewrite Hm', Hl. cbn [append].
      now rewrite join_head, Hj.
  - destruct (typed_at_end now typed_text (set_text old tb))
      as (tb' & Hp & Ht & Hm').
    + unfold set_text. now rewrite Hm.
    + unfold set_text. now rewrite Hm.
    + unfold set_text. now rewrite Hm.
    + unfold set_text. now rewrite Hm.
    + exists tb'. split; [exact Hp|].
      unfold get_text. rewrite Hm', Ht.
      unfold set_text. now rewrite Hm.
Qed.

(** X29. A key press that carries no character still moves the cursor of a
    single-line box one place on. With the cursor at the end of the
    text it ends up behind the text, and the next backspace deletes
    nothing, whereas a backspace alone shortens the text by one
    character. *)
Theorem key_without_character_swallows_backspace
        (now1 now2 : Z) (tb : t) :
  visible tb = true -> active tb = true -> multiline tb = false ->
  cursor_pos_single tb = len (text tb) ->
  text tb <> "" ->
  exists tb1 tb2 tb3,
    handle_keydown now1 None K_OTHER "" tb = Some tb1
    /\ text tb1 = text tb
    /\ cursor_pos_single tb1 = len (text tb) + 1
    /\ handle_keydown now2 None K_BACKSPACE "" tb1 = Some tb2
    /\ text tb2 = text tb
    /\ handle_keydown now2 None K_BACKSPACE "" tb = Some tb3
    /\ len (text tb3) = len (text tb) - 1.
Proof.
  intros Hv Ha Hm Hc Hne.
  destruct (upto_from_end (text tb)) as (Hu & Hf).
  assert (Hpos : 0 < len (text tb)).
  { unfold len. destruct (text tb); [congruence | cbn; lia]. }
  set (tb0 := with_text (text tb) (len (text tb) + 1) tb).
  destruct (after_key_fields now1 tb0)
    as (Ht & _ & _ & _ & Hps & Hmu & Hvi & Hac).
  assert (Hbeyond : from (len (text tb) + 1) (text tb) = "").
  { unfold from. rewrite slice_bound_beyond by (unfold len; lia).
    apply drop_all. unfold len. lia. }
  exists (after_key now1 tb0),
    (after_key now2 (with_text (text tb) (len (text tb)) (after_key now1 tb0))),
    (after_key now2
       (with_text (upto (len (text tb) - 1) (text tb)) (len (text tb) - 1) tb)).
  split.
  { rewrite (keydown_active now1 None K_OTHER _ tb Hv Ha).
    unfold insert_unicode. rewrite Hm, Hc, Hu, Hf.
    cbn [append]. now rewrite append_nil_r. }
  split; [now rewrite Ht|].
  split; [now rewrite Hps|].
  split.
  { rewrite (keydown_active now2 None K_BACKSPACE _ (after_key now1 tb0))
      by (rewrite ?Hvi, ?Hac; assumption).
    unfold backspace. rewrite Hmu, Hps, Ht.
    change (multiline tb0) with (multiline tb). rewrite Hm.
    change (cursor_pos_single tb0) with (len (text tb) + 1).
    change (text tb0) with (text tb).
    destruct (Z.gtb_spec (len (text tb) + 1) 0) as [_|Hx]; [|lia].
    now rewrite Z.add_simpl_r, Hu, Hbeyond, append_nil_r. }
  split.
  { destruct (after_key_fields now2
                (with_text (text tb) (len (text tb)) (after_key now1 tb0)))
      as (Ht2 & _).
    now rewrite Ht2. }
  split.
  { rewrite (keydown_active now2 None K_BACKSPACE _ tb Hv Ha).
    unfold backspace. rewrite Hm, Hc.
    destruct (Z.gtb_spec (len (text tb)) 0) as [_|Hx]; [|lia].
    now rewrite Hf, append_nil_r. }
  destruct (after_key_fields now2
              (with_text (upto (len (text tb) - 1) (text tb))
                         (len (text tb) - 1) tb)) as (Ht3 & _).
  rewrite Ht3. cbn [text with_text edited].
  unfold upto. rewrite slice_bound_inside by lia.
  unfold len at 1. rewrite length_take by (unfold len in *; lia). lia.
Qed.

Lemma len_nonneg (s : string) : 0 <= len s.
Proof. unfold len. lia. Qed.

Lemma len_upto (k : Z) (s : string) : 0 <= k <= len s -> len (upto k s) = k.
Proof. intros H. now destruct (upto_insert k s "" H) as (_ & _ & _ & Hl). Qed.

Lemma len_from (k : Z) (s : string) :
  0 <= k <= len s -> len (from k s) = len s - k.
Proof.
  intros H. destruct (upto_insert k s "" H) as (_ & _ & Hs & Hl).
  assert (Hsum : len (upto k s ++ from k s) = len s) by now rewrite Hs.
  rewrite len_app, Hl in Hsum. lia.
Qed.

Lemma get_some {A : Type} (l : list A) (i : Z) :
  0 <= i < Z.of_nat (List.length l) ->
  exists x, get l i = Some x /\ nth_error l (Z.to_nat i) = Some x.
Proof.
  intros H. unfold get. rewrite (item_inside l i H).
  destruct (nth_error l (Z.to_nat i)) as [x|] eqn:E.
  - now exists x.
  - apply nth_error_None in E. lia.
Qed.

Lemma inside_lines (tb : t) (ls : list string) (cl cp : Z) (line : string) :
  cursors_inside tb ->
  get ls cl = Some line -> 0 <= cl -> 0 <= cp <= len line ->
  cursors_inside (with_lines ls cl cp tb).
Proof.
  intros (Hs & _) Hg Hcl Hcp. split; [exact Hs|]. now exists line.
Qed.

Lemma inside_text (tb : t) (txt : string) (cps : Z) :
  cursors_inside tb -> 0 <= cps <= len txt ->
  cursors_inside (with_text txt cps tb).
Proof. intros (_ & Hl) Hc. split; [exact Hc | exact Hl]. Qed.

Lemma inside_scroll (tb : t) (sy : Z) :
  cursors_inside tb -> cursors_inside (with_scroll_y sy tb).
Proof. intros H. exact H. Qed.

Lemma backspace_inside (tb : t) :
  cursors_inside tb ->
  exists tb', backspace tb = Some tb' /\ cursors_inside tb'.
Proof.
  intros Hin. pose proof Hin as (Hs & line & Hg & Hcl & Hcp).
  destruct (cursor_line tb line Hg Hcl) as (Hlt & Hnth).
  unfold backspace. destruct (multiline tb).
  - destruct (Z.gtb_spec (cursor_pos tb) 0) as [Hpos|Hzero].
    + rewrite Hg.
      destruct (set_inside (lines tb) (current_line tb)
                  (upto (cursor_pos tb - 1) line ++ from (cursor_pos tb) line)%string
                  ltac:(lia)) as (ls & Hset & _ & Hget & _).
      rewrite Hset. eexists. split; [reflexivity|].
      apply (inside_lines tb ls _ _ _ Hin Hget Hcl).
      rewrite len_app, len_upto, len_from by lia. lia.
    + destruct (Z.gtb_spec (current_line tb) 0) as [Hline|Hfirst].
      * destruct (get_some (lines tb) (current_line tb - 1) ltac:(lia))
          as (previous & Hgp & _).
        rewrite Hgp, Hg.
        destruct (set_inside (lines tb) (current_line tb - 1)
                    (previous ++ line)%string ltac:(lia))
          as (ls & Hset & _ & Hget & Hlen).
        rewrite Hset. unfold pop.
        rewrite item_inside by (rewrite Hlen; lia).
        eexists. split; [reflexivity|].
        apply (inside_lines tb _ _ _ (previous ++ line)%string Hin);
          [| lia | rewrite len_app; pose proof (len_nonneg line);
                   pose proof (len_nonneg previous); lia].
        destruct (get_inside ls (current_line tb - 1) _ ltac:(lia) Hget)
          as (_ & Hn).
        unfold get. rewrite item_inside.
        -- rewrite nth_error_app1
             by (rewrite length_firstn; lia).
           rewrite nth_error_firstn.
           destruct (Nat.ltb_spec (Z.to_nat (current_line tb - 1))
                                  (Z.to_nat (current_line tb))); [exact Hn | lia].
        -- rewrite length_app, length_firstn, length_skipn. lia.
      * exists tb. now split.
  - destruct (Z.gtb_spec (cursor_pos_single tb) 0) as [Hpos|Hzero].
    + eexists. split; [reflexivity|]. apply inside_text; [exact Hin|].
      rewrite len_app, len_upto, len_from by lia. lia.
    + exists tb. now split.
Qed.

Lemma delete_inside (tb : t) :
  cursors_inside tb ->
  exists tb', delete tb = Some tb' /\ cursors_inside tb'.
Proof.
  intros Hin. pose proof Hin as (Hs & line & Hg & Hcl & Hcp).
  destruct (cursor_line tb line Hg Hcl) as (Hlt & Hnth).
  unfold delete. destruct (multiline tb).
  - rewrite Hg. destruct (Z.ltb_spec (cursor_pos tb) (len line)) as [Hin'|Hend].
    + destruct (set_inside (lines tb) (current_line tb)
                  (upto (cursor_pos tb) line ++ from (cursor_pos tb + 1) line)%string
                  ltac:(lia)) as (ls & Hset & _ & Hget & _).
      rewrite Hset. eexists. split; [reflexivity|].
      apply (inside_lines tb ls _ _ _ Hin Hget Hcl).
      rewrite len_app, len_upto, len_from by lia. lia.
    + exists tb. now split.
  - destruct (Z.ltb_spec (cursor_pos_single tb) (len (text tb))) as [Hin'|Hend].
    + eexists. split; [reflexivity|]. apply inside_text; [exact Hin|].
      rewrite len_app, len_upto, len_from by lia. lia.
    + exists tb. now split.
Qed.

Lemma left_inside (tb : t) :
  cursors_inside tb ->
  exists tb', left tb = Some tb' /\ cursors_inside tb'.
Proof.
  intros Hin. pose proof Hin as (Hs & line & Hg & Hcl & Hcp).
  destruct (cursor_line tb line Hg Hcl) as (Hlt & Hnth).
  unfold left. destruct (multiline tb).
  - destruct (Z.gtb_spec (cursor_pos tb) 0) as [Hpos|Hzero].
    + eexists. split; [reflexivity|].
      apply (inside_lines tb _ _ _ _ Hin Hg Hcl). lia.
    + destruct (Z.gtb_spec (current_line tb) 0) as [Hline|Hfirst].
      * destruct (get_some (lines tb) (current_line tb - 1) ltac:(lia))
          as (previous & Hgp & _).
        rewrite Hgp. eexists. split; [reflexivity|].
        apply (inside_lines tb _ _ _ _ Hin Hgp); [lia|].
        pose proof (len_nonneg previous). lia.
      * exists tb. now split.
  - eexists. split; [reflexivity|]. apply inside_text; [exact Hin | lia].
Qed.

Lemma right_inside (tb : t) :
  cursors_inside tb ->
  exists tb', right tb = Some tb' /\ cursors_inside tb'.
Proof.
  intros Hin. pose proof Hin as (Hs & line & Hg & Hcl & Hcp).
  destruct (cursor_line tb line Hg Hcl) as (Hlt & Hnth).
  unfold right. destruct (multiline tb).
  - rewrite Hg. destruct (Z.ltb_spec (cursor_pos tb) (len line)) as [Hin'|Hend].
    + eexists. split; [reflexivity|].
      apply (inside_lines tb _ _ _ _ Hin Hg Hcl). lia.
    + destruct (Z.ltb_spec (current_line tb)
                  (Z.of_nat (List.length (lines tb)) - 1)) as [Hmore|Hlast].
      * destruct (get_some (lines tb) (current_line tb + 1) ltac:(lia))
          as (next & Hgn & _).
        eexists. split; [reflexivity|].
        apply (inside_lines tb _ _ _ _ Hin Hgn); [lia|].
        pose proof (len_nonneg next). lia.
      * exists tb. now split.
  - eexists. split; [reflexivity|]. apply inside_text; [exact Hin|].
    pose proof (len_nonneg (text tb)). lia.
Qed.

Lemma new_line_inside (tb : t) :
  cursors_inside tb ->
  exists tb', new_line tb = Some tb' /\ cursors_inside tb'.
Proof.
  intros Hin. pose proof Hin as (Hs & line & Hg & Hcl & Hcp).
  destruct (cursor_line tb line Hg Hcl) as (Hlt & Hnth).
  unfold new_line. rewrite Hg.
  destruct (set_inside (lines tb) (current_line tb)
              (upto (cursor_pos tb) line) ltac:(lia))
    as (ls & Hset & _ & Hget & Hlen).
  rewrite Hset. cbv zeta.
  assert (Hnew : cursors_inside
                   (with_lines
                      (insert ls (current_line tb + 1)
                              (from (cursor_pos tb) line))
                      (current_line tb + 1) 0 tb)).
  { apply (inside_lines tb _ _ _ (from (cursor_pos tb) line) Hin);
      [| lia | pose proof (len_nonneg (from (cursor_pos tb) line)); lia].
    unfold insert.
    rewrite slice_bound_inside by (rewrite Hlen; lia).
    unfold get. rewrite item_inside.
    - rewrite nth_error_app2 by (rewrite length_firstn; lia).
      rewrite length_firstn, Nat.min_l by lia.
      now rewrite Nat.sub_diag.
    - rewrite length_app, length_firstn.
      change (List.length (from (cursor_pos tb) line
                           :: skipn (Z.to_nat (current_line tb + 1)) ls))
        with (S (List.length (skipn (Z.to_nat (current_line tb + 1)) ls))).
      rewrite length_skipn. lia. }
  match goal with |- context [if ?c then _ else _] => destruct c end;
    eexists; (split; [reflexivity|]); [apply inside_scroll|]; exact Hnew.
Qed.

Lemma insert_inside (max_length : option Z) (unicode : string) (tb : t) :
  cursors_inside tb -> String.length unicode = 1%nat ->
  exists tb', insert_unicode max_length unicode tb = Some tb'
              /\ cursors_inside tb'.
Proof.
  intros Hin Hu. pose proof Hin as (Hs & line & Hg & Hcl & Hcp).
  destruct (cursor_line tb line Hg Hcl) as (Hlt & Hnth).
  assert (Hlu : len unicode = 1) by (unfold len; lia).
  unfold insert_unicode.
  match goal with |- context [if ?c then _ else Some tb] => destruct c end;
    [|exists tb; now split].
  destruct (multiline tb).
  - rewrite Hg.
    destruct (set_inside (lines tb) (current_line tb)
                (upto (cursor_pos tb) line ++ unicode
                 ++ from (cursor_pos tb) line)%string ltac:(lia))
      as (ls & Hset & _ & Hget & _).
    rewrite Hset. eexists. split; [reflexivity|].
    apply (inside_lines tb ls _ _ _ Hin Hget Hcl).
    rewrite !len_app, len_upto, len_from by lia. lia.
  - eexists. split; [reflexivity|]. apply inside_text; [exact Hin|].
    rewrite !len_app, len_upto, len_from by lia. lia.
Qed.

End KeyFacts.

Section CursorFacts.

Import TextBox PySeq TextKeys.

Variable text_width : string -> Z.

Lemma cursor_scan_bounds (line : string) (rel_x : Z) (fuel : nat) :
  forall i, (i + fuel <= String.length line)%nat ->
    0 <= cursor_scan text_width fuel i line rel_x <= len line.
Proof.
  unfold len. induction fuel as [|fuel IH]; intros i Hi; cbn [cursor_scan].
  - lia.
  - destruct (rel_x <=? text_width (substring 0 (S i) line)); [lia|].
    apply IH. lia.
Qed.

Lemma cursor_from_click_bounds (line : string) (rel_x : Z) :
  0 <= cursor_from_click text_width line rel_x <= len line.
Proof. unfold cursor_from_click. apply cursor_scan_bounds. lia. Qed.

Lemma click_inside (now : Z) (pos : Pos) (tb : t) :
  cursors_inside tb -> cursors_inside (handle_event text_width now pos tb).
Proof.
  intros Hin. pose proof Hin as (Hs & line & Hg & Hcl & Hcp).
  destruct (cursor_line tb line Hg Hcl) as (Hlt & Hnth).
  unfold handle_event.
  destruct (negb (visible tb)); [exact Hin|].
  destruct (collidepoint (rect tb) pos && multiline tb && active tb)%bool.
  - cbv zeta.
    set (clicked_line :=
           Z.min (Z.max ((snd pos - ry (rect tb) - 5 + scroll_y tb) / line_height) 0)
                 (Z.of_nat (List.length (lines tb)) - 1)).
    assert (Hrange : 0 <= clicked_line < Z.of_nat (List.length (lines tb)))
      by (subst clicked_line; lia).
    destruct (get_some (lines tb) clicked_line Hrange) as (clicked & Hgc & Hn).
    split; [exact Hs|]. exists clicked. cbn.
    split; [exact Hgc|]. split; [lia|].
    rewrite (nth_error_nth _ _ "" Hn).
    apply cursor_from_click_bounds.
  - destruct (collidepoint (rect tb) pos && negb (multiline tb))%bool.
    + split; [|exists line; now repeat split].
      cbn. destruct (PyStr.truthy (text tb)).
      * apply cursor_from_click_bounds.
      * pose proof (len_nonneg (text tb)). lia.
    + exact Hin.
Qed.

Lemma set_text_inside (s : string) (tb : t) :
  cursors_inside tb -> cursors_inside (set_text s tb).
Proof.
  intros (Hs & Hl). unfold set_text. destruct (multiline tb).
  - split; [exact Hs|]. cbn.
    pose proof (split_from_nonempty PyStr.nl s None O "") as Hne.
    unfold PyStr.split.
    destruct (PyStr.split_from PyStr.nl None 0 "" s) as [|l0 rest];
      [now elim Hne|].
    exists l0. pose proof (len_nonneg l0). repeat split; try reflexivity; lia.
  - split; [|exact Hl]. cbn. unfold len. lia.
Qed.

(** X30. The cursors of a text box never leave its text. They are inside it
    when the box is built, and every operation keeps them there: a click,
    [set_text], and every key press that carries one character; no such
    key press raises an [IndexError]. *)
Theorem cursors_stay_inside :
  (forall x y width height multi now,
      cursors_inside (init x y width height multi now))
  /\ (forall tb, cursors_inside tb ->
        (forall now pos, cursors_inside (handle_event text_width now pos tb))
        /\ (forall s, cursors_inside (set_text s tb))
        /\ (forall now max_length key unicode,
              String.length unicode = 1%nat ->
              exists tb',
                handle_keydown now max_length key unicode tb = Some tb'
                /\ cursors_inside tb')).
Proof.
  split.
  - intros x y width height multi now. split; [cbn; unfold len; cbn; lia|].
    exists "". cbn. unfold len. cbn. repeat split; lia.
  - intros tb Hin.
    split; [intros now pos; now apply click_inside|].
    split; [intros s; now apply set_text_inside|].
    intros now max_length key unicode Hu. unfold handle_keydown.
    destruct (negb (visible tb)); [now exists tb|].
    destruct (negb (active tb)); [now exists tb|].
    assert (Hstep : exists tb1,
               match key with
               | K_BACKSPACE => backspace tb
               | K_DELETE => delete tb
               | K_LEFT => left tb
               | K_RIGHT => right tb
               | K_RETURN =>
                   if multiline tb then new_line tb
                   else insert_unicode max_length unicode tb
               | K_TAB => Some tb
               | K_OTHER => insert_unicode max_length unicode tb
               end = Some tb1 /\ cursors_inside tb1).
    { destruct key.
      - now apply backspace_inside.
      - now apply delete_inside.
      - now apply left_inside.
      - now apply right_inside.
      - destruct (multiline tb);
          [now apply new_line_inside | now apply insert_inside].
      - now exists tb.
      - now apply insert_inside. }
    destruct Hstep as (tb1 & -> & Hin1).
    exists (after_key now tb1). split; [reflexivity|].
    now apply cursors_inside_after_key.
Qed.

End CursorFacts.

Lemma focused_box_inside (multi : bool) :
  TextKeys.cursors_inside (focused_box multi "ab").
Proof.
  destruct multi.
  - split; [vm_compute; split; discriminate|].
    exists "ab". split; [reflexivity|].
    vm_compute. repeat split; discriminate.
  - split; [vm_compute; split; discriminate|].
    exists "". split; [reflexivity|].
    vm_compute. repeat split; discriminate.
Defined.

Lemma typed_character_is_deleted_again_witness :
  exists tb1 tb2,
    TextKeys.handle_keydown 10 None K_OTHER "c" (focused_box true "ab") = Some tb1
    /\ TextKeys.handle_keydown 20 None K_BACKSPACE "" tb1 = Some tb2
    /\ TextBox.get_text tb2 = "ab".
Proof.
  destruct (typed_character_is_deleted_again 10 20 "c"%char
              (focused_box true "ab") eq_refl eq_refl (focused_box_inside true))
    as (tb1 & tb2 & H1 & H2 & _ & H4 & _).
  exists tb1, tb2. split; [exact H1 | split; [exact H2 | exact H4]].
Defined.

Lemma typing_after_set_text_witness :
  exists tb',
    TextKeys.press_all 10 None (TextKeys.typed "cd")
      (TextBox.set_text "ab" (focused_box true "")) = Some tb'
    /\ TextBox.get_text tb' = "cdab".
Proof.
  destruct (typing_after_set_text 10 "ab" "cd" (focused_box true "")
              eq_refl eq_refl) as (tb' & H1 & H2).
  exists tb'. split; [exact H1 | exact H2].
Defined.

Lemma key_without_character_swallows_backspace_witness :
  exists tb1 tb2,
    TextKeys.handle_keydown 10 None K_OTHER "" (focused_box false "ab") = Some tb1
    /\ TextBox.cursor_pos_single tb1 = 3
    /\ TextKeys.handle_keydown 20 None K_BACKSPACE "" tb1 = Some tb2
    /\ TextBox.text tb2 = "ab".
Proof.
  destruct (key_without_character_swallows_backspace 10 20
              (focused_box false "ab") eq_refl eq_refl eq_refl eq_refl)
    as (tb1 & tb2 & _ & H1 & _ & H3 & H4 & H5 & _).
  - intros Hx; discriminate Hx.
  - exists tb1, tb2.
    split; [exact H1 | split; [exact H3 | split; [exact H4 | exact H5]]].
Defined.

Lemma cursors_stay_inside_witness :
  exists tb',
    TextKeys.handle_keydown 10 None K_RETURN (String (ascii_of_nat 13) "")
      (focused_box true "ab") = Some tb'
    /\ TextKeys.cursors_inside tb'.
Proof.
  destruct (cursors_stay_inside fixed_width_font) as (_ & H).
  destruct (H (focused_box true "ab") (focused_box_inside true)) as (_ & _ & Hk).
  exact (Hk 10 None K_RETURN (String (ascii_of_nat 13) "") eq_refl).
Defined.
